(** * Ariadne research orchestration: workflow engine and context memory graph

    A shallow embedding of [backend/services/memory_service.py] and
    [backend/services/workflow_service.py], with the part of
    [backend/core/registry.py] the workflow engine calls ([get_tool]).

    Modelling conventions.
    - A Python [str] is a Rocq [string]; each [ascii] stands for the code
      point of the same number (U+0000 .. U+00FF).
    - A Python [dict] is an association list in insertion order: assigning to
      an existing key keeps the key's position, a new key goes to the end.
    - A raised exception is a value [Raise e]; a function that may raise
      returns a [Result].  Where the source mutates state before it raises,
      the state is returned next to the [Result].  An exception carries the
      name of its class; [is_exception] tells whether [except Exception]
      catches it.
    - [datetime.utcnow()], [uuid.uuid4()], [json.dumps], the iteration order
      of a [set] of strings and the registered tools are inputs of the
      operations that consult them.  All clock reads of one call see the same
      instant.
    - [async]/[await] is sequential composition. *)

From Stdlib Require Import String Ascii List Bool Arith ZArith Lia Sorted.
Import ListNotations.
Open Scope string_scope.

Set Implicit Arguments.
Set Warnings "-register-all".


(* ===================================================================== *)
(** ** Python strings *)
(* ===================================================================== *)

Module PyStr.

(** [str.lower] on one code point below U+0100: the upper-case letters are
    A..Z, U+00C0..U+00D6 and U+00D8..U+00DE, each 32 below its lower-case
    form. *)
Definition lower_char (c : ascii) : ascii :=
  let n := nat_of_ascii c in
  if (((65 <=? n) && (n <=? 90)) || ((192 <=? n) && (n <=? 214))
      || ((216 <=? n) && (n <=? 222)))%nat
  then ascii_of_nat (n + 32) else c.

Fixpoint lower (s : string) : string :=
  match s with
  | EmptyString => EmptyString
  | String c s' => String (lower_char c) (lower s')
  end.

(** [str.isspace] for one code point below U+0100. *)
Definition isspace (c : ascii) : bool :=
  let n := nat_of_ascii c in
  (((9 <=? n) && (n <=? 13)) || ((28 <=? n) && (n <=? 32))
   || (n =? 133) || (n =? 160))%nat.

Definition flush (cur : string) : list string :=
  match cur with EmptyString => [] | _ => [cur] end.

(** [str.split()] without arguments: maximal runs of non-space characters.
    [cur] is the run being read. *)
Fixpoint split_from (cur s : string) : list string :=
  match s with
  | EmptyString => flush cur
  | String c s' =>
      if isspace c then (flush cur ++ split_from EmptyString s')%list
      else split_from (cur ++ String c EmptyString) s'
  end.

Definition split (s : string) : list string := split_from EmptyString s.

(** [sub in s] for two strings. *)
Fixpoint contains (sub s : string) : bool :=
  String.prefix sub s ||
  match s with
  | EmptyString => false
  | String _ s' => contains sub s'
  end.

(** [s.replace(' ', '_')]. *)
Fixpoint replace_space (s : string) : string :=
  match s with
  | EmptyString => EmptyString
  | String c s' =>
      String (if Ascii.eqb c " "%char then "_"%char else c) (replace_space s')
  end.

(** [s[:n]] for [n >= 0]. *)
Fixpoint take (n : nat) (s : string) : string :=
  match n, s with
  | S n', String c s' => String c (take n' s')
  | _, _ => EmptyString
  end.

(** Every character of [s] passes the test [P]. *)
Fixpoint all_chars (P : ascii -> bool) (s : string) : bool :=
  match s with
  | EmptyString => true
  | String c s' => P c && all_chars P s'
  end.

(** A character that [str.lower] leaves alone. *)
Definition lower_fixed (c : ascii) : bool := Ascii.eqb (lower_char c) c.

(** A character of a word of a lower-cased text: no space, and
    [str.lower] leaves it alone. *)
Definition settled (c : ascii) : bool := negb (isspace c) && lower_fixed c.

End PyStr.

(* ===================================================================== *)
(** ** Python values, exceptions, dictionaries *)
(* ===================================================================== *)

(** The values that travel through step results and context data
    ([Any] in the source's annotations).  A [PyFloat] is named by its
    [repr]; a [PyObj] is an object that is neither a container nor JSON
    serialisable. *)
Inductive PyVal : Type :=
| PyNone
| PyBool (b : bool)
| PyInt (z : Z)
| PyFloat (repr : string)
| PyStr (s : string)
| PyList (l : list PyVal)
| PyDict (d : list (string * PyVal))
| PyObj (type_name : string).

Record Exn : Type := mkExn { exn_kind : string; exn_msg : string }.

(** The classes of the standard library that derive from [BaseException]
    and not from [Exception]; every other class that is raised here derives
    from [Exception]. *)
Definition base_exceptions : list string :=
  ["BaseException"; "CancelledError"; "KeyboardInterrupt"; "SystemExit";
   "GeneratorExit"; "BaseExceptionGroup"].

(** [isinstance(e, Exception)]: what [except Exception] catches. *)
Definition is_exception (e : Exn) : bool :=
  negb (existsb (String.eqb (exn_kind e)) base_exceptions).

Inductive Result (A : Type) : Type :=
| Ok (a : A)
| Raise (e : Exn).
Arguments Ok {A} a.
Arguments Raise {A} e.

Definition isOk {A} (r : Result A) : bool :=
  match r with Ok _ => true | Raise _ => false end.

Section Dict.
Variable V : Type.

Definition dict := list (string * V).

(** [d.get(k)] *)
Fixpoint dict_get (k : string) (d : dict) : option V :=
  match d with
  | [] => None
  | (k', v) :: d' => if String.eqb k k' then Some v else dict_get k d'
  end.

(** [d[k] = v] *)
Fixpoint dict_set (k : string) (v : V) (d : dict) : dict :=
  match d with
  | [] => [(k, v)]
  | (k', v') :: d' =>
      if String.eqb k k' then (k', v) :: d' else (k', v') :: dict_set k v d'
  end.

Definition dict_values (d : dict) : list V := map snd d.
End Dict.

Definition type_name_of (v : PyVal) : string :=
  match v with
  | PyNone => "NoneType"
  | PyBool _ => "bool"
  | PyInt _ => "int"
  | PyFloat _ => "float"
  | PyStr _ => "str"
  | PyList _ => "list"
  | PyDict _ => "dict"
  | PyObj t => t
  end.

(** [v.get(k, default)]: defined on dictionaries only. *)
Definition py_get (v : PyVal) (k : string) (default : PyVal) : Result PyVal :=
  match v with
  | PyDict d =>
      Ok (match dict_get k d with Some x => x | None => default end)
  | _ =>
      Raise (mkExn "AttributeError"
               ("'" ++ type_name_of v ++ "' object has no attribute 'get'"))
  end.

(** Truth value of [v] in [if v:]. *)
Definition py_truthy (v : PyVal) : bool :=
  match v with
  | PyNone => false
  | PyBool b => b
  | PyInt z => negb (Z.eqb z 0)
  | PyFloat r => negb (String.eqb r "0.0" || String.eqb r "-0.0")
  | PyStr s => negb (String.eqb s "")
  | PyList l => match l with [] => false | _ => true end
  | PyDict d => match d with [] => false | _ => true end
  | PyObj _ => true
  end.

(** [l.append(x)] *)
Definition py_append {A} (l : list A) (x : A) : list A := (l ++ [x])%list.

(** [l[:n]] for any integer [n]. *)
Definition py_slice_to {A} (n : Z) (l : list A) : list A :=
  if (0 <=? n)%Z then firstn (Z.to_nat n) l
  else firstn (length l - Z.to_nat (- n)) l.

(** The clock: what [datetime.utcnow()] renders to. *)
Record Clock : Type := mkClock {
  clock_timestamp : string;   (* str(utcnow().timestamp()) *)
  clock_iso : string          (* utcnow().isoformat() *)
}.

(** [list(set(words))]: the elements of [words] once each, in an order the
    hash seed decides. *)
Record SetOrder : Type := mkSetOrder {
  list_of_set : list string -> list string;
  list_of_set_NoDup : forall l, NoDup (list_of_set l);
  list_of_set_In : forall l x, In x (list_of_set l) <-> In x l
}.

Definition first_seen : SetOrder :=
  mkSetOrder (nodup string_dec)
             (fun l => NoDup_nodup string_dec l)
             (fun l x => nodup_In string_dec l x).

(* ===================================================================== *)
(** ** Context memory graph: [services/memory_service.py] *)
(* ===================================================================== *)

Module Memory.
Import PyStr.

(** The keys of [context_data] that [store_context] reads; every other key
    is ignored.  [content], when given, is a [str]. *)
Record ContextData : Type := mkContextData {
  cd_content : option string;
  cd_sources : option PyVal;
  cd_relevance_score : option PyVal
}.

Record ContextProps : Type := mkContextProps {
  cp_query : string;
  cp_content : string;
  cp_sources : PyVal;
  cp_user_id : string;
  cp_timestamp : string;
  cp_relevance_score : PyVal
}.

Record ConceptProps : Type := mkConceptProps {
  cc_name : string;
  cc_category : string;
  cc_frequency : Z
}.

(** A node is a dictionary [{id, type, properties, created_at}]; [type] is
    "research_context" or "concept" and fixes the keys of [properties]. *)
Inductive Node : Type :=
| ResearchContext (id : string) (properties : ContextProps) (created_at : string)
| Concept (id : string) (properties : ConceptProps) (created_at : string).

Record Edge : Type := mkEdge {
  edge_id : string;
  edge_source : string;
  edge_target : string;
  edge_type : string;
  edge_weight : PyVal;
  edge_created_at : string
}.

(** [self.memory_graph]; its "embeddings" entry and [self.query_cache] are
    never read or written. *)
Record MemoryGraph : Type := mkGraph {
  nodes : dict Node;
  edges : dict Edge
}.

Definition empty_graph : MemoryGraph := mkGraph [] [].

Definition or_default {A} (o : option A) (d : A) : A :=
  match o with Some a => a | None => d end.

Definition stop_words : list string :=
  ["the"; "a"; "an"; "and"; "or"; "but"; "in"; "on"; "at"; "to"; "for";
   "of"; "with"; "by"; "is"; "are"; "was"; "were"; "be"; "been"; "have";
   "has"; "had"; "do"; "does"; "did"; "will"; "would"; "could"; "should"].

Definition keep_word (word : string) : bool :=
  (3 <? String.length word)%nat && negb (existsb (String.eqb word) stop_words).

Definition _extract_concepts (so : SetOrder) (query content : string)
  : list string :=
  let text := lower (query ++ " " ++ content) in
  let words := filter keep_word (split text) in
  firstn 10 (list_of_set so words).

Definition concept_id_of (concept : string) : string :=
  "concept_" ++ replace_space (lower concept).

(** One round of the loop of [_create_concept_connections] on the node
    dictionary.  Incrementing "frequency" on a node whose properties have
    no such key is a [KeyError]. *)
Definition touch_concept (now : Clock) (concept : string) (ns : dict Node)
  : Result (dict Node) :=
  let concept_id := concept_id_of concept in
  match dict_get concept_id ns with
  | None =>
      Ok (dict_set concept_id
            (Concept concept_id (mkConceptProps concept "extracted" 1)
                     (clock_iso now)) ns)
  | Some (Concept i p c) =>
      Ok (dict_set concept_id
            (Concept i (mkConceptProps (cc_name p) (cc_category p)
                                       (cc_frequency p + 1)) c) ns)
  | Some (ResearchContext _ _ _) =>
      Raise (mkExn "KeyError" "'frequency'")
  end.

Definition mentions_edge (now : Clock) (context_id concept_id : string) : Edge :=
  mkEdge ("edge_" ++ context_id ++ "_" ++ concept_id) context_id concept_id
         "mentions" (PyFloat "1.0") (clock_iso now).

Fixpoint connect_concepts (now : Clock) (context_id : string)
         (concepts : list string) (g : MemoryGraph)
  : MemoryGraph * Result unit :=
  match concepts with
  | [] => (g, Ok tt)
  | concept :: rest =>
      match touch_concept now concept (nodes g) with
      | Raise e => (g, Raise e)
      | Ok ns =>
          let e := mentions_edge now context_id (concept_id_of concept) in
          connect_concepts now context_id rest
            (mkGraph ns (dict_set (edge_id e) e (edges g)))
      end
  end.

Definition _create_concept_connections (so : SetOrder) (now : Clock)
           (context_id query : string) (context_data : ContextData)
           (g : MemoryGraph) : MemoryGraph * Result unit :=
  let concepts :=
    _extract_concepts so query (or_default (cd_content context_data) "") in
  connect_concepts now context_id concepts g.

Definition store_context (so : SetOrder) (now : Clock) (query : string)
           (context_data : ContextData) (user_id : string) (g : MemoryGraph)
  : MemoryGraph * Result string :=
  let context_id := "context_" ++ clock_timestamp now in
  let context_node :=
    ResearchContext context_id
      (mkContextProps query
         (or_default (cd_content context_data) "")
         (or_default (cd_sources context_data) (PyList []))
         user_id
         (clock_iso now)
         (or_default (cd_relevance_score context_data) (PyFloat "0.5")))
      (clock_iso now) in
  let g1 := mkGraph (dict_set context_id context_node (nodes g)) (edges g) in
  match _create_concept_connections so now context_id query context_data g1 with
  | (g2, Raise e) => (g2, Raise e)
  | (g2, Ok _) => (g2, Ok context_id)
  end.

(** One entry of the list [retrieve_context] returns. *)
Record Retrieved : Type := mkRetrieved {
  r_context_id : string;
  r_query : string;
  r_content : string;
  r_sources : PyVal;
  r_relevance_score : Z;
  r_timestamp : string
}.

Definition term_score (content node_query term : string) : Z :=
  ((if contains term content then 1 else 0)
   + (if contains term node_query then 2 else 0))%Z.

(** The inner loop over [query_terms], starting from 0. *)
Definition relevance (query_terms : list string) (p : ContextProps) : Z :=
  fold_left
    (fun score term =>
       (score + term_score (lower (cp_content p)) (lower (cp_query p)) term)%Z)
    query_terms 0%Z.

Definition candidate (query_terms : list string) (user_id : string)
           (kv : string * Node) : list Retrieved :=
  match snd kv with
  | ResearchContext _ p _ =>
      if negb (String.eqb (cp_user_id p) user_id) then []
      else
        let relevance_score := relevance query_terms p in
        if (0 <? relevance_score)%Z then
          [mkRetrieved (fst kv) (cp_query p) (cp_content p) (cp_sources p)
                       relevance_score (cp_timestamp p)]
        else []
  | Concept _ _ _ => []
  end.

(** [list.sort(key=lambda x: x["relevance_score"], reverse=True)]: Python's
    sort is stable, also under [reverse=True]; entries of equal score keep
    their order. *)
Fixpoint insert_desc (x : Retrieved) (l : list Retrieved) : list Retrieved :=
  match l with
  | [] => [x]
  | y :: ys =>
      if (r_relevance_score y <=? r_relevance_score x)%Z then x :: l
      else y :: insert_desc x ys
  end.

Definition sort_desc (l : list Retrieved) : list Retrieved :=
  fold_right insert_desc [] l.

(** [query_terms = query.lower().split()] *)
Definition query_terms (query : string) : list string := split (lower query).

(** [relevant_contexts] when the loop over the nodes ends. *)
Definition relevant_contexts (query user_id : string) (g : MemoryGraph)
  : list Retrieved :=
  flat_map (candidate (query_terms query) user_id) (nodes g).

Definition retrieve_context (query user_id : string) (max_results : Z)
           (g : MemoryGraph) : list Retrieved :=
  py_slice_to max_results (sort_desc (relevant_contexts query user_id g)).

(** [y] does not score more than [x]: the order of a sorted result list. *)
Definition at_most (x y : Retrieved) : Prop :=
  (r_relevance_score y <= r_relevance_score x)%Z.

(** How many entries of a result list score at least [s]. *)
Definition count_at_least (s : Z) (l : list Retrieved) : nat :=
  length (filter (fun r => (s <=? r_relevance_score r)%Z) l).

(** [nodes[concept_id]["properties"]["frequency"]], when [concept_id] names
    a concept node. *)
Definition frequency_of (concept_id : string) (g : MemoryGraph) : option Z :=
  match dict_get concept_id (nodes g) with
  | Some (Concept _ p _) => Some (cc_frequency p)
  | _ => None
  end.

Definition frequency_or_zero (concept_id : string) (g : MemoryGraph) : Z :=
  or_default (frequency_of concept_id g) 0%Z.

(** Sum of a list of integers. *)
Definition sum_Z (l : list Z) : Z := fold_right Z.add 0%Z l.

(** Reachable graphs keep research contexts under "context_..." keys. *)
Definition graph_ok (g : MemoryGraph) : Prop :=
  forall k i p c,
    dict_get k (nodes g) = Some (ResearchContext i p c) ->
    String.prefix "context_" k = true.

End Memory.

(* ===================================================================== *)
(** ** Workflow engine: [services/workflow_service.py] *)
(* ===================================================================== *)

Module Workflow.
Import PyStr.

Record Step : Type := mkStep {
  step_id : string;
  step_type : string;
  step_name : string;
  step_description : string;
  depends_on : list string;
  estimated_time : Z;
  tool_required : string
}.

(** A step result is a dictionary with a "status" and, depending on where
    it is built, "reason", "error", "result", "timestamp", "tool_used". *)
Record StepResult : Type := mkStepResult {
  sr_status : string;
  sr_reason : option string;
  sr_error : option string;
  sr_result : option PyVal;
  sr_timestamp : option string;
  sr_tool_used : option string
}.

Record WorkflowState : Type := mkWorkflow {
  plan_id : string;
  query : string;
  user_id : string;
  status : string;
  steps : list Step;
  current_step : nat;
  created_at : string;
  updated_at : string;
  results : dict StepResult;
  errors : list string
}.

(** [core/interfaces.py]: [ToolInput] as the engine builds it (its
    [context] is [{"step_id", "user_id"}]) and [ToolOutput]. *)
Record ToolInput : Type := mkToolInput {
  ti_query : string;
  ti_step_id : string;
  ti_user_id : string
}.

Record ToolOutput : Type := mkToolOutput {
  success : bool;
  data : PyVal;
  error_message : option string
}.

(** [ToolInterface.execute]: returns an output or raises. *)
Definition Tool : Type := ToolInput -> Result ToolOutput.

(** [PluginRegistry._tools] and [PluginRegistry.get_tool]. *)
Definition Registry : Type := dict Tool.
Definition get_tool (name : string) (registry : Registry) : option Tool :=
  dict_get name registry.

(** What a call consults outside the service object.  A tool may raise
    anything; [json.dumps] raises [TypeError], [ValueError] or
    [RecursionError] only, which are [Exception]s. *)
Record Env : Type := mkEnv {
  registry : Registry;
  set_order : SetOrder;
  json_dumps : PyVal -> Result string;
  now : Clock;
  json_dumps_raises :
    forall v e, json_dumps v = Raise e -> is_exception e = true
}.

(** The same surroundings with another registry. *)
Definition with_registry (r : Registry) (env : Env) : Env :=
  mkEnv r (set_order env) (json_dumps env) (now env) (json_dumps_raises env).

(** [WorkflowService]: [self.active_workflows] and the graph of
    [self.memory_service]. *)
Record Service : Type := mkService {
  active_workflows : dict WorkflowState;
  memory_service : Memory.MemoryGraph
}.

Definition new_service : Service := mkService [] Memory.empty_graph.

Definition any_in (words : list string) (text : string) : bool :=
  existsb (fun word => contains word text) words.

Definition question_words : list string :=
  ["what"; "how"; "why"; "when"; "where"; "who"].
Definition document_words : list string :=
  ["document"; "paper"; "article"; "study"; "research"].

Definition web_search_step : Step :=
  mkStep "web_search" "search" "Web Search"
         "Search for relevant information" [] 30 "web_search".
Definition document_analysis_step : Step :=
  mkStep "document_analysis" "analysis" "Document Analysis"
         "Analyze and extract insights from documents"
         ["web_search"] 60 "document_ingestion".
Definition context_retrieval_step : Step :=
  mkStep "context_retrieval" "retrieval" "Context Retrieval"
         "Retrieve relevant context from memory" [] 10 "memory_service".
Definition synthesis_step : Step :=
  mkStep "synthesis" "synthesis" "Synthesis"
         "Synthesize findings into coherent answer"
         ["web_search"; "document_analysis"; "context_retrieval"] 30
         "research_service".

Definition _analyze_query_and_create_plan (query user_id : string)
  : list Step :=
  let query_lower := lower query in
  ((if any_in question_words query_lower then [web_search_step] else [])
   ++ (if any_in document_words query_lower then [document_analysis_step]
       else [])
   ++ [context_retrieval_step]
   ++ [synthesis_step])%list.

(** [uuid_hex8] is [uuid.uuid4().hex[:8]]. *)
Definition create_research_plan (uuid_hex8 : string) (now : Clock)
           (query user_id : string) (svc : Service) : Service * string :=
  let plan_id := "plan_" ++ uuid_hex8 in
  let plan := _analyze_query_and_create_plan query user_id in
  let workflow_state :=
    mkWorkflow plan_id query user_id "planning" plan 0
               (clock_iso now) (clock_iso now) [] [] in
  (mkService (dict_set plan_id workflow_state (active_workflows svc))
             (memory_service svc),
   plan_id).

Definition is_completed (r : option StepResult) : bool :=
  match r with
  | Some r => String.eqb (sr_status r) "completed"
  | None => false
  end.

Definition _check_dependencies (step : Step) (workflow : WorkflowState)
  : bool :=
  forallb (fun dep_id => is_completed (dict_get dep_id (results workflow)))
          (depends_on step).

Definition skipped : StepResult :=
  mkStepResult "skipped" (Some "Dependencies not met") None None None None.
Definition failed_with (msg : string) : StepResult :=
  mkStepResult "error" None (Some msg) None None None.
Definition completed_with (now : Clock) (payload : PyVal) (tool : string)
  : StepResult :=
  mkStepResult "completed" None None (Some payload) (Some (clock_iso now))
               (Some tool).

Definition _execute_search_step (env : Env) (step : Step)
           (workflow : WorkflowState) (user_id : string)
  : Result StepResult :=
  if negb (_check_dependencies step workflow) then Ok skipped
  else
    match get_tool "web_search" (registry env) with
    | None => Ok (failed_with "Web search tool not available")
    | Some web_search_tool =>
        match web_search_tool
                (mkToolInput (query workflow) (step_id step) user_id) with
        | Raise e => Raise e
        | Ok result =>
            Ok (completed_with (now env) (data result) "web_search")
        end
    end.

Definition _execute_analysis_step (env : Env) (step : Step)
           (workflow : WorkflowState) (user_id : string)
  : Result StepResult :=
  if negb (_check_dependencies step workflow) then Ok skipped
  else
    match get_tool "document_ingestion" (registry env) with
    | None => Ok (failed_with "Document ingestion tool not available")
    | Some doc_tool =>
        match doc_tool
                (mkToolInput ("analysis_" ++ take 50 (query workflow))
                             (step_id step) user_id) with
        | Raise e => Raise e
        | Ok result =>
            Ok (completed_with (now env) (data result) "document_ingestion")
        end
    end.

Definition retrieved_to_py (r : Memory.Retrieved) : PyVal :=
  PyDict [("context_id", PyStr (Memory.r_context_id r));
          ("query", PyStr (Memory.r_query r));
          ("content", PyStr (Memory.r_content r));
          ("sources", Memory.r_sources r);
          ("relevance_score", PyInt (Memory.r_relevance_score r));
          ("timestamp", PyStr (Memory.r_timestamp r))].

Definition _execute_retrieval_step (env : Env) (step : Step)
           (workflow : WorkflowState) (user_id : string)
           (mem : Memory.MemoryGraph) : Result StepResult :=
  let context_results :=
    Memory.retrieve_context (query workflow) user_id 5 mem in
  Ok (completed_with (now env)
        (PyDict [("contexts", PyList (map retrieved_to_py context_results));
                 ("count", PyInt (Z.of_nat (length context_results)))])
        "memory_service").

(** [workflow["results"].get(id, {}).get("result", {})] *)
Definition result_of (id : string) (workflow : WorkflowState) : PyVal :=
  match dict_get id (results workflow) with
  | Some r => Memory.or_default (sr_result r) (PyDict [])
  | None => PyDict []
  end.

Definition _execute_synthesis_step (env : Env) (step : Step)
           (workflow : WorkflowState) (user_id : string)
  : Result StepResult :=
  let search_result := result_of "web_search" workflow in
  let analysis_result := result_of "document_analysis" workflow in
  let retrieval_result := result_of "context_retrieval" workflow in
  match py_get retrieval_result "contexts" (PyList []) with
  | Raise e => Raise e
  | Ok retrieved_contexts =>
      let synthesis :=
        PyDict [("query", PyStr (query workflow));
                ("sources",
                 PyDict [("web_search", search_result);
                         ("document_analysis", analysis_result);
                         ("retrieved_contexts", retrieved_contexts)]);
                ("synthesis_timestamp", PyStr (clock_iso (now env)));
                ("status", PyStr "completed")] in
      Ok (completed_with (now env) synthesis "workflow_synthesis")
  end.

(** The [try] block of [_execute_workflow_step]. *)
Definition dispatch_step (env : Env) (step : Step)
           (workflow : WorkflowState) (user_id : string)
           (mem : Memory.MemoryGraph) : Result StepResult :=
  let step_type := step_type step in
  if String.eqb step_type "search" then
    _execute_search_step env step workflow user_id
  else if String.eqb step_type "analysis" then
    _execute_analysis_step env step workflow user_id
  else if String.eqb step_type "retrieval" then
    _execute_retrieval_step env step workflow user_id mem
  else if String.eqb step_type "synthesis" then
    _execute_synthesis_step env step workflow user_id
  else Ok (failed_with ("Unknown step type: " ++ step_type)).

(** The dispatch with its [except Exception]: an [Exception] becomes an
    "error" result, any other exception passes through. *)
Definition _execute_workflow_step (env : Env) (step : Step)
           (workflow : WorkflowState) (user_id : string)
           (mem : Memory.MemoryGraph) : Result StepResult :=
  match dispatch_step env step workflow user_id mem with
  | Ok r => Ok r
  | Raise e =>
      if is_exception e
      then Ok (failed_with ("Step execution failed: " ++ exn_msg e))
      else Raise e
  end.

Definition with_status (s : string) (w : WorkflowState) : WorkflowState :=
  mkWorkflow (plan_id w) (query w) (user_id w) s (steps w) (current_step w)
             (created_at w) (updated_at w) (results w) (errors w).
Definition with_current_step (i : nat) (w : WorkflowState) : WorkflowState :=
  mkWorkflow (plan_id w) (query w) (user_id w) (status w) (steps w) i
             (created_at w) (updated_at w) (results w) (errors w).
Definition with_updated_at (t : string) (w : WorkflowState) : WorkflowState :=
  mkWorkflow (plan_id w) (query w) (user_id w) (status w) (steps w)
             (current_step w) (created_at w) t (results w) (errors w).
Definition with_results (r : dict StepResult) (w : WorkflowState)
  : WorkflowState :=
  mkWorkflow (plan_id w) (query w) (user_id w) (status w) (steps w)
             (current_step w) (created_at w) (updated_at w) r (errors w).
Definition with_errors (e : list string) (w : WorkflowState) : WorkflowState :=
  mkWorkflow (plan_id w) (query w) (user_id w) (status w) (steps w)
             (current_step w) (created_at w) (updated_at w) (results w) e.

(** How an f-string renders [d.get(key)]. *)
Definition fmt_opt (o : option string) : string :=
  match o with Some s => s | None => "None" end.

Definition step_error_line (step : Step) (step_result : StepResult) : string :=
  "Step " ++ step_id step ++ ": " ++ fmt_opt (sr_error step_result).

(** The [for i, step in enumerate(workflow["steps"])] loop from index [i]
    on; an "error" result ends it ([break]). *)
Fixpoint run_steps (env : Env) (user_id : string) (mem : Memory.MemoryGraph)
         (i : nat) (todo : list Step) (workflow : WorkflowState)
  : WorkflowState * Result unit :=
  match todo with
  | [] => (workflow, Ok tt)
  | step :: rest =>
      let w1 := with_current_step i workflow in
      match _execute_workflow_step env step w1 user_id mem with
      | Raise e => (w1, Raise e)
      | Ok step_result =>
          let w2 :=
            with_results (dict_set (step_id step) step_result (results w1))
                         w1 in
          if String.eqb (sr_status step_result) "error" then
            (with_status "failed"
               (with_errors (py_append (errors w2)
                                       (step_error_line step step_result)) w2),
             Ok tt)
          else run_steps env user_id mem (S i) rest w2
      end
  end.

Definition _store_workflow_results (env : Env) (workflow : WorkflowState)
           (user_id : string) (mem : Memory.MemoryGraph)
  : Memory.MemoryGraph * Result unit :=
  let synthesis_result := result_of "synthesis" workflow in
  if py_truthy synthesis_result then
    match json_dumps env synthesis_result with
    | Raise e => (mem, Raise e)
    | Ok content =>
        match py_get synthesis_result "sources" (PyDict []) with
        | Raise e => (mem, Raise e)
        | Ok sources =>
            match Memory.store_context (set_order env) (now env)
                    (query workflow)
                    (Memory.mkContextData (Some content) (Some sources)
                                          (Some (PyFloat "1.0")))
                    user_id mem with
            | (mem', Raise e) => (mem', Raise e)
            | (mem', Ok _) => (mem', Ok tt)
            end
        end
    end
  else (mem, Ok tt).

(** The body of [execute_research_plan] once the plan is found and the
    caller is its owner.  The workflow is the stored dictionary itself, so
    what was written to it before an exception passes through stays
    written. *)
Definition started (env : Env) (workflow : WorkflowState) : WorkflowState :=
  with_updated_at (clock_iso (now env)) (with_status "executing" workflow).

Definition run_plan (env : Env) (user_id : string) (workflow : WorkflowState)
           (mem : Memory.MemoryGraph)
  : WorkflowState * Memory.MemoryGraph * Result unit :=
  let w0 := started env workflow in
  let stamp := with_updated_at (clock_iso (now env)) in
  match run_steps env user_id mem 0 (steps w0) w0 with
  | (w1, Raise e) => (w1, mem, Raise e)
  | (w1, Ok _) =>
      if negb (String.eqb (status w1) "failed") then
        let w := with_status "completed" w1 in
        match _store_workflow_results env w user_id mem with
        | (m, Ok _) => (stamp w, m, Ok tt)
        | (m, Raise e) =>
            if is_exception e then
              (stamp
                 (with_errors
                    (py_append (errors w)
                               ("Workflow execution failed: " ++ exn_msg e))
                    (with_status "error" w)),
               m, Ok tt)
            else (w, m, Raise e)
        end
      else (stamp w1, mem, Ok tt)
  end.

Definition execute_research_plan (env : Env) (plan_id user_id : string)
           (svc : Service) : Service * Result WorkflowState :=
  match dict_get plan_id (active_workflows svc) with
  | None =>
      (svc, Raise (mkExn "ValueError" ("Plan " ++ plan_id ++ " not found")))
  | Some workflow =>
      if negb (String.eqb (Workflow.user_id workflow) user_id) then
        (svc, Raise (mkExn "ValueError" "Unauthorized access to workflow"))
      else
        let '(w, mem, outcome) :=
          run_plan env user_id workflow (memory_service svc) in
        (mkService (dict_set plan_id w (active_workflows svc)) mem,
         match outcome with Ok _ => Ok w | Raise e => Raise e end)
  end.

(** What [get_workflow_status] returns; a quotient [n / d] of the source is
    kept as the pair [(n, d)]. *)
Record StatusView : Type := mkStatusView {
  sv_plan_id : string;
  sv_query : string;
  sv_status : string;
  sv_progress : nat * nat;
  sv_current_step : nat;
  sv_total_steps : nat;
  sv_created_at : string;
  sv_updated_at : string;
  sv_has_errors : bool;
  sv_error_count : nat
}.

Definition get_workflow_status (plan_id user_id : string) (svc : Service)
  : Service * option StatusView :=
  match dict_get plan_id (active_workflows svc) with
  | None => (svc, None)
  | Some workflow =>
      if negb (String.eqb (Workflow.user_id workflow) user_id) then (svc, None)
      else
        (svc,
         Some (mkStatusView plan_id (query workflow) (status workflow)
                 (match steps workflow with
                  | [] => (0, 1)
                  | _ => (current_step workflow + 1, length (steps workflow))
                  end)
                 (current_step workflow) (length (steps workflow))
                 (created_at workflow) (updated_at workflow)
                 (0 <? length (errors workflow))%nat
                 (length (errors workflow))))
  end.

Record ExecutionSummary : Type := mkSummary {
  total_steps : nat;
  completed_steps : nat;
  success_rate : nat * nat;
  tools_used : list string;
  duration : string
}.

Definition _create_execution_summary (env : Env) (workflow : WorkflowState)
  : ExecutionSummary :=
  let completed_steps :=
    length (filter (fun r => String.eqb (sr_status r) "completed")
                   (dict_values (results workflow))) in
  let total_steps := length (steps workflow) in
  mkSummary total_steps completed_steps
    (if (0 <? total_steps)%nat then (completed_steps, total_steps) else (0, 1))
    (list_of_set (set_order env)
       (flat_map (fun r => match sr_tool_used r with
                           | Some t => if String.eqb t "" then [] else [t]
                           | None => []
                           end)
                 (dict_values (results workflow))))
    (clock_iso (now env)).

Record ResultsView : Type := mkResultsView {
  rv_plan_id : string;
  rv_query : string;
  rv_results : dict StepResult;
  rv_errors : list string;
  rv_status : string;
  rv_execution_summary : ExecutionSummary
}.

Definition get_workflow_results (env : Env) (plan_id user_id : string)
           (svc : Service) : Service * option ResultsView :=
  match dict_get plan_id (active_workflows svc) with
  | None => (svc, None)
  | Some workflow =>
      if negb (String.eqb (Workflow.user_id workflow) user_id) then (svc, None)
      else
        (svc,
         Some (mkResultsView plan_id (query workflow) (results workflow)
                 (errors workflow) (status workflow)
                 (_create_execution_summary env workflow)))
  end.

End Workflow.

(* ===================================================================== *)
(** ** Sample inputs *)
(* ===================================================================== *)

Module Sample.
Import Workflow.

Definition clock0 : Clock := mkClock "1700000000.0" "2023-11-14T22:13:20".

(** A [json.dumps] that accepts every value. *)
Definition dumps_any (v : PyVal) : Result string := Ok "{}".
Definition dumps_any_raises :
  forall v e, dumps_any v = Raise e -> is_exception e = true.
Proof. intros v e H. discriminate H. Defined.

(** No tool registered. *)
Definition env_no_tools : Env :=
  mkEnv [] first_seen dumps_any clock0 dumps_any_raises.

(** A web search tool that raises. *)
Definition broken_search : Tool :=
  fun _ => Raise (mkExn "RuntimeError" "connection refused").
Definition env_broken_search : Env :=
  with_registry [("web_search", broken_search)] env_no_tools.

(** A web search tool whose task is cancelled while it waits. *)
Definition cancelled_search : Tool :=
  fun _ => Raise (mkExn "CancelledError" "").
Definition env_cancelled_search : Env :=
  with_registry [("web_search", cancelled_search)] env_no_tools.

(** Tools that return. *)
Definition working_tool : Tool :=
  fun _ => Ok (mkToolOutput true (PyDict []) None).
Definition env_working : Env :=
  with_registry [("web_search", working_tool);
                 ("document_ingestion", working_tool)] env_no_tools.

(** One plan, created by "u1" for a question. *)
Definition svc_planned : Service :=
  fst (create_research_plan "0a1b2c3d" clock0 "What is x?" "u1" new_service).
Definition plan0 : string := "plan_0a1b2c3d".
Definition planned0 : WorkflowState :=
  mkWorkflow plan0 "What is x?" "u1" "planning"
             [web_search_step; context_retrieval_step; synthesis_step] 0
             (clock_iso clock0) (clock_iso clock0) [] [].

(** The same plan after one execution without tools: it has failed. *)
Definition svc_failed : Service :=
  fst (execute_research_plan env_no_tools plan0 "u1" svc_planned).

(** A plan for a query without question or document words. *)
Definition svc_hello : Service :=
  fst (create_research_plan "0a1b2c3d" clock0 "hello" "u1" new_service).
Definition hello0 : WorkflowState :=
  mkWorkflow plan0 "hello" "u1" "planning"
             [context_retrieval_step; synthesis_step] 0
             (clock_iso clock0) (clock_iso clock0) [] [].

(** A plan for a query with document words and no question word. *)
Definition svc_paper : Service :=
  fst (create_research_plan "0a1b2c3d" clock0 "Summarize this research paper"
                            "u1" new_service).

(** A [json.dumps] that rejects every value. *)
Definition dumps_none (v : PyVal) : Result string :=
  Raise (mkExn "TypeError"
               ("Object of type " ++ type_name_of v
                  ++ " is not JSON serializable")).
Definition dumps_none_raises :
  forall v e, dumps_none v = Raise e -> is_exception e = true.
Proof. intros v e H. injection H as <-. reflexivity. Defined.
Definition env_no_json : Env :=
  mkEnv [] first_seen dumps_none clock0 dumps_none_raises.

(** The context of the round trip, and a graph in which "u1" has stored it
    five times, at five instants. *)
Definition vision_data : Memory.ContextData :=
  Memory.mkContextData (Some "neural nets for vision") None None.

Definition store_vision (stamp : string) (g : Memory.MemoryGraph)
  : Memory.MemoryGraph :=
  fst (Memory.store_context first_seen (mkClock stamp "2023-11-14T22:13:20")
                            "neural nets" vision_data "u1" g).

Definition graph_five : Memory.MemoryGraph :=
  fold_right store_vision Memory.empty_graph
             ["5.0"; "4.0"; "3.0"; "2.0"; "1.0"].

Definition clock6 : Clock := mkClock "6.0" "2023-11-14T22:13:26".

(** A graph that holds one context, stored for the query "the cat". *)
Definition graph_cat : Memory.MemoryGraph :=
  fst (Memory.store_context first_seen clock0 "the cat"
                            (Memory.mkContextData None None None) "u1"
                            Memory.empty_graph).
End Sample.

(* ===================================================================== *)
(** ** Views of the memory graph: the rest of [services/memory_service.py] *)
(* ===================================================================== *)

Module MemoryViews.
Import PyStr Memory.

(** [sorted(l, key=..., reverse=True)] and [l.sort(key=..., reverse=True)]
    for any element type: stable, descending.  [key_le y x] tells whether the
    key of [y] is at most the key of [x]. *)
Section SortedDesc.
Variable A : Type.
Variable key_le : A -> A -> bool.

Fixpoint insert_by (x : A) (l : list A) : list A :=
  match l with
  | [] => [x]
  | y :: ys => if key_le y x then x :: l else y :: insert_by x ys
  end.

Definition sorted_desc (l : list A) : list A := fold_right insert_by [] l.
End SortedDesc.

Definition is_context (n : Node) : bool :=
  match n with ResearchContext _ _ _ => true | Concept _ _ _ => false end.

Definition is_concept (n : Node) : bool :=
  match n with ResearchContext _ _ _ => false | Concept _ _ _ => true end.

(** [node["id"]] *)
Definition node_id (n : Node) : string :=
  match n with ResearchContext i _ _ => i | Concept i _ _ => i end.

(** [(n["properties"]["name"], n["properties"]["frequency"])] of a concept
    node. *)
Definition concept_entry (n : Node) : list (string * Z) :=
  match n with
  | Concept _ p _ => [(cc_name p, cc_frequency p)]
  | ResearchContext _ _ _ => []
  end.

(** [n["properties"]["timestamp"]] of a context node. *)
Definition node_timestamp (n : Node) : string :=
  match n with
  | ResearchContext _ p _ => cp_timestamp p
  | Concept _ _ _ => ""
  end.

Definition by_frequency (y x : string * Z) : bool := (snd y <=? snd x)%Z.
Definition by_timestamp (y x : Node) : bool :=
  String.leb (node_timestamp y) (node_timestamp x).

Record MemoryStats : Type := mkMemoryStats {
  total_contexts : nat;
  total_concepts : nat;
  total_edges : nat;
  most_common_concepts : list (string * Z);
  recent_contexts : list Node
}.

Definition get_memory_stats (g : MemoryGraph) : MemoryStats :=
  let context_nodes := filter is_context (dict_values (nodes g)) in
  let concept_nodes := filter is_concept (dict_values (nodes g)) in
  mkMemoryStats
    (length context_nodes)
    (length concept_nodes)
    (length (edges g))
    (firstn 5 (sorted_desc by_frequency (flat_map concept_entry concept_nodes)))
    (firstn 5 (sorted_desc by_timestamp context_nodes)).

(** One value of the [concepts] dictionary of [build_knowledge_graph]. *)
Record ConceptView : Type := mkConceptView {
  cv_id : string;
  cv_name : string;
  cv_frequency : Z;
  cv_contexts : list (string * string)   (* (query, timestamp) *)
}.

(** The body of the loop over the edges, for one context.  A concept that is
    not yet in [concepts] enters with an empty context list; then the
    context is appended to the concept's list. *)
Definition add_mention (g : MemoryGraph) (context_id : string)
           (p : ContextProps) (concepts : dict ConceptView) (edge : Edge)
  : dict ConceptView :=
  if String.eqb (edge_source edge) context_id then
    match dict_get (edge_target edge) (nodes g) with
    | Some (Concept i cp _) =>
        let concept_name := cc_name cp in
        let entry :=
          or_default (dict_get concept_name concepts)
                     (mkConceptView i concept_name (cc_frequency cp) []) in
        dict_set concept_name
          (mkConceptView (cv_id entry) (cv_name entry) (cv_frequency entry)
                         (py_append (cv_contexts entry)
                                    (cp_query p, cp_timestamp p)))
          concepts
    | _ => concepts
    end
  else concepts.

(** The body of the loop over the user's contexts. *)
Definition collect_mentions (g : MemoryGraph) (concepts : dict ConceptView)
           (context : Node) : dict ConceptView :=
  match context with
  | ResearchContext context_id p _ =>
      fold_left (fun acc kv => add_mention g context_id p acc (snd kv))
                (edges g) concepts
  | Concept _ _ _ => concepts
  end.

Definition owned_by (user_id : string) (n : Node) : bool :=
  match n with
  | ResearchContext _ p _ => String.eqb (cp_user_id p) user_id
  | Concept _ _ _ => false
  end.

Record KnowledgeGraph : Type := mkKnowledgeGraph {
  kg_concepts : list ConceptView;
  kg_connections : list PyVal;
  kg_stats : MemoryStats
}.

Definition build_knowledge_graph (user_id : string) (g : MemoryGraph)
  : KnowledgeGraph :=
  let user_contexts := filter (owned_by user_id) (dict_values (nodes g)) in
  let concepts := fold_left (collect_mentions g) user_contexts [] in
  mkKnowledgeGraph (dict_values concepts) [] (get_memory_stats g).

(** The graphs a [MemoryService] can hold: it starts empty and changes by
    [store_context] only, whether or not the call raises. *)
Inductive reachable : MemoryGraph -> Prop :=
| reachable_empty : reachable empty_graph
| reachable_store so now query context_data user_id g :
    reachable g ->
    reachable (fst (store_context so now query context_data user_id g)).

(** What holds of every node and edge of a reachable graph. *)
Definition node_wf (k : string) (n : Node) : Prop :=
  match n with
  | ResearchContext i _ _ => i = k /\ String.prefix "context_" k = true
  | Concept i p _ =>
      i = k /\ k = "concept_" ++ cc_name p /\ (1 <= cc_frequency p)%Z
  end.

Definition edge_wf (g : MemoryGraph) (k : string) (e : Edge) : Prop :=
  edge_id e = k /\
  k = "edge_" ++ edge_source e ++ "_" ++ edge_target e /\
  edge_type e = "mentions" /\
  edge_weight e = PyFloat "1.0" /\
  (exists i p c,
      dict_get (edge_source e) (nodes g) = Some (ResearchContext i p c)) /\
  (exists i p c,
      dict_get (edge_target e) (nodes g) = Some (Concept i p c)).

Definition graph_wf (g : MemoryGraph) : Prop :=
  (forall k n, dict_get k (nodes g) = Some n -> node_wf k n) /\
  (forall k e, dict_get k (edges g) = Some e -> edge_wf g k e).

(** [y] is not more frequent than [x]: the order of the list of most
    common concepts. *)
Definition more_frequent (x y : string * Z) : Prop := (snd y <= snd x)%Z.

(** What entitles a (query, timestamp) pair to stand in the context list of
    the concept [name] for the user: one of the user's contexts carries it
    and has an edge to a concept node of that name. *)
Definition mentioned_by (g : MemoryGraph) (user_id name : string)
           (pair : string * string) : Prop :=
  exists i p t ke e ci cp ct,
    In (ResearchContext i p t) (dict_values (nodes g)) /\
    cp_user_id p = user_id /\
    pair = (cp_query p, cp_timestamp p) /\
    In (ke, e) (edges g) /\
    edge_source e = i /\
    dict_get (edge_target e) (nodes g) = Some (Concept ci cp ct) /\
    cc_name cp = name.

Definition view_ok (g : MemoryGraph) (user_id : string)
           (concepts : dict ConceptView) : Prop :=
  forall name v,
    In (name, v) concepts ->
    cv_name v = name /\
    cv_contexts v <> [] /\
    (exists tgt ci cp ct,
        dict_get tgt (nodes g) = Some (Concept ci cp ct) /\
        cc_name cp = name /\ cv_id v = ci /\
        cv_frequency v = cc_frequency cp) /\
    forall pair, In pair (cv_contexts v) -> mentioned_by g user_id name pair.

End MemoryViews.

(* ===================================================================== *)
(** ** The plugin registry: [core/registry.py] *)
(* ===================================================================== *)

(** [del d[k]] on a dictionary that has the key. *)
Fixpoint dict_del {V} (k : string) (d : dict V) : dict V :=
  match d with
  | [] => []
  | (k', v) :: d' =>
      if String.eqb k k' then d' else (k', v) :: dict_del k d'
  end.

(** [list(d.keys())] *)
Definition dict_keys {V} (d : dict V) : list string := map fst d.

Module PluginRegistry.
Import Workflow.

(** An instance of a [ToolInterface] subclass: its properties and its
    [execute]. *)
Record ToolPlugin : Type := mkToolPlugin {
  tool_name : string;
  tool_description : string;
  tool_version : string;
  tool_timeout_seconds : Z;
  tool_execute : Tool
}.

(** An instance of a [LearningModelInterface] subclass; the registry reads
    its name and version only. *)
Record ModelPlugin : Type := mkModelPlugin {
  model_name : string;
  model_description : string;
  model_version : string
}.

Definition Metadata : Type := dict PyVal.

Record PluginRegistry : Type := mkRegistry {
  _tools : dict ToolPlugin;
  _learning_models : dict ModelPlugin;
  _tool_metadata : dict Metadata;
  _model_metadata : dict Metadata
}.

(** [PluginRegistry()] *)
Definition empty_registry : PluginRegistry := mkRegistry [] [] [] [].

(** [metadata or {}] *)
Definition metadata_or_empty (metadata : option Metadata) : Metadata :=
  match metadata with Some m => m | None => [] end.

(** [register_tool]; its [isinstance] test holds of every [ToolPlugin]. *)
Definition register_tool (tool : ToolPlugin) (metadata : option Metadata)
           (r : PluginRegistry) : PluginRegistry :=
  mkRegistry (dict_set (tool_name tool) tool (_tools r))
             (_learning_models r)
             (dict_set (tool_name tool) (metadata_or_empty metadata)
                       (_tool_metadata r))
             (_model_metadata r).

Definition register_learning_model (model : ModelPlugin)
           (metadata : option Metadata) (r : PluginRegistry)
  : PluginRegistry :=
  mkRegistry (_tools r)
             (dict_set (model_name model) model (_learning_models r))
             (_tool_metadata r)
             (dict_set (model_name model) (metadata_or_empty metadata)
                       (_model_metadata r)).

Definition get_tool (name : string) (r : PluginRegistry) : option ToolPlugin :=
  dict_get name (_tools r).

Definition get_learning_model (name : string) (r : PluginRegistry)
  : option ModelPlugin :=
  dict_get name (_learning_models r).

Definition list_tools (r : PluginRegistry) : list string :=
  dict_keys (_tools r).

Definition list_learning_models (r : PluginRegistry) : list string :=
  dict_keys (_learning_models r).

Definition get_tool_metadata (name : string) (r : PluginRegistry)
  : option Metadata :=
  dict_get name (_tool_metadata r).

Definition get_model_metadata (name : string) (r : PluginRegistry)
  : option Metadata :=
  dict_get name (_model_metadata r).

Definition key_error (name : string) : Exn :=
  mkExn "KeyError" ("'" ++ name ++ "'").

(** [unregister_tool]: the tool is deleted first, then its metadata; a
    missing metadata entry is a [KeyError] after the tool is gone. *)
Definition unregister_tool (name : string) (r : PluginRegistry)
  : PluginRegistry * Result bool :=
  match dict_get name (_tools r) with
  | Some _ =>
      let tools := dict_del name (_tools r) in
      match dict_get name (_tool_metadata r) with
      | Some _ =>
          (mkRegistry tools (_learning_models r)
                      (dict_del name (_tool_metadata r)) (_model_metadata r),
           Ok true)
      | None =>
          (mkRegistry tools (_learning_models r) (_tool_metadata r)
                      (_model_metadata r),
           Raise (key_error name))
      end
  | None => (r, Ok false)
  end.

Definition unregister_model (name : string) (r : PluginRegistry)
  : PluginRegistry * Result bool :=
  match dict_get name (_learning_models r) with
  | Some _ =>
      let models := dict_del name (_learning_models r) in
      match dict_get name (_model_metadata r) with
      | Some _ =>
          (mkRegistry (_tools r) models (_tool_metadata r)
                      (dict_del name (_model_metadata r)),
           Ok true)
      | None =>
          (mkRegistry (_tools r) models (_tool_metadata r) (_model_metadata r),
           Raise (key_error name))
      end
  | None => (r, Ok false)
  end.

Definition clear_all (r : PluginRegistry) : PluginRegistry := empty_registry.

Record RegistryStats : Type := mkRegistryStats {
  stat_total_tools : nat;
  stat_total_models : nat;
  stat_tool_names : list string;
  stat_model_names : list string;
  stat_tools_with_metadata : nat;
  stat_models_with_metadata : nat
}.

(** [len([k for k in d.keys() if d[k]])]: the entries that are not empty. *)
Definition count_nonempty (d : dict Metadata) : nat :=
  length (filter (fun kv => match snd kv with [] => false | _ => true end) d).

Definition get_registry_stats (r : PluginRegistry) : RegistryStats :=
  mkRegistryStats (length (_tools r)) (length (_learning_models r))
                  (dict_keys (_tools r)) (dict_keys (_learning_models r))
                  (count_nonempty (_tool_metadata r))
                  (count_nonempty (_model_metadata r)).

(** What [WorkflowService] sees of the registry: [get_tool(name)] and, of the
    tool it gets, [execute]. *)
Definition engine_view (r : PluginRegistry) : Registry :=
  map (fun kv => (fst kv, tool_execute (snd kv))) (_tools r).

(** One entry of [ResearchService.get_available_tools]
    ([services/research_service.py]). *)
Record ToolInfo : Type := mkToolInfo {
  info_name : string;
  info_description : string;
  info_version : string;
  info_timeout_seconds : Z
}.

Definition get_available_tools (r : PluginRegistry) : list ToolInfo :=
  flat_map (fun tool_name =>
              match get_tool tool_name r with
              | Some tool =>
                  [mkToolInfo (PluginRegistry.tool_name tool)
                              (tool_description tool) (tool_version tool)
                              (tool_timeout_seconds tool)]
              | None => []
              end)
           (list_tools r).

(** The registries that [register_tool], [register_learning_model],
    [unregister_tool], [unregister_model] and [clear_all] build from the
    empty one: each tool sits under its own name, and the metadata
    dictionaries have the keys of the plugin dictionaries. *)
Definition registry_ok (r : PluginRegistry) : Prop :=
  NoDup (dict_keys (_tools r)) /\
  NoDup (dict_keys (_learning_models r)) /\
  dict_keys (_tool_metadata r) = dict_keys (_tools r) /\
  dict_keys (_model_metadata r) = dict_keys (_learning_models r) /\
  (forall k t, dict_get k (_tools r) = Some t -> tool_name t = k) /\
  (forall k m, dict_get k (_learning_models r) = Some m -> model_name m = k).

End PluginRegistry.

(* ===================================================================== *)
(** ** Payloads of the workflow steps *)
(* ===================================================================== *)

Module Payloads.
Import Workflow.

(** The [synthesis] dictionary that [_execute_synthesis_step] builds on the
    workflow [w], given the "contexts" it found in the retrieval result. *)
Definition synthesis_of (env : Env) (w : WorkflowState) (contexts : PyVal)
  : PyVal :=
  PyDict [("query", PyStr (query w));
          ("sources",
           PyDict [("web_search", result_of "web_search" w);
                   ("document_analysis", result_of "document_analysis" w);
                   ("retrieved_contexts", contexts)]);
          ("synthesis_timestamp", PyStr (clock_iso (now env)));
          ("status", PyStr "completed")].

(** The payload of a retrieval step. *)
Definition retrieval_of (w : WorkflowState) (user_id : string)
           (mem : Memory.MemoryGraph) : PyVal :=
  PyDict [("contexts",
           PyList (map retrieved_to_py
                       (Memory.retrieve_context (query w) user_id 5 mem)));
          ("count",
           PyInt (Z.of_nat
                    (length (Memory.retrieve_context (query w) user_id 5 mem))))].

(** A tool that never raises. *)
Definition never_raises (tool : Tool) : Prop :=
  forall tool_input, exists out, tool tool_input = Ok out.

End Payloads.

Unset Implicit Arguments.

(* ===================================================================== *)
(** ** Facts about strings and dictionaries *)
(* ===================================================================== *)

Section StringFacts.
Import PyStr.

Lemma prefix_iff (sub s : string) :
  String.prefix sub s = true <-> exists post, s = sub ++ post.
Proof.
  revert s; induction sub as [|a sub IH]; intros s.
  - split; [intros _; exists s; reflexivity | now destruct s].
  - destruct s as [|b s]; simpl.
    + split; [discriminate | intros [post H]; discriminate].
    + destruct (ascii_dec a b) as [->|Hab].
      * rewrite IH. split; intros [post H]; exists post.
        -- now rewrite H.
        -- now inversion H.
      * split; [discriminate|].
        intros [post H]. inversion H. congruence.
Qed.

(** [contains sub s] holds exactly when [sub] occurs in [s]. *)
Lemma contains_iff (sub s : string) :
  contains sub s = true <-> exists pre post, s = pre ++ sub ++ post.
Proof.
  induction s as [|c s IH].
  - cbn [contains]. rewrite orb_false_r, prefix_iff. split.
    + intros [post H]. exists "", post. exact H.
    + intros [pre [post H]]. destruct pre; [exists post; exact H|discriminate].
  - cbn [contains]. rewrite orb_true_iff, prefix_iff, IH. split.
    + intros [[post H]|[pre [post H]]].
      * exists "", post. exact H.
      * exists (String c pre), post. simpl. now rewrite H.
    + intros [pre [post H]]. destruct pre as [|c' pre].
      * left. exists post. exact H.
      * right. exists pre, post. simpl in H. now inversion H.
Qed.
End StringFacts.

Section DictFacts.
Variable V : Type.
Implicit Types (d : dict V) (k : string) (v : V).

Lemma dict_get_set_same k v d : dict_get k (dict_set k v d) = Some v.
Proof.
  induction d as [|[k' v'] d IH]; simpl.
  - now rewrite String.eqb_refl.
  - destruct (String.eqb k k') eqn:E; simpl; rewrite E; auto.
Qed.

Lemma dict_get_set_other k k' v d :
  k <> k' -> dict_get k' (dict_set k v d) = dict_get k' d.
Proof.
  intros Hne. induction d as [|[k0 v0] d IH]; simpl.
  - destruct (String.eqb_spec k' k); [congruence|reflexivity].
  - destruct (String.eqb_spec k k0) as [->|Hk]; simpl.
    + destruct (String.eqb_spec k' k0); [congruence|reflexivity].
    + destruct (String.eqb_spec k' k0); [reflexivity|exact IH].
Qed.

(** Assigning to a present key rewrites one entry in place. *)
Lemma dict_set_present k v d :
  dict_get k d <> None ->
  exists d1 v0 d2,
    d = (d1 ++ (k, v0) :: d2)%list /\
    dict_set k v d = (d1 ++ (k, v) :: d2)%list /\
    dict_get k d1 = None.
Proof.
  induction d as [|[k0 v0] d IH]; simpl; [congruence|].
  destruct (String.eqb_spec k k0) as [->|Hk]; intros H.
  - exists [], v0, d. repeat split.
  - destruct (IH H) as (d1 & v1 & d2 & -> & -> & Hn).
    exists ((k0, v0) :: d1), v1, d2. repeat split. simpl.
    destruct (String.eqb_spec k k0); [contradiction|exact Hn].
Qed.

(** Assigning to an absent key appends. *)
Lemma dict_set_absent k v d :
  dict_get k d = None -> dict_set k v d = (d ++ [(k, v)])%list.
Proof.
  induction d as [|[k0 v0] d IH]; simpl; [reflexivity|].
  destruct (String.eqb_spec k k0); [discriminate|].
  intros H. now rewrite IH.
Qed.

Lemma dict_get_None_In k d :
  dict_get k d = None -> forall v, ~ In (k, v) d.
Proof.
  induction d as [|[k0 v0] d IH]; simpl; intros H v; [tauto|].
  destruct (String.eqb_spec k k0) as [->|Hk]; [discriminate|].
  intros [E|Hin]; [inversion E; congruence|exact (IH H v Hin)].
Qed.
End DictFacts.

(* ===================================================================== *)
(** ** The planner *)
(* ===================================================================== *)

Section Planner.
Import Workflow.

Lemma plan_shape (query user_id : string) :
  _analyze_query_and_create_plan query user_id =
  ((if any_in question_words (PyStr.lower query) then [web_search_step] else [])
   ++ (if any_in document_words (PyStr.lower query)
       then [document_analysis_step] else [])
   ++ [context_retrieval_step; synthesis_step])%list.
Proof. reflexivity. Qed.

Lemma any_in_iff (words : list string) (text : string) :
  any_in words text = true <->
  exists word, In word words /\ exists pre post, text = pre ++ word ++ post.
Proof.
  unfold any_in. rewrite existsb_exists.
  split; intros [w [Hin H]]; exists w; split; auto;
    now apply contains_iff.
Qed.

Lemma analysis_in_plan (query user_id : string) (a : Step) :
  In a (_analyze_query_and_create_plan query user_id) ->
  step_type a = "analysis" ->
  a = document_analysis_step /\
  any_in document_words (PyStr.lower query) = true.
Proof.
  rewrite plan_shape. intros Hin Hty.
  destruct (any_in question_words _), (any_in document_words _);
    simpl in Hin;
    repeat (destruct Hin as [<-|Hin]; [try discriminate Hty; auto|]);
    contradiction.
Qed.

(** C7: [create_research_plan "What is quantum computing?" "u1"] stores,
    under the id it returns, a plan owned by "u1" whose steps are one
    search step, one retrieval step and one synthesis step and nothing
    else (no analysis step), in status "planning" with no results and no
    errors. *)
Theorem C7_quantum_computing_plan :
  forall (uuid_hex8 : string) (now : Clock) (svc : Service),
    let '(svc', plan_id) :=
      create_research_plan uuid_hex8 now "What is quantum computing?" "u1"
                           svc in
    exists w,
      dict_get plan_id (active_workflows svc') = Some w /\
      map step_type (steps w) = ["search"; "retrieval"; "synthesis"] /\
      steps w = [web_search_step; context_retrieval_step; synthesis_step] /\
      (forall s, In s (steps w) -> step_type s <> "analysis") /\
      status w = "planning" /\
      user_id w = "u1" /\
      results w = [] /\ errors w = [].
Proof.
  intros uuid_hex8 now svc. unfold create_research_plan.
  eexists. split; [apply dict_get_set_same|].
  cbn. repeat split; auto.
  intros s [<-|[<-|[<-|[]]]]; discriminate.
Qed.

(** C4 fails as stated: for the query "paper" the plan has an analysis step
    and no search step, yet the analysis step's dependency set names
    "web_search". *)
Lemma C4_counterexample :
  ~ (forall a,
        In a (_analyze_query_and_create_plan "paper" "u1") ->
        step_type a = "analysis" ->
        (In "web_search" (depends_on a) <->
         exists s, In s (_analyze_query_and_create_plan "paper" "u1") /\
                   step_type s = "search")).
Proof.
  intros H.
  assert (Hin : In document_analysis_step
                   (_analyze_query_and_create_plan "paper" "u1"))
    by (vm_compute; auto).
  destruct (H document_analysis_step Hin eq_refl) as [H1 _].
  clear Hin. destruct (H1 (or_introl eq_refl)) as [s [Hin Hty]].
  vm_compute in Hin. destruct Hin as [<-|[<-|[<-|[]]]]; discriminate.
Qed.

(** C4, amended: the plan has an analysis step exactly when the lower-cased
    query contains one of document/paper/article/study/research as a
    substring; that step is [document_analysis_step], and its dependency
    set is ["web_search"] whether or not the plan has a search step. *)
Theorem C4_analysis_step :
  forall (query user_id : string),
    let plan := _analyze_query_and_create_plan query user_id in
    ((exists a, In a plan /\ step_type a = "analysis") <->
     (exists word,
         In word ["document"; "paper"; "article"; "study"; "research"] /\
         exists pre post, PyStr.lower query = pre ++ word ++ post)) /\
    (forall a, In a plan -> step_type a = "analysis" ->
               depends_on a = ["web_search"]).
Proof.
  intros query user_id plan. split.
  - rewrite <- (any_in_iff document_words). split.
    + intros [a [Hin Hty]]. now apply (@analysis_in_plan query user_id a Hin Hty).
    + intros Hdoc. exists document_analysis_step. split; [|reflexivity].
      subst plan. rewrite plan_shape, Hdoc.
      apply in_or_app; right. simpl. auto.
  - intros a Hin Hty.
    destruct (@analysis_in_plan query user_id a Hin Hty) as [-> _].
    reflexivity.
Qed.
End Planner.

(* ===================================================================== *)
(** ** The executor *)
(* ===================================================================== *)

Section Executor.
Import Workflow.

Lemma check_dependencies_iff (step : Step) (w : WorkflowState) :
  _check_dependencies step w = true <->
  forall dep_id, In dep_id (depends_on step) ->
    exists r, dict_get dep_id (results w) = Some r /\
              sr_status r = "completed".
Proof.
  unfold _check_dependencies. rewrite forallb_forall.
  split; intros H d Hd; specialize (H d Hd).
  - destruct (dict_get d (results w)) as [r|]; simpl in H; [|discriminate].
    exists r. split; [reflexivity|now apply String.eqb_eq].
  - destruct H as [r [-> Hr]]. simpl. now apply String.eqb_eq.
Qed.

(** [except Exception] in [_execute_workflow_step]: the call returns a
    result, or the dispatch raised what is no [Exception]. *)
Lemma execute_step_cases env s w u mem :
  (exists r, _execute_workflow_step env s w u mem = Ok r) \/
  (exists e, _execute_workflow_step env s w u mem = Raise e /\
             dispatch_step env s w u mem = Raise e /\
             is_exception e = false).
Proof.
  unfold _execute_workflow_step.
  destruct (dispatch_step env s w u mem) as [r|e]; [left; eauto|].
  destruct (is_exception e) eqn:E; [left; eauto|right; eauto].
Qed.

(** Only a tool raises what is no [Exception]. *)
Lemma escape_from_tool env s w u mem e :
  dispatch_step env s w u mem = Raise e ->
  is_exception e = false ->
  exists name tool tool_input,
    get_tool name (registry env) = Some tool /\ tool tool_input = Raise e.
Proof.
  unfold dispatch_step. intros H Hne.
  destruct (String.eqb (step_type s) "search").
  { unfold _execute_search_step in H.
    destruct (negb _); [discriminate|].
    destruct (get_tool "web_search" (registry env)) as [tool|] eqn:Ht;
      [|discriminate].
    destruct (tool _) as [out|e0] eqn:Hc; [discriminate|].
    inversion H; subst e0. eauto. }
  destruct (String.eqb (step_type s) "analysis").
  { unfold _execute_analysis_step in H.
    destruct (negb _); [discriminate|].
    destruct (get_tool "document_ingestion" (registry env)) as [tool|] eqn:Ht;
      [|discriminate].
    destruct (tool _) as [out|e0] eqn:Hc; [discriminate|].
    inversion H; subst e0. eauto. }
  destruct (String.eqb (step_type s) "retrieval"); [discriminate|].
  destruct (String.eqb (step_type s) "synthesis"); [|discriminate].
  unfold _execute_synthesis_step in H.
  destruct (result_of "context_retrieval" w); cbn in H;
    try discriminate; inversion H; subst e; discriminate.
Qed.

(** What the loop leaves alone, and the only way it touches the status and
    the error list. *)
Lemma run_steps_frame env u mem todo :
  forall i w,
    let w' := fst (run_steps env u mem i todo w) in
    plan_id w' = plan_id w /\ query w' = query w /\
    user_id w' = user_id w /\ steps w' = steps w /\
    ((status w' = status w /\ errors w' = errors w) \/
     (status w' = "failed" /\
      exists msg, errors w' = (errors w ++ [msg])%list)).
Proof.
  induction todo as [|step rest IH]; intros i w; cbn [run_steps].
  - simpl. repeat split; auto.
  - destruct (_execute_workflow_step env step (with_current_step i w) u mem)
      as [r|e].
    + destruct (String.eqb (sr_status r) "error").
      * simpl. repeat split; auto. right. split; [reflexivity|].
        eexists. reflexivity.
      * match goal with |- context [run_steps _ _ _ _ rest ?w2] =>
          specialize (IH (S i) w2) end.
        simpl in IH. exact IH.
    + simpl. repeat split; auto.
Qed.

(** A loop that an exception left: the exception is no [Exception], and
    the status and the error list are as they were. *)
Lemma run_steps_escape env u mem todo :
  forall i w e,
    snd (run_steps env u mem i todo w) = Raise e ->
    is_exception e = false /\
    status (fst (run_steps env u mem i todo w)) = status w /\
    errors (fst (run_steps env u mem i todo w)) = errors w.
Proof.
  induction todo as [|step rest IH]; intros i w e; cbn [run_steps].
  - discriminate.
  - destruct (execute_step_cases env step (with_current_step i w) u mem)
      as [[r Hr]|(e0 & He0 & _ & Hne)]; rewrite ?Hr, ?He0.
    + destruct (String.eqb (sr_status r) "error"); [discriminate|].
      intros H. apply IH in H. exact H.
    + cbn [fst snd]. intros [= <-]. auto.
Qed.

(** The loop over [pre ++ post] is the loop over [pre], then, unless it
    broke or was left, the loop over [post]. *)
Lemma run_steps_app env u mem pre post :
  forall i w,
    status w <> "failed" ->
    run_steps env u mem i (pre ++ post) w =
    if isOk (snd (run_steps env u mem i pre w))
       && negb (String.eqb (status (fst (run_steps env u mem i pre w)))
                           "failed")
    then run_steps env u mem (i + length pre) post
                   (fst (run_steps env u mem i pre w))
    else run_steps env u mem i pre w.
Proof.
  induction pre as [|step pre IH]; intros i w Hw; cbn [app run_steps].
  - cbn [fst snd isOk andb length].
    destruct (String.eqb_spec (status w) "failed"); [contradiction|].
    cbn [negb]. now rewrite Nat.add_0_r.
  - destruct (_execute_workflow_step env step (with_current_step i w) u mem)
      as [r|e]; [|reflexivity].
    destruct (String.eqb (sr_status r) "error").
    + reflexivity.
    + rewrite IH by exact Hw. cbn [length]. now rewrite Nat.add_succ_r.
Qed.

(** C3 fails as stated: a caller who is not the owner gets a [ValueError]
    from [execute_research_plan], not an AuthorizationError, and gets
    [None] from [get_workflow_status] and [get_workflow_results]. *)
Lemma C3_counterexample :
  dict_get Sample.plan0 (active_workflows Sample.svc_planned)
    = Some Sample.planned0 /\
  user_id Sample.planned0 <> "u2" /\
  snd (execute_research_plan Sample.env_no_tools Sample.plan0 "u2"
                             Sample.svc_planned)
    = Raise (mkExn "ValueError" "Unauthorized access to workflow") /\
  "ValueError" <> "AuthorizationError" /\
  snd (get_workflow_status Sample.plan0 "u2" Sample.svc_planned) = None /\
  snd (get_workflow_results Sample.env_no_tools Sample.plan0 "u2"
                            Sample.svc_planned) = None.
Proof. repeat split; try reflexivity; discriminate. Qed.

(** C3, amended: for every stored plan and every caller other than its
    owner, [execute_research_plan] raises
    [ValueError "Unauthorized access to workflow"], [get_workflow_status]
    and [get_workflow_results] return [None], and each of the three leaves
    the service, hence the plan, as it was. *)
Theorem C3_non_owner :
  forall env svc plan_id w caller,
    dict_get plan_id (active_workflows svc) = Some w ->
    caller <> user_id w ->
    execute_research_plan env plan_id caller svc
      = (svc, Raise (mkExn "ValueError" "Unauthorized access to workflow")) /\
    get_workflow_status plan_id caller svc = (svc, None) /\
    get_workflow_results env plan_id caller svc = (svc, None).
Proof.
  intros env svc pid w caller Hget Hne.
  unfold execute_research_plan, get_workflow_status, get_workflow_results.
  rewrite Hget.
  destruct (String.eqb_spec (user_id w) caller) as [E|_]; [congruence|].
  simpl. repeat split.
Qed.

Lemma C3_non_owner_witness :
  snd (execute_research_plan Sample.env_no_tools Sample.plan0 "mallory"
                             Sample.svc_planned)
    = Raise (mkExn "ValueError" "Unauthorized access to workflow").
Proof.
  destruct (C3_non_owner Sample.env_no_tools Sample.svc_planned Sample.plan0
              Sample.planned0 "mallory" eq_refl) as [H _].
  - discriminate.
  - rewrite H. reflexivity.
Defined.

Lemma search_in_plan (q u : string) (s : Step) :
  In s (_analyze_query_and_create_plan q u) ->
  step_type s = "search" ->
  s = web_search_step /\
  exists rest, _analyze_query_and_create_plan q u = web_search_step :: rest.
Proof.
  rewrite plan_shape. intros Hin Hty.
  destruct (any_in question_words _), (any_in document_words _);
    simpl in Hin; intuition subst; try discriminate;
    try reflexivity; eexists; reflexivity.
Qed.

(** C6: let a stored plan have the planner's steps and among them a search
    step whose required capability is not registered.  Executing it as the
    owner returns the plan with: the search step's result an "error"
    result; status "failed"; one message appended to the error list, which
    is therefore not empty; and no later step executed: the result of
    every other step, the index of the current step (0, the search step)
    and the memory graph are as before. *)
Theorem C6_missing_search_capability :
  forall env svc plan_id w q s,
    dict_get plan_id (active_workflows svc) = Some w ->
    steps w = _analyze_query_and_create_plan q (user_id w) ->
    In s (steps w) ->
    step_type s = "search" ->
    get_tool (tool_required s) (registry env) = None ->
    exists w',
      execute_research_plan env plan_id (user_id w) svc
        = (mkService (dict_set plan_id w' (active_workflows svc))
                     (memory_service svc), Ok w') /\
      dict_get (step_id s) (results w')
        = Some (failed_with "Web search tool not available") /\
      sr_status (failed_with "Web search tool not available") = "error" /\
      status w' = "failed" /\
      errors w'
        = (errors w ++ ["Step web_search: Web search tool not available"])%list /\
      (1 <= length (errors w'))%nat /\
      (forall id, id <> step_id s ->
                  dict_get id (results w') = dict_get id (results w)) /\
      current_step w' = 0%nat.
Proof.
  intros env svc pid w q s Hget Hsteps Hin Hty Hreg.
  rewrite Hsteps in Hin.
  destruct (search_in_plan q (user_id w) s Hin Hty) as [-> [rest Hrest]].
  rewrite Hrest in Hsteps. simpl in Hreg.
  unfold execute_research_plan. rewrite Hget, String.eqb_refl. simpl.
  unfold run_plan. unfold started at 1. simpl. rewrite Hsteps. simpl.
  unfold _execute_workflow_step, dispatch_step. simpl.
  unfold _execute_search_step. simpl. rewrite Hreg. simpl.
  eexists. split; [reflexivity|]. simpl.
  split; [apply dict_get_set_same|].
  repeat split.
  - unfold py_append. rewrite length_app. simpl. lia.
  - intros id Hid. apply dict_get_set_other. congruence.
Qed.

Lemma C6_missing_search_capability_witness :
  exists w',
    snd (execute_research_plan Sample.env_no_tools Sample.plan0 "u1"
                               Sample.svc_planned) = Ok w' /\
    status w' = "failed" /\
    errors w' = ["Step web_search: Web search tool not available"].
Proof.
  destruct (C6_missing_search_capability
              Sample.env_no_tools Sample.svc_planned Sample.plan0
              Sample.planned0 "What is x?" web_search_step
              eq_refl eq_refl (or_introl eq_refl) eq_refl eq_refl)
    as (w' & Hex & _ & _ & Hst & Herr & _).
  exists w'. simpl in Hex. rewrite Hex. auto.
Defined.

Lemma gated_dispatch env step w u mem :
  step_type step = "search" \/ step_type step = "analysis" ->
  if _check_dependencies step w
  then forall r, _execute_workflow_step env step w u mem = Ok r ->
                 sr_status r <> "skipped"
  else _execute_workflow_step env step w u mem = Ok skipped.
Proof.
  unfold _execute_workflow_step, dispatch_step.
  intros [Hty|Hty]; rewrite Hty; simpl;
    [unfold _execute_search_step|unfold _execute_analysis_step];
    destruct (_check_dependencies step w); simpl; try reflexivity;
    (destruct (get_tool _ _) as [tool|]; simpl;
     [destruct (tool _) as [out|e]; simpl; [|destruct (is_exception e)]|]);
    intros r H; inversion H; subst; discriminate.
Qed.

(** C1 fails as stated: in the plan for "hello" (retrieval, synthesis) the
    synthesis step declares the dependency "web_search", no step result for
    "web_search" is ever recorded, and the synthesis step is recorded as
    "completed". *)
Lemma C1_counterexample :
  In "web_search" (depends_on synthesis_step) /\
  _check_dependencies synthesis_step Sample.hello0 = false /\
  (exists r,
      _execute_workflow_step Sample.env_no_tools synthesis_step
                             Sample.hello0 "u1" Memory.empty_graph = Ok r /\
      sr_status r = "completed") /\
  (exists w' r,
      snd (execute_research_plan Sample.env_no_tools Sample.plan0 "u1"
                                 Sample.svc_hello) = Ok w' /\
      In synthesis_step (steps w') /\
      dict_get "web_search" (results w') = None /\
      dict_get "synthesis" (results w') = Some r /\
      sr_status r = "completed") /\
  (exists w' r,
      snd (execute_research_plan Sample.env_no_tools Sample.plan0 "u1"
                                 Sample.svc_paper) = Ok w' /\
      map step_id (steps w')
        = ["document_analysis"; "context_retrieval"; "synthesis"] /\
      In "document_analysis" (depends_on synthesis_step) /\
      dict_get "document_analysis" (results w') = Some skipped /\
      dict_get "synthesis" (results w') = Some r /\
      sr_status r = "completed").
Proof.
  split; [simpl; auto|]. split; [reflexivity|]. split; [|split].
  - eexists. split; [vm_compute; reflexivity|reflexivity].
  - eexists. eexists. split; [vm_compute; reflexivity|].
    split; [simpl; auto|]. split; [reflexivity|]. split; reflexivity.
  - eexists. eexists. split; [vm_compute; reflexivity|].
    split; [reflexivity|]. split; [simpl; auto|].
    split; [reflexivity|]. split; reflexivity.
Qed.

(** C1, amended: only search and analysis steps are gated by their
    dependency set.  Such a step is recorded as "completed" only if, at the
    time it is executed, every step id in its dependency set has a result
    with status "completed"; otherwise its result is
    [{"status": "skipped", "reason": "Dependencies not met"}] and the loop
    goes on with the next step.  Retrieval and synthesis steps do not look
    at their dependency sets: a retrieval step is always "completed" and a
    synthesis step is never "skipped". *)
Theorem C1_dependency_gate :
  forall env step w u mem,
    (step_type step = "search" \/ step_type step = "analysis" ->
     (forall r,
         _execute_workflow_step env step w u mem = Ok r ->
         sr_status r = "completed" ->
         forall dep_id, In dep_id (depends_on step) ->
           exists r0, dict_get dep_id (results w) = Some r0 /\
                      sr_status r0 = "completed") /\
     (_check_dependencies step w = false ->
      _execute_workflow_step env step w u mem
        = Ok (mkStepResult "skipped" (Some "Dependencies not met")
                           None None None None) /\
      forall i rest,
        run_steps env u mem i (step :: rest) w
          = run_steps env u mem (S i) rest
              (with_results (dict_set (step_id step) skipped (results w))
                            (with_current_step i w)))) /\
    (step_type step = "retrieval" ->
     exists r, _execute_workflow_step env step w u mem = Ok r /\
               sr_status r = "completed") /\
    (step_type step = "synthesis" ->
     exists r, _execute_workflow_step env step w u mem = Ok r /\
               sr_status r <> "skipped").
Proof.
  intros env step w u mem. split; [|split].
  - intros Hty. split.
    + intros r Hr Hdone. apply check_dependencies_iff.
      pose proof (gated_dispatch env step w u mem Hty) as G.
      destruct (_check_dependencies step w); [reflexivity|].
      rewrite G in Hr. inversion Hr; subst r. discriminate.
    + intros Hdeps. split.
      * pose proof (gated_dispatch env step w u mem Hty) as G.
        now rewrite Hdeps in G.
      * intros i rest.
        pose proof (gated_dispatch env step (with_current_step i w) u mem Hty)
          as G.
        change (_check_dependencies step (with_current_step i w))
          with (_check_dependencies step w) in G.
        rewrite Hdeps in G. cbn [run_steps]. rewrite G. reflexivity.
  - intros Hty. unfold _execute_workflow_step, dispatch_step.
    rewrite Hty. eexists. split; reflexivity.
  - intros Hty. unfold _execute_workflow_step, dispatch_step.
    rewrite Hty. simpl. unfold _execute_synthesis_step.
    destruct (result_of "context_retrieval" w); simpl;
      eexists; (split; [reflexivity|discriminate]).
Qed.

Lemma C1_dependency_gate_witness :
  _execute_workflow_step Sample.env_no_tools document_analysis_step
                         Sample.hello0 "u1" Memory.empty_graph
    = Ok skipped.
Proof.
  destruct (C1_dependency_gate Sample.env_no_tools document_analysis_step
              Sample.hello0 "u1" Memory.empty_graph) as [H _].
  destruct (H (or_intror eq_refl)) as [_ H2].
  destruct (H2 eq_refl) as [H3 _]. exact H3.
Defined.

(** [store_context] raises a [KeyError] or nothing. *)
Lemma connect_concepts_raises now context_id concepts :
  forall g g' e,
    Memory.connect_concepts now context_id concepts g = (g', Raise e) ->
    is_exception e = true.
Proof.
  induction concepts as [|c rest IH]; intros g g' e; cbn [Memory.connect_concepts].
  - discriminate.
  - unfold Memory.touch_concept.
    destruct (dict_get (Memory.concept_id_of c) (Memory.nodes g))
      as [[i p t|i p t]|]; try (apply IH).
    intros [= _ <-]. reflexivity.
Qed.

Lemma store_context_raises so now q d u g g' e :
  Memory.store_context so now q d u g = (g', Raise e) ->
  is_exception e = true.
Proof.
  unfold Memory.store_context, Memory._create_concept_connections.
  destruct (Memory.connect_concepts _ _ _ _) as [g2 [[]|e0]] eqn:Hc;
    [discriminate|].
  intros [= _ <-]. exact (connect_concepts_raises _ _ _ _ _ _ Hc).
Qed.

(** Storing the results raises [Exception]s only. *)
Lemma store_results_raises env w u mem e :
  snd (_store_workflow_results env w u mem) = Raise e ->
  is_exception e = true.
Proof.
  unfold _store_workflow_results.
  destruct (py_truthy _); [|discriminate].
  destruct (json_dumps env _) as [content|e0] eqn:Hj.
  - destruct (result_of "synthesis" w); cbn [py_get snd];
      try (intros [= <-]; reflexivity).
    destruct (Memory.store_context _ _ _ _ _ _) as [m [c|e1]] eqn:Hs;
      cbn [snd]; [discriminate|].
    intros [= <-]. exact (store_context_raises _ _ _ _ _ _ _ _ Hs).
  - cbn [snd]. intros [= <-]. eapply json_dumps_raises; exact Hj.
Qed.

(** The ways [run_plan] ends: an exception that is no [Exception] left the
    loop, or the loop broke, or it ended and the results were stored, or
    it ended and storing raised. *)
Lemma run_plan_cases env u w mem :
  let w_end := fst (run_steps env u mem 0 (steps w) (started env w)) in
  let stamp := with_updated_at (clock_iso (now env)) in
  (exists e,
      snd (run_steps env u mem 0 (steps w) (started env w)) = Raise e /\
      is_exception e = false /\
      run_plan env u w mem = (w_end, mem, Raise e)) \/
  (snd (run_steps env u mem 0 (steps w) (started env w)) = Ok tt /\
   ((status w_end = "failed" /\
     run_plan env u w mem = (stamp w_end, mem, Ok tt)) \/
    (status w_end <> "failed" /\
     ((snd (_store_workflow_results env (with_status "completed" w_end) u mem)
         = Ok tt /\
       run_plan env u w mem
         = (stamp (with_status "completed" w_end),
            fst (_store_workflow_results env (with_status "completed" w_end)
                   u mem),
            Ok tt)) \/
      (exists e,
          snd (_store_workflow_results env (with_status "completed" w_end)
                 u mem) = Raise e /\
          run_plan env u w mem
            = (stamp (with_errors
                        (py_append (errors w_end)
                           ("Workflow execution failed: " ++ exn_msg e))
                        (with_status "error"
                           (with_status "completed" w_end))),
               fst (_store_workflow_results env
                      (with_status "completed" w_end) u mem),
               Ok tt)))))).
Proof.
  intros w_end stamp. subst w_end. unfold run_plan.
  change (steps (started env w)) with (steps w).
  destruct (run_steps env u mem 0 (steps w) (started env w))
    as [w1 [[]|e]] eqn:HR; cbn [fst snd].
  - right. split; [reflexivity|].
    destruct (String.eqb_spec (status w1) "failed") as [Hf|Hnf]; cbn [negb].
    + left. split; [exact Hf|reflexivity].
    + right. split; [exact Hnf|].
      destruct (_store_workflow_results env (with_status "completed" w1)
                  u mem) as [m [[]|e]] eqn:Hs; cbn [fst snd].
      * left. split; reflexivity.
      * right. exists e. split; [reflexivity|].
        assert (He : is_exception e = true).
        { apply (store_results_raises env (with_status "completed" w1) u mem).
          now rewrite Hs. }
        rewrite He. reflexivity.
  - left. exists e. split; [reflexivity|]. split; [|reflexivity].
    assert (H : snd (run_steps env u mem 0 (steps w) (started env w))
                = Raise e) by now rewrite HR.
    exact (proj1 (run_steps_escape _ _ _ _ _ _ _ H)).
Qed.

(** The outcome of [execute_research_plan] for the owner, in terms of
    [run_plan]. *)
Lemma execute_owner env svc pid w :
  dict_get pid (active_workflows svc) = Some w ->
  execute_research_plan env pid (user_id w) svc
  = (mkService
       (dict_set pid
          (fst (fst (run_plan env (user_id w) w (memory_service svc))))
          (active_workflows svc))
       (snd (fst (run_plan env (user_id w) w (memory_service svc)))),
     match snd (run_plan env (user_id w) w (memory_service svc)) with
     | Ok _ => Ok (fst (fst (run_plan env (user_id w) w (memory_service svc))))
     | Raise e => Raise e
     end).
Proof.
  intros Hget. unfold execute_research_plan.
  rewrite Hget, String.eqb_refl. cbn [negb].
  destruct (run_plan env (user_id w) w (memory_service svc)) as [[w' m] o].
  reflexivity.
Qed.

(** A step whose dispatch raises ends the loop.  If the exception is an
    [Exception], the step's result is an "error" result, the status is
    "failed" and one line joins the error list; if not, the exception
    leaves the loop, and the status and the error list stay as they are. *)
Lemma step_fault_breaks env u mem pre s post e w0 :
  status w0 <> "failed" ->
  snd (run_steps env u mem 0 pre w0) = Ok tt ->
  status (fst (run_steps env u mem 0 pre w0)) <> "failed" ->
  dispatch_step env s
    (with_current_step (length pre) (fst (run_steps env u mem 0 pre w0)))
    u mem = Raise e ->
  if is_exception e
  then snd (run_steps env u mem 0 (pre ++ s :: post) w0) = Ok tt /\
       status (fst (run_steps env u mem 0 (pre ++ s :: post) w0)) = "failed" /\
       errors (fst (run_steps env u mem 0 (pre ++ s :: post) w0))
       = py_append (errors w0)
           ("Step " ++ step_id s ++ ": "
              ++ "Step execution failed: " ++ exn_msg e)
  else snd (run_steps env u mem 0 (pre ++ s :: post) w0) = Raise e /\
       status (fst (run_steps env u mem 0 (pre ++ s :: post) w0)) = status w0 /\
       errors (fst (run_steps env u mem 0 (pre ++ s :: post) w0)) = errors w0.
Proof.
  intros H0 Hok Hpre Hraise.
  rewrite run_steps_app by exact H0. rewrite Hok.
  destruct (String.eqb_spec (status (fst (run_steps env u mem 0 pre w0)))
                            "failed"); [contradiction|].
  cbn [isOk andb negb run_steps Nat.add]. unfold _execute_workflow_step.
  rewrite Hraise.
  destruct (run_steps_frame env u mem pre 0 w0)
    as (_ & _ & _ & _ & [[Fs Fe]|[Fs _]]); [|contradiction].
  destruct (is_exception e); cbn.
  - rewrite Fe. repeat split.
  - repeat split; assumption.
Qed.

(** An exception that left the loop was raised by the dispatch of one of
    its steps, after the steps before it had run without a failure. *)
Lemma run_steps_escaped env u mem todo :
  forall i w e,
    snd (run_steps env u mem i todo w) = Raise e ->
    exists pre s post,
      todo = (pre ++ s :: post)%list /\
      snd (run_steps env u mem i pre w) = Ok tt /\
      status (fst (run_steps env u mem i pre w)) = status w /\
      dispatch_step env s
        (with_current_step (i + length pre)
                           (fst (run_steps env u mem i pre w))) u mem
      = Raise e /\
      fst (run_steps env u mem i todo w)
      = with_current_step (i + length pre)
                          (fst (run_steps env u mem i pre w)).
Proof.
  induction todo as [|step rest IH]; intros i w e; cbn [run_steps].
  - discriminate.
  - destruct (execute_step_cases env step (with_current_step i w) u mem)
      as [[r Hr]|(e0 & He0 & Hd & _)]; rewrite ?Hr, ?He0.
    + destruct (String.eqb (sr_status r) "error") eqn:Er; [discriminate|].
      intros H. destruct (IH _ _ _ H) as (pre & s & post & -> & P1 & P2 & P3 & P4).
      exists (step :: pre), s, post.
      cbn [app run_steps length]. rewrite Hr, Er.
      rewrite Nat.add_succ_r.
      split; [reflexivity|]. split; [exact P1|].
      split; [exact P2|]. split; [exact P3|exact P4].
    + cbn [fst snd]. intros [= <-].
      exists [], step, rest. cbn [app run_steps fst snd length].
      rewrite Nat.add_0_r. repeat split. exact Hd.
Qed.

(** How [run_plan] ends and what it leaves. *)
Lemma run_plan_outcomes env u w mem :
  let w' := fst (fst (run_plan env u w mem)) in
  (snd (run_plan env u w mem) = Ok tt /\
   ((status w' = "completed" /\ errors w' = errors w) \/
    ((status w' = "failed" \/ status w' = "error") /\
     exists msg, errors w' = (errors w ++ [msg])%list))) \/
  (exists e,
      snd (run_plan env u w mem) = Raise e /\
      is_exception e = false /\
      status w' = "executing" /\ errors w' = errors w /\
      snd (fst (run_plan env u w mem)) = mem /\
      exists name tool tool_input,
        get_tool name (registry env) = Some tool /\
        tool tool_input = Raise e).
Proof.
  destruct (run_steps_frame env u mem (steps w) 0 (started env w))
    as (_ & _ & _ & _ & F).
  cbn zeta in F.
  destruct (run_plan_cases env u w mem)
    as [(e & He & Hne & Hr)|[HR [[Hf Hr]|[Hnf [[Hs Hr]|[e0 [Hs Hr]]]]]]];
    cbn zeta; rewrite Hr; cbn [fst snd].
  - right. exists e. split; [reflexivity|]. split; [exact Hne|].
    destruct (run_steps_escape _ _ _ _ _ _ _ He) as (_ & Es & Ee).
    split; [exact Es|]. split; [exact Ee|]. split; [reflexivity|].
    destruct (run_steps_escaped _ _ _ _ _ _ _ He)
      as (pre & s & post & _ & _ & _ & Hd & _).
    exact (escape_from_tool _ _ _ _ _ _ Hd Hne).
  - left. split; [reflexivity|]. right.
    destruct F as [[Fs _]|[_ Fe]].
    + rewrite Hf in Fs. discriminate.
    + split; [left; exact Hf|exact Fe].
  - left. split; [reflexivity|]. left.
    destruct F as [[_ Fe]|[Ff _]]; [|contradiction].
    split; [reflexivity|exact Fe].
  - left. split; [reflexivity|]. right.
    destruct F as [[_ Fe]|[Ff _]]; [|contradiction].
    split; [right; reflexivity|].
    eexists. cbn. rewrite Fe. reflexivity.
Qed.

Lemma run_plan_step_fault env u w mem pre s post e :
  steps w = (pre ++ s :: post)%list ->
  snd (run_steps env u mem 0 pre (started env w)) = Ok tt ->
  status (fst (run_steps env u mem 0 pre (started env w))) <> "failed" ->
  dispatch_step env s
    (with_current_step (length pre)
       (fst (run_steps env u mem 0 pre (started env w)))) u mem = Raise e ->
  let w' := fst (fst (run_plan env u w mem)) in
  if is_exception e
  then snd (run_plan env u w mem) = Ok tt /\
       status w' = "failed" /\
       errors w'
       = py_append (errors w)
           ("Step " ++ step_id s ++ ": "
              ++ "Step execution failed: " ++ exn_msg e)
  else snd (run_plan env u w mem) = Raise e /\
       status w' = "executing" /\ errors w' = errors w.
Proof.
  intros Hsteps Hok Hpre Hraise.
  pose proof (step_fault_breaks env u mem pre s post e (started env w)
                ltac:(simpl; discriminate) Hok Hpre Hraise) as B.
  rewrite <- Hsteps in B. cbn zeta.
  destruct (run_plan_cases env u w mem)
    as [(e0 & He & Hne & Hr)|[HR [[Hf Hr]|[Hnf [[Hs Hr]|[e0 [Hs Hr]]]]]]];
    rewrite Hr; cbn [fst snd]; destruct (is_exception e);
    destruct B as (B1 & B2 & B3);
    try (rewrite B1 in He; discriminate);
    try (rewrite B1 in HR; discriminate);
    try contradiction.
  - rewrite B1 in He. inversion He; subst e0. repeat split; assumption.
  - repeat split; assumption.
Qed.

Lemma run_plan_store_fault env u w mem e :
  snd (run_steps env u mem 0 (steps w) (started env w)) = Ok tt ->
  status (fst (run_steps env u mem 0 (steps w) (started env w))) <> "failed" ->
  snd (_store_workflow_results env
         (with_status "completed"
            (fst (run_steps env u mem 0 (steps w) (started env w)))) u mem)
  = Raise e ->
  snd (run_plan env u w mem) = Ok tt /\
  status (fst (fst (run_plan env u w mem))) = "error" /\
  errors (fst (fst (run_plan env u w mem)))
  = py_append (errors w) ("Workflow execution failed: " ++ exn_msg e).
Proof.
  intros HR0 Hnf0 He.
  destruct (run_steps_frame env u mem (steps w) 0 (started env w))
    as (_ & _ & _ & _ & F).
  cbn zeta in F.
  destruct (run_plan_cases env u w mem)
    as [(e0 & He0 & Hne & Hr)|[HR [[Hf Hr]|[Hnf [[Hs Hr]|[e0 [Hs Hr]]]]]]];
    rewrite Hr; cbn [fst snd].
  - rewrite HR0 in He0. discriminate.
  - contradiction.
  - rewrite Hs in He. discriminate.
  - rewrite Hs in He. inversion He; subst e0.
    destruct F as [[_ Fe]|[Ff _]]; [|contradiction].
    cbn. rewrite Fe. repeat split.
Qed.

(** C10 fails as stated: the web search tool of the sample plan is
    cancelled while it waits.  [asyncio.CancelledError] is no [Exception],
    so neither [except Exception] catches it: [execute_research_plan]
    raises it, and the stored plan stays in status "executing" with an
    empty error list. *)
Lemma C10_counterexample :
  dict_get Sample.plan0 (active_workflows Sample.svc_planned)
    = Some Sample.planned0 /\
  user_id Sample.planned0 = "u1" /\
  snd (execute_research_plan Sample.env_cancelled_search Sample.plan0 "u1"
                             Sample.svc_planned)
    = Raise (mkExn "CancelledError" "") /\
  exists w',
    dict_get Sample.plan0
      (active_workflows
         (fst (execute_research_plan Sample.env_cancelled_search Sample.plan0
                 "u1" Sample.svc_planned))) = Some w' /\
    status w' = "executing" /\
    errors w' = [].
Proof.
  split; [reflexivity|]. split; [reflexivity|].
  split; [vm_compute; reflexivity|].
  eexists. split; [vm_compute; reflexivity|]. split; reflexivity.
Qed.

(** C10, amended: for every stored plan, [execute_research_plan] called by
    the owner lets no [Exception] pass.  Either it returns the stored
    workflow state, which is "completed" with the error list as before, or
    "failed" or "error" with one message appended; or it raises an
    exception that is no [Exception] ([asyncio.CancelledError],
    [KeyboardInterrupt], [SystemExit], [GeneratorExit]) and that a
    registered tool raised, and then the plan is left in status
    "executing" with its error list and the memory as before.  If the
    dispatch of a step the loop reaches raises an [Exception], the status
    is "failed" and the appended message names the step and the exception;
    if the loop ends without a failure and storing the results raises, the
    status is "error" and the appended message carries the exception's
    text. *)
Theorem C10_execute_catches_exceptions :
  forall env svc plan_id w,
    dict_get plan_id (active_workflows svc) = Some w ->
    exists svc' w',
      dict_get plan_id (active_workflows svc') = Some w' /\
      ((execute_research_plan env plan_id (user_id w) svc = (svc', Ok w') /\
        ((status w' = "completed" /\ errors w' = errors w) \/
         ((status w' = "failed" \/ status w' = "error") /\
          exists msg, errors w' = (errors w ++ [msg])%list))) \/
       (exists e,
           execute_research_plan env plan_id (user_id w) svc
           = (svc', Raise e) /\
           is_exception e = false /\
           (exists name tool tool_input,
               get_tool name (registry env) = Some tool /\
               tool tool_input = Raise e) /\
           status w' = "executing" /\ errors w' = errors w /\
           memory_service svc' = memory_service svc)) /\
      (forall pre s post e,
          steps w = (pre ++ s :: post)%list ->
          snd (run_steps env (user_id w) (memory_service svc) 0 pre
                         (started env w)) = Ok tt ->
          let w_pre :=
            fst (run_steps env (user_id w) (memory_service svc) 0 pre
                           (started env w)) in
          status w_pre <> "failed" ->
          dispatch_step env s (with_current_step (length pre) w_pre)
                        (user_id w) (memory_service svc) = Raise e ->
          if is_exception e
          then execute_research_plan env plan_id (user_id w) svc
               = (svc', Ok w') /\
               status w' = "failed" /\
               errors w'
               = py_append (errors w)
                   ("Step " ++ step_id s ++ ": "
                      ++ "Step execution failed: " ++ exn_msg e)
          else execute_research_plan env plan_id (user_id w) svc
               = (svc', Raise e) /\
               status w' = "executing" /\ errors w' = errors w)
      /\
      (forall e,
          snd (run_steps env (user_id w) (memory_service svc) 0 (steps w)
                         (started env w)) = Ok tt ->
          let w_end :=
            fst (run_steps env (user_id w) (memory_service svc) 0 (steps w)
                           (started env w)) in
          status w_end <> "failed" ->
          snd (_store_workflow_results env (with_status "completed" w_end)
                 (user_id w) (memory_service svc)) = Raise e ->
          execute_research_plan env plan_id (user_id w) svc = (svc', Ok w') /\
          status w' = "error" /\
          errors w'
            = py_append (errors w)
                ("Workflow execution failed: " ++ exn_msg e)).
Proof.
  intros env svc pid w Hget.
  rewrite (execute_owner env svc pid w Hget).
  set (P := run_plan env (user_id w) w (memory_service svc)).
  exists (mkService (dict_set pid (fst (fst P)) (active_workflows svc))
                    (snd (fst P))), (fst (fst P)).
  split; [cbn [active_workflows]; apply dict_get_set_same|].
  split; [|split].
  - destruct (run_plan_outcomes env (user_id w) w (memory_service svc))
      as [[Ho Hst]|(e & Ho & Hne & Hst & Herr & Hmem & Htool)];
      fold P in Ho, Hst; cbn zeta in Hst.
    + left. rewrite Ho. split; [reflexivity|exact Hst].
    + right. exists e. fold P in Herr, Hmem. rewrite Ho.
      split; [reflexivity|]. split; [exact Hne|]. split; [exact Htool|].
      split; [exact Hst|]. split; [exact Herr|exact Hmem].
  - intros pre s post e Hsteps Hok w_pre Hpre Hraise.
    pose proof (run_plan_step_fault env (user_id w) w (memory_service svc)
                  pre s post e Hsteps Hok Hpre Hraise) as B.
    cbn zeta in B. fold P in B.
    destruct (is_exception e); destruct B as (B1 & B2 & B3); rewrite B1;
      repeat split; assumption.
  - intros e Hok w_end Hnf He.
    destruct (run_plan_store_fault env (user_id w) w (memory_service svc) e
                Hok Hnf He) as (B1 & B2 & B3).
    fold P in B1, B2, B3. rewrite B1. repeat split; assumption.
Qed.

Lemma C10_execute_catches_exceptions_witness :
  exists w',
    snd (execute_research_plan Sample.env_broken_search Sample.plan0 "u1"
                               Sample.svc_planned) = Ok w' /\
    status w' = "failed" /\
    errors w'
      = ["Step web_search: Step execution failed: connection refused"].
Proof.
  destruct (C10_execute_catches_exceptions Sample.env_broken_search
              Sample.svc_planned Sample.plan0 Sample.planned0 eq_refl)
    as (svc' & w' & _ & _ & Hstep & _).
  exists w'.
  destruct (Hstep [] web_search_step
                  [context_retrieval_step; synthesis_step]
                  (mkExn "RuntimeError" "connection refused")
                  eq_refl eq_refl
                  ltac:(simpl; discriminate) eq_refl)
    as (Hex & Hst & Herr).
  simpl in Hex. rewrite Hex. split; [reflexivity|]. split; assumption.
Defined.

(** A fault while the results are stored: [json.dumps] raises, the plan
    ends in status "error" with the exception's text in its error list, and
    the memory graph stays empty. *)
Example persistence_fault :
  exists w',
    execute_research_plan Sample.env_no_json Sample.plan0 "u1" Sample.svc_hello
      = (mkService [(Sample.plan0, w')] Memory.empty_graph, Ok w') /\
    status w' = "error" /\
    errors w'
      = ["Workflow execution failed: "
           ++ "Object of type dict is not JSON serializable"].
Proof. eexists. split; [vm_compute; reflexivity|]. split; reflexivity. Qed.

(** Every execution by the owner keeps what identifies the plan.  When it
    returns, the plan is in one of the three terminal statuses; when it
    raises, the plan is left "executing". *)
Lemma run_plan_terminal env u w mem :
  let w' := fst (fst (run_plan env u w mem)) in
  plan_id w' = plan_id w /\ query w' = query w /\
  user_id w' = user_id w /\ steps w' = steps w /\
  ((snd (run_plan env u w mem) = Ok tt /\
    (status w' = "completed" \/ status w' = "failed" \/ status w' = "error"))
   \/
   (exists e,
       snd (run_plan env u w mem) = Raise e /\ is_exception e = false /\
       status w' = "executing" /\ errors w' = errors w)) /\
  (errors w' = errors w \/ exists msg, errors w' = (errors w ++ [msg])%list).
Proof.
  destruct (run_steps_frame env u mem (steps w) 0 (started env w))
    as (F1 & F2 & F3 & F4 & _).
  pose proof (run_plan_outcomes env u w mem) as O.
  cbn zeta in *.
  assert (Hid : plan_id (fst (fst (run_plan env u w mem))) = plan_id w /\
                query (fst (fst (run_plan env u w mem))) = query w /\
                user_id (fst (fst (run_plan env u w mem))) = user_id w /\
                steps (fst (fst (run_plan env u w mem))) = steps w).
  { destruct (run_plan_cases env u w mem)
      as [(e & He & Hne & Hr)|[HR [[Hf Hr]|[Hnf [[Hs Hr]|[e0 [Hs Hr]]]]]]];
      rewrite Hr; cbn [fst]; repeat split; assumption. }
  destruct Hid as (I1 & I2 & I3 & I4).
  split; [exact I1|]. split; [exact I2|]. split; [exact I3|].
  split; [exact I4|].
  destruct O as [[Ho [[Hs He]|[Hs [msg He]]]]|(e & Ho & Hne & Hs & He & _)].
  - split; [left; split; [exact Ho|left; exact Hs]|left; exact He].
  - split; [left; split; [exact Ho|right; exact Hs]|right; eauto].
  - split; [right; exists e; auto|left; exact He].
Qed.

(** C2 fails as stated: the sample plan has failed with one error; a second
    [execute_research_plan] by its owner runs it again and leaves two
    errors. *)
Lemma C2_counterexample :
  exists w w',
    dict_get Sample.plan0 (active_workflows Sample.svc_failed) = Some w /\
    status w = "failed" /\
    dict_get Sample.plan0
             (active_workflows
                (fst (execute_research_plan Sample.env_no_tools Sample.plan0
                        (user_id w) Sample.svc_failed))) = Some w' /\
    length (errors w) = 1%nat /\
    length (errors w') = 2%nat /\
    errors w' <> errors w.
Proof.
  eexists. eexists.
  split; [vm_compute; reflexivity|]. split; [reflexivity|].
  split; [vm_compute; reflexivity|]. split; [reflexivity|].
  split; [reflexivity|]. discriminate.
Qed.

(** C2, amended: "completed", "failed" and "error" are the statuses every
    execution that returns ends in, and they are not guarded.  For every
    stored plan, so also for one in a terminal status:
    [get_workflow_status] and [get_workflow_results] change nothing;
    [execute_research_plan] on another plan id or by a caller who is not
    the owner, and [create_research_plan] under another plan id, leave the
    plan as it was; [execute_research_plan] by the owner runs the plan
    again: the plan keeps its id, query, owner and steps, and its error
    list is the old one or the old one with one message appended.  When
    that call returns, it returns the stored plan, which is again
    "completed", "failed" or "error"; when a tool raises an exception that
    is no [Exception], the call raises it and leaves the plan in status
    "executing" with the old error list. *)
Theorem C2_terminal_plans :
  forall env svc pid w,
    dict_get pid (active_workflows svc) = Some w ->
    (forall pid' caller,
        fst (get_workflow_status pid' caller svc) = svc /\
        fst (get_workflow_results env pid' caller svc) = svc) /\
    (forall pid' caller,
        pid' <> pid \/ caller <> user_id w ->
        dict_get pid
          (active_workflows (fst (execute_research_plan env pid' caller svc)))
          = Some w) /\
    (forall uuid_hex8 q u,
        "plan_" ++ uuid_hex8 <> pid ->
        dict_get pid
          (active_workflows
             (fst (create_research_plan uuid_hex8 (now env) q u svc)))
          = Some w) /\
    (exists w',
        dict_get pid
          (active_workflows
             (fst (execute_research_plan env pid (user_id w) svc)))
          = Some w' /\
        plan_id w' = plan_id w /\ query w' = query w /\
        user_id w' = user_id w /\ steps w' = steps w /\
        ((snd (execute_research_plan env pid (user_id w) svc) = Ok w' /\
          (status w' = "completed" \/ status w' = "failed" \/
           status w' = "error")) \/
         (exists e,
             snd (execute_research_plan env pid (user_id w) svc) = Raise e /\
             is_exception e = false /\
             status w' = "executing" /\ errors w' = errors w)) /\
        (errors w' = errors w \/
         exists msg, errors w' = (errors w ++ [msg])%list)).
Proof.
  intros env svc pid w Hget. split; [|split; [|split]].
  - intros pid' caller.
    unfold get_workflow_status, get_workflow_results.
    destruct (dict_get pid' (active_workflows svc)) as [w1|];
      [|split; reflexivity].
    destruct (negb (String.eqb (user_id w1) caller)); split; reflexivity.
  - intros pid' caller Hother. unfold execute_research_plan.
    destruct (dict_get pid' (active_workflows svc)) as [w1|] eqn:Hget';
      [|exact Hget].
    destruct (String.eqb_spec (user_id w1) caller) as [Hu|Hu];
      cbn [negb]; [|exact Hget].
    destruct (run_plan env caller w1 (memory_service svc)) as [[w2 mem2] o].
    cbn [fst active_workflows].
    destruct (string_dec pid' pid) as [->|Hp].
    + rewrite Hget in Hget'. inversion Hget'; subst w1.
      destruct Hother as [H|H]; congruence.
    + rewrite dict_get_set_other by exact Hp. exact Hget.
  - intros uuid_hex8 q u Hp. unfold create_research_plan.
    cbn [fst active_workflows].
    rewrite dict_get_set_other by exact Hp. exact Hget.
  - rewrite (execute_owner env svc pid w Hget).
    pose proof (run_plan_terminal env (user_id w) w (memory_service svc)) as T.
    cbn zeta in T.
    set (P := run_plan env (user_id w) w (memory_service svc)) in *.
    exists (fst (fst P)). cbn [fst snd active_workflows].
    split; [apply dict_get_set_same|].
    destruct T as (T1 & T2 & T3 & T4 & T5 & T6).
    split; [exact T1|]. split; [exact T2|]. split; [exact T3|].
    split; [exact T4|]. split; [|exact T6].
    destruct T5 as [[Ho Hs]|(e & Ho & Hne & Hs & He)]; rewrite Ho.
    + left. split; [reflexivity|exact Hs].
    + right. exists e. auto.
Qed.

Lemma C2_terminal_plans_witness :
  dict_get Sample.plan0
    (active_workflows
       (fst (execute_research_plan Sample.env_no_tools Sample.plan0 "u2"
                                   Sample.svc_failed)))
  = dict_get Sample.plan0 (active_workflows Sample.svc_failed).
Proof.
  destruct (C2_terminal_plans Sample.env_no_tools Sample.svc_failed
              Sample.plan0
              (with_status "failed"
                 (with_errors
                    ["Step web_search: Web search tool not available"]
                    (with_results
                       [("web_search",
                         failed_with "Web search tool not available")]
                       Sample.planned0)))
              eq_refl) as (_ & H & _).
  rewrite (H Sample.plan0 "u2"); [reflexivity|].
  right. discriminate.
Defined.
End Executor.


(* ===================================================================== *)
(** ** Retrieval from the memory graph *)
(* ===================================================================== *)

Section Retrieval.
Import PyStr Memory.

Lemma In_insert_desc x a l : In x (insert_desc a l) <-> x = a \/ In x l.
Proof.
  induction l as [|y ys IH]; simpl.
  - intuition.
  - destruct (r_relevance_score y <=? r_relevance_score a)%Z; simpl.
    + intuition.
    + rewrite IH. intuition.
Qed.

Lemma In_sort_desc x l : In x (sort_desc l) <-> In x l.
Proof.
  induction l as [|a l IH]; simpl; [reflexivity|].
  rewrite In_insert_desc, IH. intuition.
Qed.

Lemma In_firstn_In {A} n (l : list A) x : In x (firstn n l) -> In x l.
Proof.
  intros H. rewrite <- (firstn_skipn n l). apply in_or_app. now left.
Qed.

Lemma In_py_slice_to {A} n (l : list A) x : In x (py_slice_to n l) -> In x l.
Proof.
  unfold py_slice_to. destruct (0 <=? n)%Z; apply In_firstn_In.
Qed.

Lemma insert_desc_sorted a l :
  StronglySorted at_most l -> StronglySorted at_most (insert_desc a l).
Proof.
  induction 1 as [|y ys Hs IH Hall]; simpl.
  - constructor; constructor.
  - destruct (Z.leb_spec (r_relevance_score y) (r_relevance_score a)).
    + constructor; [constructor; assumption|].
      constructor; [exact H|].
      rewrite Forall_forall in Hall |- *. intros z Hz.
      specialize (Hall z Hz). unfold at_most in *. lia.
    + constructor; [exact IH|].
      rewrite Forall_forall in Hall |- *. intros z Hz.
      apply In_insert_desc in Hz. destruct Hz as [->|Hz].
      * unfold at_most. lia.
      * now apply Hall.
Qed.

Lemma sort_desc_sorted l : StronglySorted at_most (sort_desc l).
Proof.
  induction l; simpl; [constructor|now apply insert_desc_sorted].
Qed.

Lemma count_at_least_cons s a l :
  count_at_least s (a :: l)
  = ((if (s <=? r_relevance_score a)%Z then 1 else 0) + count_at_least s l)%nat.
Proof.
  unfold count_at_least. simpl.
  destruct (s <=? r_relevance_score a)%Z; reflexivity.
Qed.

Lemma count_at_least_app s l1 l2 :
  count_at_least s (l1 ++ l2)
  = (count_at_least s l1 + count_at_least s l2)%nat.
Proof.
  unfold count_at_least. now rewrite filter_app, length_app.
Qed.

Lemma count_at_least_insert s a l :
  count_at_least s (insert_desc a l) = count_at_least s (a :: l).
Proof.
  induction l as [|y ys IH]; simpl; [reflexivity|].
  destruct (r_relevance_score y <=? r_relevance_score a)%Z; [reflexivity|].
  rewrite count_at_least_cons, IH, !count_at_least_cons. lia.
Qed.

Lemma count_at_least_sort s l :
  count_at_least s (sort_desc l) = count_at_least s l.
Proof.
  induction l as [|a l IH]; simpl; [reflexivity|].
  now rewrite count_at_least_insert, !count_at_least_cons, IH.
Qed.

(** In a descending list the entries that score at least as much as [x]
    come first; if there are at most [n] of them, [x] is among the first
    [n]. *)
Lemma sorted_prefix l :
  StronglySorted at_most l ->
  forall x n,
    In x l ->
    (count_at_least (r_relevance_score x) l <= n)%nat ->
    In x (firstn n l).
Proof.
  induction 1 as [|y ys Hs IH Hall]; intros x n Hin Hcount; [contradiction|].
  rewrite count_at_least_cons in Hcount.
  assert (Hy : (r_relevance_score x <=? r_relevance_score y)%Z = true).
  { apply Z.leb_le. destruct Hin as [->|Hin]; [lia|].
    rewrite Forall_forall in Hall. exact (Hall x Hin). }
  rewrite Hy in Hcount.
  destruct n as [|n]; [lia|]. simpl.
  destruct Hin as [->|Hin]; [now left|].
  right. apply IH; [exact Hin|lia].
Qed.

(** Stability, for the entry that comes last before sorting: it ends up
    behind every entry that scores at least as much, and before the rest. *)
Lemma insert_desc_before a x A B :
  (r_relevance_score x <= r_relevance_score a)%Z ->
  exists A',
    insert_desc a (A ++ x :: B) = (A' ++ x :: B)%list /\
    length A' = S (length A) /\
    forall y, In y A' -> y = a \/ In y A.
Proof.
  intros Hax. induction A as [|y A IH]; simpl.
  - rewrite (proj2 (Z.leb_le _ _) Hax).
    exists [a]. simpl. intuition.
  - destruct (r_relevance_score y <=? r_relevance_score a)%Z.
    + exists (a :: y :: A). simpl. intuition.
    + destruct IH as (A' & -> & Hlen & Hin).
      exists (y :: A'). simpl. split; [reflexivity|]. split; [lia|].
      intros z [<-|Hz]; [auto|]. destruct (Hin z Hz); auto.
Qed.

Lemma insert_desc_behind a x A B :
  (r_relevance_score a < r_relevance_score x)%Z ->
  Forall (fun y => (r_relevance_score x <= r_relevance_score y)%Z) A ->
  insert_desc a (A ++ x :: B) = (A ++ x :: insert_desc a B)%list.
Proof.
  intros Hax HA. induction HA as [|y A Hy HA IH]; simpl.
  - destruct (Z.leb_spec (r_relevance_score x) (r_relevance_score a));
      [lia|reflexivity].
  - destruct (Z.leb_spec (r_relevance_score y) (r_relevance_score a));
      [lia|now rewrite IH].
Qed.

Lemma sort_desc_last x l :
  exists A B,
    sort_desc (l ++ [x]) = (A ++ x :: B)%list /\
    Forall (fun y => (r_relevance_score x <= r_relevance_score y)%Z) A /\
    length A = count_at_least (r_relevance_score x) l /\
    forall y, In y A -> In y l.
Proof.
  induction l as [|a l (A & B & Hs & HA & Hlen & Hin)].
  - exists [], []. repeat split; auto.
  - change (sort_desc ((a :: l) ++ [x]))
      with (insert_desc a (sort_desc (l ++ [x]))).
    rewrite Hs, count_at_least_cons.
    destruct (Z.leb_spec (r_relevance_score x) (r_relevance_score a))
      as [Hle|Hlt].
    + destruct (insert_desc_before a x A B Hle) as (A' & -> & Hlen' & Hin').
      exists A', B. split; [reflexivity|]. split; [|split].
      * apply Forall_forall. intros y Hy.
        destruct (Hin' y Hy) as [->|HyA]; [exact Hle|].
        rewrite Forall_forall in HA. exact (HA y HyA).
      * lia.
      * intros y Hy. destruct (Hin' y Hy) as [->|HyA];
          [now left|right; now apply Hin].
    + rewrite (insert_desc_behind a x A B Hlt HA).
      exists A, (insert_desc a B). split; [reflexivity|].
      split; [exact HA|]. split; [lia|].
      intros y Hy. right. now apply Hin.
Qed.

(** The loop that adds up the score is a sum over the query terms. *)
Lemma relevance_sum terms p :
  relevance terms p
  = sum_Z (map (term_score (lower (cp_content p)) (lower (cp_query p))) terms).
Proof.
  unfold relevance.
  assert (G : forall acc,
             fold_left
               (fun score term =>
                  (score + term_score (lower (cp_content p))
                                      (lower (cp_query p)) term)%Z)
               terms acc
             = (acc + sum_Z (map (term_score (lower (cp_content p))
                                             (lower (cp_query p))) terms))%Z).
  { unfold sum_Z.
    induction terms as [|t ts IH]; intros acc; simpl; [lia|].
    rewrite IH. lia. }
  rewrite G. lia.
Qed.

(** Each entry of a result list comes from a context node of the caller
    whose score is positive. *)
Lemma In_relevant_contexts query user_id g r :
  In r (relevant_contexts query user_id g) <->
  exists k i p c,
    In (k, ResearchContext i p c) (nodes g) /\
    cp_user_id p = user_id /\
    (0 < relevance (query_terms query) p)%Z /\
    r = mkRetrieved k (cp_query p) (cp_content p) (cp_sources p)
                    (relevance (query_terms query) p) (cp_timestamp p).
Proof.
  unfold relevant_contexts. rewrite in_flat_map. split.
  - intros [[k n] [Hin Hr]]. unfold candidate in Hr. simpl in Hr.
    destruct n as [i p c|i p c]; [|contradiction].
    destruct (String.eqb_spec (cp_user_id p) user_id) as [Hu|Hu];
      simpl in Hr; [|contradiction].
    destruct (Z.ltb_spec 0 (relevance (query_terms query) p));
      [|contradiction].
    destruct Hr as [<-|[]]. exists k, i, p, c. auto.
  - intros (k & i & p & c & Hin & Hu & Hpos & ->).
    exists (k, ResearchContext i p c). split; [exact Hin|].
    unfold candidate. simpl.
    rewrite (proj2 (String.eqb_eq _ _) Hu). simpl.
    rewrite (proj2 (Z.ltb_lt _ _) Hpos). now left.
Qed.

Lemma In_retrieve_context query user_id max_results g r :
  In r (retrieve_context query user_id max_results g) ->
  In r (relevant_contexts query user_id g).
Proof.
  unfold retrieve_context. intros H.
  apply In_py_slice_to in H. exact (proj1 (In_sort_desc _ _) H).
Qed.
End Retrieval.


(* ===================================================================== *)
(** ** Words and concepts *)
(* ===================================================================== *)

Section Words.
Import PyStr Memory.

Lemma lower_char_idem c : lower_char (lower_char c) = lower_char c.
Proof. destruct c as [[] [] [] [] [] [] [] []]; reflexivity. Qed.

Lemma lower_app a b : lower (a ++ b) = lower a ++ lower b.
Proof. induction a as [|c a IH]; simpl; [reflexivity|now rewrite IH]. Qed.

Lemma lower_is_lower_fixed s : all_chars lower_fixed (lower s) = true.
Proof.
  induction s as [|c s IH]; simpl; [reflexivity|].
  rewrite IH, andb_true_r. unfold lower_fixed.
  rewrite lower_char_idem. apply Ascii.eqb_refl.
Qed.

Lemma all_chars_app P a b :
  all_chars P (a ++ b) = all_chars P a && all_chars P b.
Proof.
  induction a as [|c a IH]; simpl; [reflexivity|].
  now rewrite IH, andb_assoc.
Qed.

(** A trailing blank adds no word. *)
Lemma split_from_trailing_space s :
  forall cur, split_from cur (s ++ " ") = split_from cur s.
Proof.
  induction s as [|c s IH]; intros cur; simpl.
  - apply app_nil_r.
  - destruct (isspace c); now rewrite IH.
Qed.

(** The words of a lower-cased text consist of settled characters. *)
Lemma split_from_settled s :
  forall cur w,
    all_chars lower_fixed s = true ->
    all_chars settled cur = true ->
    In w (split_from cur s) ->
    all_chars settled w = true.
Proof.
  induction s as [|c s IH]; intros cur w Hs Hcur Hin; simpl in *.
  - destruct cur; simpl in Hin; [contradiction|].
    destruct Hin as [<-|[]]. exact Hcur.
  - apply andb_true_iff in Hs. destruct Hs as [Hc Hs].
    destruct (isspace c) eqn:Hsp.
    + apply in_app_or in Hin. destruct Hin as [Hin|Hin].
      * destruct cur; simpl in Hin; [contradiction|].
        destruct Hin as [<-|[]]. exact Hcur.
      * now apply (IH EmptyString w).
    + apply (IH (cur ++ String c EmptyString) w); auto.
      rewrite all_chars_app, Hcur. simpl. unfold settled.
      now rewrite Hsp, Hc.
Qed.

Lemma settled_word w :
  all_chars settled w = true -> lower w = w /\ replace_space w = w.
Proof.
  induction w as [|c w IH]; simpl; [auto|].
  intros H. apply andb_true_iff in H. destruct H as [Hc Hw].
  destruct (IH Hw) as [-> ->].
  unfold settled in Hc. apply andb_true_iff in Hc. destruct Hc as [Hsp Hlf].
  unfold lower_fixed in Hlf. apply Ascii.eqb_eq in Hlf. rewrite Hlf.
  split; [reflexivity|].
  destruct (Ascii.eqb_spec c " "%char) as [->|_]; [discriminate|reflexivity].
Qed.

(** What [_extract_concepts] returns: distinct words of the lower-cased
    text that pass the filter, at most ten. *)
Lemma extract_concepts_spec so query content :
  NoDup (_extract_concepts so query content) /\
  (length (_extract_concepts so query content) <= 10)%nat /\
  forall c, In c (_extract_concepts so query content) ->
            In c (split (lower (query ++ " " ++ content))) /\
            keep_word c = true.
Proof.
  unfold _extract_concepts. repeat split.
  - set (l := list_of_set so _).
    rewrite <- (firstn_skipn 10 l) in *.
    pose proof (list_of_set_NoDup so
                  (filter keep_word (split (lower (query ++ " " ++ content)))))
      as N.
    fold l in N. rewrite <- (firstn_skipn 10 l) in N.
    apply NoDup_app_remove_r in N. rewrite firstn_skipn. exact N.
  - apply firstn_le_length.
  - apply In_firstn_In in H. apply list_of_set_In in H.
    now apply filter_In in H.
  - apply In_firstn_In in H. apply list_of_set_In in H.
    now apply filter_In in H.
Qed.

(** A concept is stored under "concept_" followed by the concept itself. *)
Lemma concept_id_of_concept so query content c :
  In c (_extract_concepts so query content) ->
  concept_id_of c = "concept_" ++ c.
Proof.
  intros H. apply extract_concepts_spec in H. destruct H as [H _].
  unfold concept_id_of.
  assert (S : all_chars settled c = true).
  { apply (split_from_settled (lower (query ++ " " ++ content)) EmptyString c);
      [apply lower_is_lower_fixed|reflexivity|exact H]. }
  destruct (settled_word c S) as [-> ->]. reflexivity.
Qed.

(** C5 fails as stated: for the query "the cat" [retrieve_context] scores
    with the tokens "the" and "cat", while concept extraction keeps no token
    of it; a context stored for "the cat" is therefore retrieved with score
    4, where the tokens of concept extraction would give it score 0 and
    leave it out. *)
Lemma C5_counterexample :
  query_terms "the cat" = ["the"; "cat"] /\
  _extract_concepts first_seen "the cat" "" = [] /\
  query_terms "the cat" <> _extract_concepts first_seen "the cat" "" /\
  map r_relevance_score (retrieve_context "the cat" "u1" 5 Sample.graph_cat)
    = [4%Z] /\
  flat_map (candidate (_extract_concepts first_seen "the cat" "") "u1")
           (nodes Sample.graph_cat) = [].
Proof.
  split; [reflexivity|]. split; [reflexivity|]. split; [discriminate|].
  split; reflexivity.
Qed.

(** C5, amended: [retrieve_context] tokenizes its query by lower-casing and
    splitting on whitespace, and nothing more: the score of every entry it
    returns is the sum, over all these tokens with their repetitions, of 1
    if the token occurs in the entry's lower-cased content plus 2 if it
    occurs in the entry's lower-cased stored query, and is positive.
    Concept extraction of [store_context] is a filter of the same tokens:
    applied to the query alone it yields distinct tokens of the query, each
    longer than 3 characters and no stop word, at most 10 of them. *)
Theorem C5_retrieve_tokens :
  (forall query user_id max_results g r,
      In r (retrieve_context query user_id max_results g) ->
      r_relevance_score r
      = sum_Z (map (fun term =>
                      ((if contains term (lower (r_content r)) then 1 else 0)
                       + (if contains term (lower (r_query r)) then 2 else 0))%Z)
                   (split (lower query))) /\
      (0 < r_relevance_score r)%Z) /\
  (forall so query,
      NoDup (_extract_concepts so query "") /\
      (length (_extract_concepts so query "") <= 10)%nat /\
      forall c, In c (_extract_concepts so query "") ->
                In c (split (lower query)) /\
                (3 < String.length c)%nat /\
                ~ In c stop_words).
Proof.
  split.
  - intros query user_id max_results g r Hin.
    apply In_retrieve_context, In_relevant_contexts in Hin.
    destruct Hin as (k & i & p & c & _ & _ & Hpos & ->). simpl.
    split; [|exact Hpos]. apply relevance_sum.
  - intros so query.
    destruct (extract_concepts_spec so query "") as (N & L & Hc).
    split; [exact N|]. split; [exact L|].
    intros c Hin. destruct (Hc c Hin) as [Hw Hk].
    split; [|split].
    + unfold split in Hw. rewrite lower_app in Hw.
      change (lower (" " ++ "")) with " " in Hw.
      now rewrite split_from_trailing_space in Hw.
    + unfold keep_word in Hk. apply andb_true_iff in Hk.
      now apply Nat.ltb_lt.
    + unfold keep_word in Hk. apply andb_true_iff in Hk.
      destruct Hk as [_ Hk]. apply negb_true_iff in Hk.
      intros Hs.
      assert (T : existsb (String.eqb c) stop_words = true)
        by (apply existsb_exists; exists c;
            split; [exact Hs|apply String.eqb_refl]).
      congruence.
Qed.
End Words.


(* ===================================================================== *)
(** ** Storing a context *)
(* ===================================================================== *)

Section Store.
Import PyStr Memory.

Lemma In_dict_set {V} k (v : V) d : In (k, v) (dict_set k v d).
Proof.
  induction d as [|[k0 v0] d IH]; simpl; [now left|].
  destruct (String.eqb_spec k k0) as [->|_]; [now left|now right].
Qed.

Lemma graph_ok_empty : graph_ok empty_graph.
Proof. intros k i p c H. discriminate. Qed.

(** Under a concept key a reachable graph holds a concept node or nothing. *)
Lemma concept_slot ns c :
  graph_ok (mkGraph ns []) ->
  dict_get ("concept_" ++ c) ns = None \/
  exists i p t, dict_get ("concept_" ++ c) ns = Some (Concept i p t).
Proof.
  intros Hok. destruct (dict_get ("concept_" ++ c) ns) as [[i p t|i p t]|] eqn:E.
  - specialize (Hok _ _ _ _ E). discriminate.
  - right. eauto.
  - now left.
Qed.

(** Writing a concept node into a concept slot changes no candidate. *)
Lemma candidates_dict_set_concept terms u k i p t ns :
  (dict_get k ns = None \/ exists i' p' t', dict_get k ns = Some (Concept i' p' t')) ->
  flat_map (candidate terms u) (dict_set k (Concept i p t) ns)
  = flat_map (candidate terms u) ns.
Proof.
  induction ns as [|[k0 n0] ns IH]; simpl; intros H.
  - reflexivity.
  - destruct (String.eqb_spec k k0) as [->|Hk]; simpl.
    + destruct H as [H|(i' & p' & t' & H)]; [discriminate|].
      inversion H; subst n0. reflexivity.
    + now rewrite IH.
Qed.

Lemma graph_ok_dict_set_concept ns es es' k i p t :
  graph_ok (mkGraph ns es) ->
  graph_ok (mkGraph (dict_set k (Concept i p t) ns) es').
Proof.
  intros Hok k' i' p' t' H. simpl in H.
  destruct (string_dec k k') as [<-|Hk].
  - rewrite dict_get_set_same in H. discriminate.
  - rewrite dict_get_set_other in H by exact Hk. exact (Hok _ _ _ _ H).
Qed.

(** One round of the concept loop on a reachable graph: it does not raise,
    keeps the graph reachable and the candidates unchanged, and adds one to
    the frequency of the concept (1 for a new concept). *)
Lemma touch_concept_ok now c ns :
  graph_ok (mkGraph ns []) ->
  concept_id_of c = "concept_" ++ c ->
  exists ns',
    touch_concept now c ns = Ok ns' /\
    (forall es, graph_ok (mkGraph ns' es)) /\
    (forall terms u,
        flat_map (candidate terms u) ns' = flat_map (candidate terms u) ns) /\
    (forall c0 es es',
        frequency_of ("concept_" ++ c0) (mkGraph ns' es')
        = if string_dec c c0
          then Some (frequency_or_zero ("concept_" ++ c0) (mkGraph ns es) + 1)%Z
          else frequency_of ("concept_" ++ c0) (mkGraph ns es)).
Proof.
  intros Hok Hid. unfold touch_concept. cbv zeta. rewrite Hid.
  assert (Hne : forall c0, c <> c0 -> "concept_" ++ c <> "concept_" ++ c0).
  { intros c0 Hc H. apply Hc. simpl in H. now inversion H. }
  destruct (concept_slot ns c Hok) as [E|(i & p & t & E)]; rewrite E;
    eexists; (split; [reflexivity|]);
    (split; [intros es; now apply (graph_ok_dict_set_concept ns [])|]);
    (split; [intros terms u; apply candidates_dict_set_concept;
             rewrite E; eauto|]);
    intros c0 es es'; unfold frequency_of, frequency_or_zero, frequency_of;
    cbn [nodes]; destruct (string_dec c c0) as [<-|Hc].
  - rewrite dict_get_set_same, E. reflexivity.
  - rewrite dict_get_set_other by (apply Hne; exact Hc). reflexivity.
  - rewrite dict_get_set_same, E. reflexivity.
  - rewrite dict_get_set_other by (apply Hne; exact Hc). reflexivity.
Qed.

(** The whole concept loop on a reachable graph. *)
Lemma connect_concepts_ok now context_id concepts :
  forall g,
    graph_ok g ->
    (forall c, In c concepts -> concept_id_of c = "concept_" ++ c) ->
    exists g',
      connect_concepts now context_id concepts g = (g', Ok tt) /\
      graph_ok g' /\
      (forall terms u,
          flat_map (candidate terms u) (nodes g')
          = flat_map (candidate terms u) (nodes g)) /\
      (forall c0,
          frequency_of ("concept_" ++ c0) g'
          = if (count_occ string_dec concepts c0 =? 0)%nat
            then frequency_of ("concept_" ++ c0) g
            else Some (frequency_or_zero ("concept_" ++ c0) g
                       + Z.of_nat (count_occ string_dec concepts c0))%Z).
Proof.
  induction concepts as [|c rest IH]; intros g Hok Hids.
  - exists g. simpl. repeat split; auto.
  - destruct g as [ns es].
    destruct (touch_concept_ok now c ns) as (ns' & Ht & Hok' & Hcand & Hfreq).
    { exact Hok. }
    { apply Hids. now left. }
    cbn [connect_concepts nodes edges]. rewrite Ht.
    set (e := mentions_edge now context_id (concept_id_of c)).
    destruct (IH (mkGraph ns' (dict_set (edge_id e) e es)))
      as (g' & Hrun & Hokg & Hcg & Hfg).
    { apply Hok'. }
    { intros c1 H1. apply Hids. now right. }
    exists g'. split; [exact Hrun|]. split; [exact Hokg|]. split.
    + intros terms u. rewrite Hcg. simpl. apply Hcand.
    + intros c0. rewrite Hfg. unfold frequency_or_zero.
      rewrite (Hfreq c0 es (dict_set (edge_id e) e es)).
      cbn [count_occ]. unfold frequency_or_zero.
      destruct (string_dec c c0) as [->|Hc].
      * destruct (count_occ string_dec rest c0) as [|n]; cbn [Nat.eqb or_default].
        -- reflexivity.
        -- f_equal. lia.
      * reflexivity.
Qed.

(** [store_context] on a reachable graph: it returns the id of the new
    context, keeps the graph reachable, leaves as candidates those of the
    graph with the new context node written in, and raises the frequency
    of each concept it extracts by one. *)
Lemma store_context_ok so now query context_data user_id g :
  graph_ok g ->
  let context_id := "context_" ++ clock_timestamp now in
  let concepts :=
    _extract_concepts so query (or_default (cd_content context_data) "") in
  exists g',
    store_context so now query context_data user_id g = (g', Ok context_id) /\
    graph_ok g' /\
    (forall terms u,
        flat_map (candidate terms u) (nodes g')
        = flat_map (candidate terms u)
            (dict_set context_id
               (ResearchContext context_id
                  (mkContextProps query
                     (or_default (cd_content context_data) "")
                     (or_default (cd_sources context_data) (PyList []))
                     user_id (clock_iso now)
                     (or_default (cd_relevance_score context_data)
                                 (PyFloat "0.5")))
                  (clock_iso now))
               (nodes g))) /\
    (forall c0,
        frequency_of ("concept_" ++ c0) g'
        = if In_dec string_dec c0 concepts
          then Some (frequency_or_zero ("concept_" ++ c0) g + 1)%Z
          else frequency_of ("concept_" ++ c0) g).
Proof.
  intros Hok context_id concepts.
  unfold store_context, _create_concept_connections.
  fold context_id. fold concepts.
  set (node := ResearchContext context_id _ _).
  destruct (connect_concepts_ok now context_id concepts
              (mkGraph (dict_set context_id node (nodes g)) (edges g)))
    as (g' & Hrun & Hokg & Hcg & Hfg).
  { intros k i p c H. simpl in H.
    destruct (string_dec context_id k) as [<-|Hk].
    - apply prefix_iff. exists (clock_timestamp now). reflexivity.
    - rewrite dict_get_set_other in H by exact Hk. exact (Hok _ _ _ _ H). }
  { intros c Hc. exact (concept_id_of_concept so query _ c Hc). }
  exists g'. rewrite Hrun. split; [reflexivity|]. split; [exact Hokg|].
  split; [exact Hcg|].
  intros c0. rewrite Hfg.
  assert (Hkey : forall K, frequency_of ("concept_" ++ c0)
                   (mkGraph (dict_set context_id node (nodes g)) K)
                 = frequency_of ("concept_" ++ c0) g).
  { intros K. unfold frequency_of. simpl.
    rewrite dict_get_set_other; [reflexivity|].
    unfold context_id. simpl. discriminate. }
  unfold frequency_or_zero. rewrite Hkey.
  pose proof (proj1 (extract_concepts_spec so query
                       (or_default (cd_content context_data) ""))) as N.
  fold concepts in N.
  destruct (In_dec string_dec c0 concepts) as [Hin|Hnin].
  - rewrite (proj1 (NoDup_count_occ' string_dec concepts) N c0 Hin).
    reflexivity.
  - rewrite (proj1 (count_occ_not_In string_dec concepts c0) Hnin).
    reflexivity.
Qed.

(** Reachability is an invariant of [store_context]. *)
Lemma store_context_graph_ok so now query context_data user_id g :
  graph_ok g ->
  graph_ok (fst (store_context so now query context_data user_id g)).
Proof.
  intros Hok.
  destruct (store_context_ok so now query context_data user_id g Hok)
    as (g' & -> & Hok' & _). exact Hok'.
Qed.
End Store.


(* ===================================================================== *)
(** ** Round trip and concept frequency *)
(* ===================================================================== *)

Section RoundTrip.
Import PyStr Memory.

(** Writing one node into the node dictionary adds at most the new node's
    candidates to those that score at least [s]. *)
Lemma count_candidates_dict_set terms u s k n ns :
  (count_at_least s (flat_map (candidate terms u) (dict_set k n ns))
   <= count_at_least s (candidate terms u (k, n))
      + count_at_least s (flat_map (candidate terms u) ns))%nat.
Proof.
  induction ns as [|[k0 n0] ns IH]; simpl.
  - rewrite app_nil_r. lia.
  - destruct (String.eqb_spec k k0) as [->|Hk]; simpl;
      rewrite !count_at_least_app; lia.
Qed.

(** C8 fails as stated: after "u1" has stored the context five times, a
    sixth [store_context] of it succeeds, yet
    [retrieve_context "neural nets" "u1" 5] returns the five older
    contexts, all with score 6, and not the one just stored. *)
Lemma C8_counterexample :
  graph_ok Sample.graph_five /\
  snd (store_context first_seen Sample.clock6 "neural nets"
                     Sample.vision_data "u1" Sample.graph_five)
    = Ok "context_6.0" /\
  ~ exists r,
      In r (retrieve_context "neural nets" "u1" 5
              (fst (store_context first_seen Sample.clock6 "neural nets"
                                  Sample.vision_data "u1" Sample.graph_five)))
      /\ r_context_id r = "context_6.0".
Proof.
  split; [|split].
  - unfold Sample.graph_five. simpl fold_right. unfold Sample.store_vision.
    repeat apply store_context_graph_ok. apply graph_ok_empty.
  - vm_compute. reflexivity.
  - intros [r [Hin Hid]].
    apply (in_map r_context_id) in Hin. rewrite Hid in Hin.
    vm_compute in Hin.
    repeat (destruct Hin as [Hin|Hin]; [discriminate Hin|]).
    exact Hin.
Qed.

(** C8, amended: on a reachable memory graph,
    [store_context "neural nets" {content: "neural nets for vision"} "u1"]
    returns the id of the new context.  If fewer than five contexts of "u1"
    in the graph score 6 (the highest score there is) for the query
    "neural nets", then [retrieve_context "neural nets" "u1" 5] on the
    resulting graph returns a list that includes the context just stored,
    with relevance score 6.  If five or more do and the new id is fresh, the
    list does not include the context just stored. *)
Theorem C8_round_trip :
  forall so now g,
    graph_ok g ->
    exists g',
      store_context so now "neural nets"
                    (mkContextData (Some "neural nets for vision") None None)
                    "u1" g
        = (g', Ok ("context_" ++ clock_timestamp now)) /\
      ((count_at_least 6 (relevant_contexts "neural nets" "u1" g) < 5)%nat ->
       exists r,
         In r (retrieve_context "neural nets" "u1" 5 g') /\
         r_context_id r = "context_" ++ clock_timestamp now /\
         r_query r = "neural nets" /\
         r_content r = "neural nets for vision" /\
         r_relevance_score r = 6%Z /\
         (0 < r_relevance_score r)%Z) /\
      (dict_get ("context_" ++ clock_timestamp now) (nodes g) = None ->
       (5 <= count_at_least 6 (relevant_contexts "neural nets" "u1" g))%nat ->
       forall r,
         In r (retrieve_context "neural nets" "u1" 5 g') ->
         r_context_id r <> "context_" ++ clock_timestamp now).
Proof.
  intros so now g Hok.
  destruct (store_context_ok so now "neural nets"
              (mkContextData (Some "neural nets for vision") None None)
              "u1" g Hok) as (g' & Hstore & _ & Hcand & _).
  cbn [cd_content cd_sources cd_relevance_score or_default] in Hcand.
  set (cid := "context_" ++ clock_timestamp now) in *.
  set (node := ResearchContext cid
                 (mkContextProps "neural nets" "neural nets for vision"
                    (PyList []) "u1" (clock_iso now) (PyFloat "0.5"))
                 (clock_iso now)) in *.
  set (x := mkRetrieved cid "neural nets" "neural nets for vision" (PyList [])
                        6 (clock_iso now)).
  assert (Hx : candidate (query_terms "neural nets") "u1" (cid, node) = [x])
    by reflexivity.
  exists g'. split; [exact Hstore|].
  unfold retrieve_context.
  change (py_slice_to 5 ?l) with (firstn 5 l).
  unfold relevant_contexts at 2 4. rewrite Hcand. split.
  - (* few rivals: the new context is returned *)
    intros Hfew. exists x. split; [|repeat split].
    apply sorted_prefix.
    + apply sort_desc_sorted.
    + apply In_sort_desc.
      apply in_flat_map. exists (cid, node). split; [apply In_dict_set|].
      rewrite Hx. now left.
    + rewrite count_at_least_sort.
      pose proof (count_candidates_dict_set (query_terms "neural nets") "u1"
                    6 cid node (nodes g)) as B.
      rewrite Hx in B. cbn [r_relevance_score x].
      change (count_at_least 6 [x]) with 1%nat in B.
      unfold relevant_contexts in Hfew. lia.
  - (* five rivals and a fresh id: the new context is cut off *)
    intros Hfresh Hmany r Hin.
    rewrite (dict_set_absent _ cid node (nodes g) Hfresh) in Hin.
    rewrite flat_map_app in Hin.
    change (flat_map (candidate (query_terms "neural nets") "u1")
                     [(cid, node)]) with [x] in Hin.
    destruct (sort_desc_last x
                (flat_map (candidate (query_terms "neural nets") "u1")
                          (nodes g)))
      as (A & B & Hs & _ & Hlen & HA).
    rewrite Hs in Hin. rewrite firstn_app in Hin.
    cbn [r_relevance_score x] in Hlen. unfold relevant_contexts in Hmany.
    replace (5 - length A)%nat with 0%nat in Hin by lia.
    rewrite firstn_0, app_nil_r in Hin.
    apply In_firstn_In, HA in Hin.
    apply (In_relevant_contexts "neural nets" "u1" g r) in Hin.
    destruct Hin as (k & i & p & c & Hk & _ & _ & ->). simpl.
    intros ->. exact (dict_get_None_In _ cid (nodes g) Hfresh _ Hk).
Qed.

Lemma C8_round_trip_witness :
  exists r,
    In r (retrieve_context "neural nets" "u1" 5
            (fst (store_context first_seen Sample.clock0 "neural nets"
                    (mkContextData (Some "neural nets for vision") None None)
                    "u1" empty_graph))) /\
    r_relevance_score r = 6%Z.
Proof.
  destruct (C8_round_trip first_seen Sample.clock0 empty_graph graph_ok_empty)
    as (g' & Hstore & Hfew & _).
  destruct Hfew as (r & Hin & _ & _ & _ & Hscore & _).
  - vm_compute. lia.
  - exists r. rewrite Hstore. split; [exact Hin|exact Hscore].
Defined.

(** C9: concept frequency is global.  On a reachable graph without a node
    "concept_experiment", let two [store_context] calls by different owners
    both extract the concept "experiment".  Both calls succeed; after the
    first the node "concept_experiment" is a concept node with frequency 1,
    and after the second it is a concept node with frequency exactly 2. *)
Theorem C9_concept_frequency_global :
  forall so now1 now2 query1 data1 owner1 query2 data2 owner2 g,
    graph_ok g ->
    dict_get "concept_experiment" (nodes g) = None ->
    owner1 <> owner2 ->
    In "experiment"
       (_extract_concepts so query1 (or_default (cd_content data1) "")) ->
    In "experiment"
       (_extract_concepts so query2 (or_default (cd_content data2) "")) ->
    exists g1 id1 g2 id2,
      store_context so now1 query1 data1 owner1 g = (g1, Ok id1) /\
      store_context so now2 query2 data2 owner2 g1 = (g2, Ok id2) /\
      (exists i p c,
          dict_get "concept_experiment" (nodes g1) = Some (Concept i p c) /\
          cc_frequency p = 1%Z) /\
      (exists i p c,
          dict_get "concept_experiment" (nodes g2) = Some (Concept i p c) /\
          cc_frequency p = 2%Z).
Proof.
  intros so now1 now2 query1 data1 owner1 query2 data2 owner2 g
         Hok Hnone _ Hin1 Hin2.
  destruct (store_context_ok so now1 query1 data1 owner1 g Hok)
    as (g1 & Hs1 & Hok1 & _ & Hf1).
  destruct (store_context_ok so now2 query2 data2 owner2 g1 Hok1)
    as (g2 & Hs2 & _ & _ & Hf2).
  specialize (Hf1 "experiment"). specialize (Hf2 "experiment").
  cbv zeta in Hf1, Hf2.
  destruct (In_dec string_dec "experiment" _) as [_|N] in Hf1;
    [|contradiction].
  destruct (In_dec string_dec "experiment" _) as [_|N] in Hf2;
    [|contradiction].
  change ("concept_" ++ "experiment") with "concept_experiment" in Hf1, Hf2.
  assert (F0 : frequency_or_zero "concept_experiment" g = 0%Z).
  { unfold frequency_or_zero, frequency_of. now rewrite Hnone. }
  rewrite F0 in Hf1.
  assert (F1 : frequency_or_zero "concept_experiment" g1 = 1%Z).
  { unfold frequency_or_zero. now rewrite Hf1. }
  rewrite F1 in Hf2.
  exists g1, ("context_" ++ clock_timestamp now1),
         g2, ("context_" ++ clock_timestamp now2).
  split; [exact Hs1|]. split; [exact Hs2|].
  unfold frequency_of in Hf1, Hf2. split.
  - destruct (dict_get "concept_experiment" (nodes g1)) as [[i p c|i p c]|];
      try discriminate.
    exists i, p, c. split; [reflexivity|]. now inversion Hf1.
  - destruct (dict_get "concept_experiment" (nodes g2)) as [[i p c|i p c]|];
      try discriminate.
    exists i, p, c. split; [reflexivity|]. now inversion Hf2.
Qed.

Lemma C9_concept_frequency_global_witness :
  frequency_of "concept_experiment"
    (fst (store_context first_seen Sample.clock6 "repeat the experiment"
            (mkContextData None None None) "bob"
            (fst (store_context first_seen Sample.clock0 "experiment design"
                    (mkContextData (Some "an experiment on mice") None None)
                    "alice" empty_graph))))
  = Some 2%Z.
Proof.
  destruct (C9_concept_frequency_global
              first_seen Sample.clock0 Sample.clock6
              "experiment design"
              (mkContextData (Some "an experiment on mice") None None) "alice"
              "repeat the experiment" (mkContextData None None None) "bob"
              empty_graph graph_ok_empty eq_refl)
    as (g1 & id1 & g2 & id2 & H1 & H2 & _ & (i & p & c & Hget & Hfreq)).
  - discriminate.
  - vm_compute. auto.
  - vm_compute. auto.
  - rewrite H1. cbn [fst]. rewrite H2. cbn [fst].
    unfold frequency_of. rewrite Hget, Hfreq. reflexivity.
Defined.
End RoundTrip.


(* ===================================================================== *)
(** ** More about dictionaries *)
(* ===================================================================== *)

Section DictKeys.
Context {V : Type}.
Implicit Types (d : dict V) (k : string) (v : V).

Lemma dict_get_None_keys k d :
  dict_get k d = None <-> ~ In k (dict_keys d).
Proof.
  induction d as [|[k0 v0] d IH]; simpl; [tauto|].
  destruct (String.eqb_spec k k0) as [->|Hk].
  - split; [discriminate|tauto].
  - rewrite IH. split; [intros H [E|Hin]; [congruence|tauto]|tauto].
Qed.

Lemma dict_get_Some_keys k d :
  In k (dict_keys d) <-> exists v, dict_get k d = Some v.
Proof.
  destruct (dict_get k d) as [v|] eqn:E.
  - split; [eauto|]. intros _.
    destruct (in_dec string_dec k (dict_keys d)) as [H|H]; [exact H|].
    apply dict_get_None_keys in H. congruence.
  - split; [|intros [v Hv]; discriminate].
    intros H. apply dict_get_None_keys in E. contradiction.
Qed.

(** Assignment keeps the keys of a present key and appends a new key. *)
Lemma dict_keys_set k v d :
  dict_keys (dict_set k v d)
  = if in_dec string_dec k (dict_keys d) then dict_keys d
    else (dict_keys d ++ [k])%list.
Proof.
  induction d as [|[k0 v0] d IH]; simpl; [reflexivity|].
  destruct (String.eqb_spec k k0) as [E|Hk]; simpl.
  - subst k0. destruct (string_dec k k); [reflexivity|congruence].
  - rewrite IH. destruct (string_dec k0 k) as [E|Hk0]; [congruence|].
    destruct (in_dec string_dec k (dict_keys d)); reflexivity.
Qed.

Lemma dict_keys_set_NoDup k v d :
  NoDup (dict_keys d) -> NoDup (dict_keys (dict_set k v d)).
Proof.
  intros N. rewrite dict_keys_set.
  destruct (in_dec string_dec k (dict_keys d)) as [H|H]; [exact N|].
  apply NoDup_app; [exact N|repeat constructor; tauto|].
  intros x Hx [E|[]]. subst x. contradiction.
Qed.

Lemma dict_get_del_other k k' d :
  k <> k' -> dict_get k' (dict_del k d) = dict_get k' d.
Proof.
  intros Hne. induction d as [|[k0 v0] d IH]; simpl; [reflexivity|].
  destruct (String.eqb_spec k k0) as [->|Hk]; simpl.
  - destruct (String.eqb_spec k' k0); [congruence|reflexivity].
  - destruct (String.eqb_spec k' k0); [reflexivity|exact IH].
Qed.

Lemma dict_keys_del_In k k' d :
  In k' (dict_keys (dict_del k d)) -> In k' (dict_keys d).
Proof.
  induction d as [|[k0 v0] d IH]; simpl; [tauto|].
  destruct (String.eqb_spec k k0) as [->|Hk]; simpl; tauto.
Qed.

Lemma dict_keys_del_NoDup k d :
  NoDup (dict_keys d) -> NoDup (dict_keys (dict_del k d)).
Proof.
  induction d as [|[k0 v0] d IH]; simpl; intros N; [exact N|].
  inversion N as [|? ? Hnin N']; subst.
  destruct (String.eqb_spec k k0) as [->|Hk]; simpl; [exact N'|].
  constructor; [|now apply IH].
  intros H. apply Hnin. exact (dict_keys_del_In _ _ _ H).
Qed.

(** Where keys are distinct, a deleted key is gone. *)
Lemma dict_get_del_same k d :
  NoDup (dict_keys d) -> dict_get k (dict_del k d) = None.
Proof.
  induction d as [|[k0 v0] d IH]; simpl; intros N; [reflexivity|].
  inversion N as [|? ? Hnin N']; subst.
  destruct (String.eqb_spec k k0) as [->|Hk]; simpl.
  - now apply dict_get_None_keys.
  - destruct (String.eqb_spec k k0); [contradiction|now apply IH].
Qed.
End DictKeys.

(** Dictionaries with the same keys keep the same keys under the same
    assignment and the same deletion. *)
Lemma dict_keys_set_parallel {V W} k (v : V) (w : W) (d : dict V) (e : dict W) :
  dict_keys d = dict_keys e ->
  dict_keys (dict_set k v d) = dict_keys (dict_set k w e).
Proof. intros H. now rewrite !dict_keys_set, H. Qed.

Lemma dict_keys_del_parallel {V W} k (d : dict V) (e : dict W) :
  dict_keys d = dict_keys e ->
  dict_keys (dict_del k d) = dict_keys (dict_del k e).
Proof.
  revert e. induction d as [|[k0 v0] d IH]; intros [|[k1 w1] e] H;
    simpl in *; try discriminate; [reflexivity|].
  inversion H; subst.
  destruct (String.eqb_spec k k1); simpl; [assumption|].
  f_equal. now apply IH.
Qed.


(* ===================================================================== *)
(** ** The plugin registry *)
(* ===================================================================== *)

Section RegistryFacts.
Import Workflow PluginRegistry.

(** X1: [register_tool] then [get_tool]: the tool and its metadata ([{}] when
    none is given) are found under the tool's name, whatever was registered
    there before (the last registration wins); every other name keeps its
    tool and its metadata; the learning models are not touched; and the
    name keeps its place in [list_tools] if it was registered, or else goes
    to the end. *)
Theorem register_tool_lookup :
  forall tool metadata r,
    let r' := register_tool tool metadata r in
    PluginRegistry.get_tool (tool_name tool) r' = Some tool /\
    get_tool_metadata (tool_name tool) r' = Some (metadata_or_empty metadata) /\
    (forall name, name <> tool_name tool ->
                  PluginRegistry.get_tool name r' = PluginRegistry.get_tool name r /\
                  get_tool_metadata name r' = get_tool_metadata name r) /\
    list_tools r'
    = (if in_dec string_dec (tool_name tool) (list_tools r) then list_tools r
       else (list_tools r ++ [tool_name tool])%list) /\
    _learning_models r' = _learning_models r /\
    _model_metadata r' = _model_metadata r.
Proof.
  intros tool metadata r r'. subst r'.
  unfold PluginRegistry.get_tool, get_tool_metadata, list_tools, register_tool.
  cbn [_tools _tool_metadata _learning_models _model_metadata].
  repeat split.
  - apply dict_get_set_same.
  - apply dict_get_set_same.
  - apply dict_get_set_other. congruence.
  - apply dict_get_set_other. congruence.
  - apply dict_keys_set.
Qed.

Lemma registry_ok_empty : registry_ok empty_registry.
Proof.
  unfold registry_ok. simpl.
  repeat split; try constructor; intros; discriminate.
Qed.

Lemma named_after_set {V} (name_of : V -> string) (x : V) (d : dict V) :
  (forall k t, dict_get k d = Some t -> name_of t = k) ->
  forall k t, dict_get k (dict_set (name_of x) x d) = Some t -> name_of t = k.
Proof.
  intros H k t Hget. destruct (string_dec (name_of x) k) as [<-|Hk].
  - rewrite dict_get_set_same in Hget. now inversion Hget.
  - rewrite dict_get_set_other in Hget by exact Hk. exact (H k t Hget).
Qed.

Lemma named_after_del {V} (name_of : V -> string) (n : string) (d : dict V) :
  NoDup (dict_keys d) ->
  (forall k t, dict_get k d = Some t -> name_of t = k) ->
  forall k t, dict_get k (dict_del n d) = Some t -> name_of t = k.
Proof.
  intros N H k t Hget. destruct (string_dec n k) as [<-|Hk].
  - rewrite dict_get_del_same in Hget by exact N. discriminate.
  - rewrite dict_get_del_other in Hget by exact Hk. exact (H k t Hget).
Qed.

(** In a registry built by its own operations the metadata of a registered
    tool is there. *)
Lemma registered_has_metadata r name t :
  registry_ok r ->
  dict_get name (_tools r) = Some t ->
  exists m, dict_get name (_tool_metadata r) = Some m.
Proof.
  intros (_ & _ & Hk & _) Hget.
  apply dict_get_Some_keys. rewrite Hk. apply dict_get_Some_keys. eauto.
Qed.

Lemma registered_model_has_metadata r name t :
  registry_ok r ->
  dict_get name (_learning_models r) = Some t ->
  exists m, dict_get name (_model_metadata r) = Some m.
Proof.
  intros (_ & _ & _ & Hk & _) Hget.
  apply dict_get_Some_keys. rewrite Hk. apply dict_get_Some_keys. eauto.
Qed.

Lemma registry_ok_register r tool metadata :
  registry_ok r -> registry_ok (register_tool tool metadata r).
Proof.
  intros (Nt & Nm & Kt & Km & Ht & Hm).
  unfold registry_ok, register_tool. simpl.
  repeat split; auto.
  - now apply dict_keys_set_NoDup.
  - now apply dict_keys_set_parallel.
  - now apply named_after_set.
Qed.

(** X2: the registry's invariant.  In the empty registry, and after any
    [register_tool], [register_learning_model], [unregister_tool],
    [unregister_model] or [clear_all] on a registry that has it: the names
    in [list_tools] and in [list_learning_models] are distinct, every plugin
    sits under its own name, and the metadata dictionaries have exactly the
    keys of the plugin dictionaries. *)
Theorem registry_ok_invariant :
  registry_ok empty_registry /\
  forall r,
    registry_ok r ->
    (forall tool metadata, registry_ok (register_tool tool metadata r)) /\
    (forall model metadata,
        registry_ok (register_learning_model model metadata r)) /\
    (forall name, registry_ok (fst (unregister_tool name r))) /\
    (forall name, registry_ok (fst (unregister_model name r))) /\
    registry_ok (clear_all r).
Proof.
  split; [exact registry_ok_empty|].
  intros r Hok. pose proof Hok as (Nt & Nm & Kt & Km & Ht & Hm).
  split; [|split; [|split; [|split]]].
  - intros tool metadata. now apply registry_ok_register.
  - intros model metadata. unfold registry_ok, register_learning_model. simpl.
    repeat split; auto.
    + now apply dict_keys_set_NoDup.
    + now apply dict_keys_set_parallel.
    + now apply named_after_set.
  - intros name. unfold unregister_tool.
    destruct (dict_get name (_tools r)) as [t|] eqn:E; [|exact Hok].
    destruct (registered_has_metadata r name t Hok E) as [m ->].
    unfold registry_ok. simpl. repeat split; auto.
    + now apply dict_keys_del_NoDup.
    + now apply dict_keys_del_parallel.
    + now apply named_after_del.
  - intros name. unfold unregister_model.
    destruct (dict_get name (_learning_models r)) as [t|] eqn:E; [|exact Hok].
    destruct (registered_model_has_metadata r name t Hok E) as [m ->].
    unfold registry_ok. simpl. repeat split; auto.
    + now apply dict_keys_del_NoDup.
    + now apply dict_keys_del_parallel.
    + now apply named_after_del.
  - exact registry_ok_empty.
Qed.

Lemma registry_ok_invariant_witness :
  registry_ok
    (fst (unregister_tool "web_search"
            (register_tool
               (mkToolPlugin "web_search" "Search the web for information"
                             "1.0.0" 30 Sample.broken_search)
               None empty_registry))).
Proof.
  destruct registry_ok_invariant as [H0 H].
  destruct (H empty_registry H0) as (Hreg & _).
  destruct (H _ (Hreg (mkToolPlugin "web_search"
                         "Search the web for information" "1.0.0" 30
                         Sample.broken_search) None)) as (_ & _ & Hun & _).
  exact (Hun "web_search").
Defined.

(** X3: [unregister_tool] on a registry built by its own operations never
    raises.  It returns [True] exactly when the name was registered;
    afterwards the name has no tool and no metadata and is not in
    [list_tools]; every other name keeps its tool and its metadata. *)
Theorem unregister_tool_removes :
  forall r name,
    registry_ok r ->
    exists r',
      unregister_tool name r
      = (r', Ok (if in_dec string_dec name (list_tools r) then true else false))
      /\ PluginRegistry.get_tool name r' = None
      /\ get_tool_metadata name r' = None
      /\ ~ In name (list_tools r')
      /\ forall other,
          other <> name ->
          PluginRegistry.get_tool other r' = PluginRegistry.get_tool other r /\
          get_tool_metadata other r' = get_tool_metadata other r.
Proof.
  intros r name Hok. pose proof Hok as (Nt & Nm & Kt & Km & Ht & Hm).
  assert (Nmeta : NoDup (dict_keys (_tool_metadata r))) by now rewrite Kt.
  unfold unregister_tool, PluginRegistry.get_tool, get_tool_metadata, list_tools.
  destruct (dict_get name (_tools r)) as [t|] eqn:E.
  - destruct (registered_has_metadata r name t Hok E) as [m Em]. rewrite Em.
    exists (mkRegistry (dict_del name (_tools r)) (_learning_models r)
                       (dict_del name (_tool_metadata r)) (_model_metadata r)).
    cbn [_tools _tool_metadata].
    split; [|split; [|split; [|split; [|intros other Hother; split]]]].
    + destruct (in_dec string_dec name (dict_keys (_tools r))) as [_|Hn];
        [reflexivity|].
      exfalso. apply Hn. apply dict_get_Some_keys. eauto.
    + now apply dict_get_del_same.
    + now apply dict_get_del_same.
    + apply dict_get_None_keys. now apply dict_get_del_same.
    + apply dict_get_del_other. congruence.
    + apply dict_get_del_other. congruence.
  - exists r.
    split; [|split; [|split; [|split; [|intros other Hother; split]]]].
    + destruct (in_dec string_dec name (dict_keys (_tools r))) as [Hin|_];
        [|reflexivity].
      apply dict_get_Some_keys in Hin. destruct Hin as [v Hv]. congruence.
    + exact E.
    + apply dict_get_None_keys. rewrite Kt. now apply dict_get_None_keys.
    + now apply dict_get_None_keys.
    + reflexivity.
    + reflexivity.
Qed.

Lemma unregister_tool_removes_witness :
  exists r',
    unregister_tool "web_search"
      (register_tool
         (mkToolPlugin "document_ingestion" "Ingest and process documents"
                       "1.0.0" 60 Sample.working_tool)
         None
         (register_tool
            (mkToolPlugin "web_search" "Search the web for information"
                          "1.0.0" 30 Sample.broken_search)
            None empty_registry))
    = (r', Ok true) /\
    PluginRegistry.get_tool "web_search" r' = None /\
    get_tool_metadata "web_search" r' = None /\
    ~ In "web_search" (list_tools r') /\
    PluginRegistry.get_tool "document_ingestion" r'
    = Some (mkToolPlugin "document_ingestion" "Ingest and process documents"
                         "1.0.0" 60 Sample.working_tool).
Proof.
  destruct (unregister_tool_removes
              (register_tool
                 (mkToolPlugin "document_ingestion"
                               "Ingest and process documents"
                               "1.0.0" 60 Sample.working_tool)
                 None
                 (register_tool
                    (mkToolPlugin "web_search"
                                  "Search the web for information"
                                  "1.0.0" 30 Sample.broken_search)
                    None empty_registry))
              "web_search"
              (registry_ok_register _ _ _
                 (registry_ok_register _ _ _ registry_ok_empty)))
    as (r' & Hun & Hget & Hmeta & Hlist & Hother).
  exists r'. split; [exact Hun|]. split; [exact Hget|].
  split; [exact Hmeta|]. split; [exact Hlist|].
  destruct (Hother "document_ingestion" ltac:(discriminate)) as [-> _].
  reflexivity.
Defined.

Lemma engine_view_get_tool name r :
  Workflow.get_tool name (engine_view r)
  = option_map tool_execute (PluginRegistry.get_tool name r).
Proof.
  unfold Workflow.get_tool, PluginRegistry.get_tool, engine_view.
  induction (_tools r) as [|[k t] d IH]; simpl; [reflexivity|].
  destruct (String.eqb name k); [reflexivity|exact IH].
Qed.

(** X4: [ResearchService.get_available_tools] on a registry built by its own
    operations lists every registered tool once, in the order of
    [list_tools], each with the description, version and timeout of the
    tool registered under that name. *)
Theorem get_available_tools_lists_registry :
  forall r,
    registry_ok r ->
    map info_name (get_available_tools r) = list_tools r /\
    length (get_available_tools r) = stat_total_tools (get_registry_stats r) /\
    forall info,
      In info (get_available_tools r) ->
      exists tool,
        PluginRegistry.get_tool (info_name info) r = Some tool /\
        info = mkToolInfo (tool_name tool) (tool_description tool)
                          (tool_version tool) (tool_timeout_seconds tool).
Proof.
  intros r (_ & _ & _ & _ & Ht & _).
  assert (G : forall names,
             (forall n, In n names -> In n (list_tools r)) ->
             map info_name
                 (flat_map (fun tool_name =>
                    match PluginRegistry.get_tool tool_name r with
                    | Some tool =>
                        [mkToolInfo (PluginRegistry.tool_name tool)
                                    (tool_description tool) (tool_version tool)
                                    (tool_timeout_seconds tool)]
                    | None => []
                    end) names) = names).
  { induction names as [|n names IH]; intros Hin; simpl; [reflexivity|].
    assert (Hn : In n (list_tools r)) by (apply Hin; now left).
    apply dict_get_Some_keys in Hn. destruct Hn as [t Hn].
    unfold PluginRegistry.get_tool at 1. rewrite Hn. simpl.
    rewrite (Ht n t Hn). f_equal. apply IH. intros m Hm. apply Hin. now right. }
  assert (Hnames : map info_name (get_available_tools r) = list_tools r)
    by (apply G; auto).
  split; [exact Hnames|]. split.
  - rewrite <- (length_map info_name), Hnames.
    unfold list_tools, dict_keys. simpl. now rewrite length_map.
  - intros info Hin. unfold get_available_tools in Hin.
    apply in_flat_map in Hin. destruct Hin as (n & Hn & Hinfo).
    destruct (PluginRegistry.get_tool n r) as [t|] eqn:E; [|contradiction].
    destruct Hinfo as [<-|[]]. exists t. simpl.
    unfold PluginRegistry.get_tool in E. rewrite (Ht n t E).
    split; [exact E|reflexivity].
Qed.

Lemma get_available_tools_lists_registry_witness :
  map info_name
      (get_available_tools
         (register_tool
            (mkToolPlugin "web_search" "Search the web for information"
                          "1.0.0" 30 Sample.broken_search)
            None empty_registry))
  = ["web_search"].
Proof.
  destruct (get_available_tools_lists_registry _
              (registry_ok_register empty_registry
                 (mkToolPlugin "web_search"
                    "Search the web for information" "1.0.0" 30
                    Sample.broken_search) None registry_ok_empty))
    as [Hn _].
  rewrite Hn. reflexivity.
Defined.
End RegistryFacts.


(* ===================================================================== *)
(** ** What [retrieve_context] returns *)
(* ===================================================================== *)

Section RetrievalMore.
Import PyStr Memory.

Lemma length_insert_desc x l : length (insert_desc x l) = S (length l).
Proof.
  induction l as [|y ys IH]; simpl; [reflexivity|].
  destruct (r_relevance_score y <=? r_relevance_score x)%Z; simpl; auto.
Qed.

Lemma length_sort_desc l : length (sort_desc l) = length l.
Proof.
  induction l as [|a l IH]; simpl; [reflexivity|].
  now rewrite length_insert_desc, IH.
Qed.

Lemma StronglySorted_firstn {A} (R : A -> A -> Prop) n l :
  StronglySorted R l -> StronglySorted R (firstn n l).
Proof.
  intros H. revert n. induction H as [|a l Hs IH Hall]; intros [|n]; simpl;
    try constructor.
  - apply IH.
  - rewrite Forall_forall in Hall |- *. intros x Hx.
    apply Hall. exact (In_firstn_In _ _ _ Hx).
Qed.

Lemma isspace_lower_char c : isspace c = true -> lower_char c = c.
Proof. destruct c as [[] [] [] [] [] [] [] []]; try reflexivity; discriminate. Qed.

Lemma split_from_blank s :
  all_chars isspace s = true -> split_from EmptyString (lower s) = [].
Proof.
  induction s as [|c s IH]; simpl; [reflexivity|].
  intros H. apply andb_true_iff in H. destruct H as [Hc Hs].
  rewrite (isspace_lower_char c Hc), Hc. simpl. now apply IH.
Qed.

Lemma no_terms_no_candidates user_id ns :
  flat_map (candidate [] user_id) ns = [].
Proof.
  induction ns as [|[k n] ns IH]; simpl; [reflexivity|].
  rewrite IH, app_nil_r. unfold candidate. simpl.
  destruct n as [i p c|i p c]; [|reflexivity].
  destruct (negb (String.eqb (cp_user_id p) user_id)); reflexivity.
Qed.

(** X5: [retrieve_context] never hands out another user's context: every
    entry it returns is built from a context node of the graph whose owner
    is the caller, carries that node's key, query, content, sources and
    timestamp, and has a positive score. *)
Theorem retrieve_context_own_contexts :
  forall query user_id max_results g r,
    In r (retrieve_context query user_id max_results g) ->
    exists i p c,
      In (r_context_id r, ResearchContext i p c) (nodes g) /\
      cp_user_id p = user_id /\
      r_query r = cp_query p /\
      r_content r = cp_content p /\
      r_sources r = cp_sources p /\
      r_timestamp r = cp_timestamp p /\
      r_relevance_score r = relevance (query_terms query) p /\
      (0 < r_relevance_score r)%Z.
Proof.
  intros query user_id max_results g r Hin.
  apply In_retrieve_context, In_relevant_contexts in Hin.
  destruct Hin as (k & i & p & c & Hk & Hu & Hpos & ->).
  exists i, p, c. simpl. repeat split; assumption.
Qed.

Lemma retrieve_context_own_contexts_witness :
  exists i p c,
    In ("context_1700000000.0", ResearchContext i p c)
       (nodes Sample.graph_cat) /\
    cp_user_id p = "u1".
Proof.
  destruct (retrieve_context_own_contexts "the cat" "u1" 5 Sample.graph_cat
              (mkRetrieved "context_1700000000.0" "the cat" "" (PyList []) 4
                           "2023-11-14T22:13:20"))
    as (i & p & c & Hin & Hu & _).
  - vm_compute. now left.
  - exists i, p, c. split; [exact Hin|exact Hu].
Defined.

(** X6: the size and the order of the result.  The entries come in
    descending order of score.  For [max_results >= 0] there are
    [min(max_results, n)] of them, [n] being the number of the caller's
    contexts with a positive score, so never more than [max_results]; a
    negative [max_results] is a Python slice bound and drops the last
    [-max_results] of the [n] entries. *)
Theorem retrieve_context_size_and_order :
  forall query user_id max_results g,
    let n := length (relevant_contexts query user_id g) in
    StronglySorted at_most (retrieve_context query user_id max_results g) /\
    length (retrieve_context query user_id max_results g)
    = (if (0 <=? max_results)%Z then Nat.min (Z.to_nat max_results) n
       else n - Z.to_nat (- max_results))%nat /\
    ((0 <= max_results)%Z ->
     (length (retrieve_context query user_id max_results g)
      <= Z.to_nat max_results)%nat).
Proof.
  intros query user_id max_results g n.
  unfold retrieve_context, py_slice_to.
  assert (Hlen : length (sort_desc (relevant_contexts query user_id g)) = n)
    by apply length_sort_desc.
  split; [|split].
  - destruct (0 <=? max_results)%Z; apply StronglySorted_firstn;
      apply sort_desc_sorted.
  - destruct (0 <=? max_results)%Z; rewrite length_firstn, Hlen; [reflexivity|].
    lia.
  - intros Hm. destruct (Z.leb_spec 0 max_results); [|lia].
    apply firstn_le_length.
Qed.

(** X7: nothing is lost below the limit.  If the caller has at most
    [max_results] contexts with a positive score, each of them is
    returned, with its key and its score. *)
Theorem retrieve_context_complete :
  forall query user_id max_results g k i p c,
    (Z.of_nat (length (relevant_contexts query user_id g)) <= max_results)%Z ->
    In (k, ResearchContext i p c) (nodes g) ->
    cp_user_id p = user_id ->
    (0 < relevance (query_terms query) p)%Z ->
    In (mkRetrieved k (cp_query p) (cp_content p) (cp_sources p)
                    (relevance (query_terms query) p) (cp_timestamp p))
       (retrieve_context query user_id max_results g).
Proof.
  intros query user_id max_results g k i p c Hfit Hin Hu Hpos.
  unfold retrieve_context, py_slice_to.
  destruct (Z.leb_spec 0 max_results); [|lia].
  rewrite firstn_all2 by (rewrite length_sort_desc; lia).
  apply In_sort_desc. apply In_relevant_contexts.
  exists k, i, p, c. auto.
Qed.

Lemma retrieve_context_complete_witness :
  In (mkRetrieved "context_1700000000.0" "the cat" "" (PyList []) 4
                  "2023-11-14T22:13:20")
     (retrieve_context "the cat" "u1" 5 Sample.graph_cat).
Proof.
  apply (retrieve_context_complete "the cat" "u1" 5 Sample.graph_cat
           "context_1700000000.0" "context_1700000000.0"
           (mkContextProps "the cat" "" (PyList []) "u1"
                           "2023-11-14T22:13:20" (PyFloat "0.5"))
           "2023-11-14T22:13:20").
  - vm_compute. discriminate.
  - vm_compute. now left.
  - reflexivity.
  - reflexivity.
Defined.

(** X8: a query without a word, empty or made of white space only, retrieves
    nothing, from any graph and for any limit. *)
Theorem retrieve_context_blank_query :
  forall query user_id max_results g,
    all_chars isspace query = true ->
    retrieve_context query user_id max_results g = [].
Proof.
  intros query user_id max_results g Hblank.
  unfold retrieve_context, relevant_contexts, query_terms, split.
  rewrite (split_from_blank query Hblank), no_terms_no_candidates.
  unfold py_slice_to. simpl. destruct (0 <=? max_results)%Z;
    [apply firstn_nil|reflexivity].
Qed.

Lemma retrieve_context_blank_query_witness :
  retrieve_context "   " "u1" 5 Sample.graph_five = [].
Proof.
  apply retrieve_context_blank_query. reflexivity.
Defined.
End RetrievalMore.


(* ===================================================================== *)
(** ** What [store_context] writes and what it keeps *)
(* ===================================================================== *)

Section StoreMore.
Import PyStr Memory.

Lemma concept_id_not_context c stamp : concept_id_of c <> "context_" ++ stamp.
Proof. unfold concept_id_of. simpl. discriminate. Qed.

Lemma dict_keys_set_grow {V} k (v : V) d x :
  In x (dict_keys d) -> In x (dict_keys (dict_set k v d)).
Proof.
  intros H. rewrite dict_keys_set.
  destruct (in_dec string_dec k (dict_keys d)); [exact H|].
  apply in_or_app. now left.
Qed.

Lemma length_dict_set {V} k (v : V) d :
  (length (dict_set k v d) <= S (length d))%nat.
Proof.
  induction d as [|[k0 v0] d IH]; simpl; [lia|].
  destruct (String.eqb k k0); simpl; lia.
Qed.

Lemma append_inj_l (s a b : string) : s ++ a = s ++ b -> a = b.
Proof.
  induction s as [|c s IH]; simpl; intros H; [exact H|].
  inversion H. now apply IH.
Qed.

(** One round of the concept loop never changes a context node and never
    removes a key. *)
Lemma touch_concept_keeps now c ns ns' :
  touch_concept now c ns = Ok ns' ->
  (forall k i p t,
      dict_get k ns = Some (ResearchContext i p t) ->
      dict_get k ns' = Some (ResearchContext i p t)) /\
  (forall k, In k (dict_keys ns) -> In k (dict_keys ns')) /\
  (length ns' <= S (length ns))%nat.
Proof.
  unfold touch_concept. cbv zeta.
  destruct (dict_get (concept_id_of c) ns) as [[i0 p0 t0|i0 p0 t0]|] eqn:E;
    intros H; inversion H; subst ns'; clear H.
  - split; [|split].
    + intros k i p t Hk. rewrite dict_get_set_other; [exact Hk|].
      intros <-. congruence.
    + intros k. apply dict_keys_set_grow.
    + apply length_dict_set.
  - split; [|split].
    + intros k i p t Hk. rewrite dict_get_set_other; [exact Hk|].
      intros <-. congruence.
    + intros k. apply dict_keys_set_grow.
    + apply length_dict_set.
Qed.

(** The concept loop, on any graph and whether or not it raises. *)
Lemma connect_concepts_keeps now context_id concepts :
  forall g,
    let g' := fst (connect_concepts now context_id concepts g) in
    (forall k i p t,
        dict_get k (nodes g) = Some (ResearchContext i p t) ->
        dict_get k (nodes g') = Some (ResearchContext i p t)) /\
    (forall k, In k (dict_keys (nodes g)) -> In k (dict_keys (nodes g'))) /\
    (forall k, In k (dict_keys (edges g)) -> In k (dict_keys (edges g'))) /\
    (forall k,
        (forall c, In c concepts ->
                   edge_id (mentions_edge now context_id (concept_id_of c)) <> k) ->
        dict_get k (edges g') = dict_get k (edges g)) /\
    (length (nodes g') <= length (nodes g) + length concepts)%nat /\
    (length (edges g') <= length (edges g) + length concepts)%nat.
Proof.
  induction concepts as [|c rest IH]; intros g; cbn zeta.
  - simpl. repeat split; auto; lia.
  - cbn [connect_concepts].
    destruct (touch_concept now c (nodes g)) as [ns|e] eqn:Ht.
    + destruct (touch_concept_keeps now c (nodes g) ns Ht) as (K1 & K2 & K3).
      set (e := mentions_edge now context_id (concept_id_of c)).
      specialize (IH (mkGraph ns (dict_set (edge_id e) e (edges g)))).
      cbn zeta in IH. cbn [nodes edges] in IH.
      destruct IH as (I1 & I2 & I3 & I4 & I5 & I6).
      split; [|split; [|split; [|split; [|split]]]].
      * intros k i p t Hk. apply I1. now apply K1.
      * intros k Hk. apply I2. now apply K2.
      * intros k Hk. apply I3. now apply dict_keys_set_grow.
      * intros k Hk. rewrite I4 by (intros c' Hc'; apply Hk; now right).
        apply dict_get_set_other. apply Hk. now left.
      * change (length (c :: rest)) with (S (length rest)). lia.
      * pose proof (length_dict_set (edge_id e) e (edges g)).
        change (length (c :: rest)) with (S (length rest)). lia.
    + simpl. repeat split; auto; lia.
Qed.

Lemma store_context_node so now query context_data user_id g :
  dict_get ("context_" ++ clock_timestamp now)
           (nodes (fst (store_context so now query context_data user_id g)))
  = Some (ResearchContext ("context_" ++ clock_timestamp now)
            (mkContextProps query
               (or_default (cd_content context_data) "")
               (or_default (cd_sources context_data) (PyList []))
               user_id (clock_iso now)
               (or_default (cd_relevance_score context_data) (PyFloat "0.5")))
            (clock_iso now)).
Proof.
  unfold store_context, _create_concept_connections.
  set (context_id := "context_" ++ clock_timestamp now).
  set (node := ResearchContext context_id _ _).
  set (concepts := _extract_concepts so query _).
  pose proof (connect_concepts_keeps now context_id concepts
                (mkGraph (dict_set context_id node (nodes g)) (edges g)))
    as K.
  cbn zeta in K. cbn [nodes edges] in K.
  destruct (connect_concepts now context_id concepts
              (mkGraph (dict_set context_id node (nodes g)) (edges g)))
    as [g2 [[]|e]]; cbn [fst] in *;
    destruct K as (K1 & _); apply K1, dict_get_set_same.
Qed.

(** X9: [store_context] then look-up, on any graph and whether or not the
    call raises.  Under the id "context_" + timestamp the graph holds a
    context node with the query, the owner, and the content, sources and
    relevance hint of [context_data] (or "", [[]] and 0.5 where a key is
    missing); every context node under another id is exactly as before; and
    no node key and no edge key is removed. *)
Theorem store_context_keeps :
  forall so now query context_data user_id g,
    let g' := fst (store_context so now query context_data user_id g) in
    let context_id := "context_" ++ clock_timestamp now in
    dict_get context_id (nodes g')
    = Some (ResearchContext context_id
              (mkContextProps query
                 (or_default (cd_content context_data) "")
                 (or_default (cd_sources context_data) (PyList []))
                 user_id (clock_iso now)
                 (or_default (cd_relevance_score context_data) (PyFloat "0.5")))
              (clock_iso now)) /\
    (forall k i p t,
        k <> context_id ->
        dict_get k (nodes g) = Some (ResearchContext i p t) ->
        dict_get k (nodes g') = Some (ResearchContext i p t)) /\
    (forall k, In k (dict_keys (nodes g)) -> In k (dict_keys (nodes g'))) /\
    (forall k, In k (dict_keys (edges g)) -> In k (dict_keys (edges g'))).
Proof.
  intros so now query context_data user_id g g' context_id.
  subst g'. unfold store_context, _create_concept_connections.
  fold context_id.
  set (node := ResearchContext context_id _ _).
  set (concepts := _extract_concepts so query _).
  pose proof (connect_concepts_keeps now context_id concepts
                (mkGraph (dict_set context_id node (nodes g)) (edges g)))
    as K.
  cbn zeta in K. cbn [nodes edges] in K.
  destruct (connect_concepts now context_id concepts
              (mkGraph (dict_set context_id node (nodes g)) (edges g)))
    as [g2 [[]|e]]; cbn [fst] in *;
    destruct K as (K1 & K2 & K3 & _);
    (split; [apply K1, dict_get_set_same|]);
    (split; [intros k i p t Hk Hget; apply K1;
             rewrite dict_get_set_other by congruence; exact Hget|]);
    (split; [intros k Hk; apply K2; now apply dict_keys_set_grow|]);
    exact K3.
Qed.

(** X10: concept frequencies are counted per call.  On a graph that keeps
    contexts under "context_" keys (as every reachable graph does),
    [store_context] does not raise, returns "context_" + timestamp, adds
    exactly 1 to the frequency of every concept it extracts (a new concept
    starts at 1), and leaves the frequency of every other concept as it
    was. *)
Theorem store_context_counts_concepts :
  forall so now query context_data user_id g,
    graph_ok g ->
    let concepts :=
      _extract_concepts so query (or_default (cd_content context_data) "") in
    exists g',
      store_context so now query context_data user_id g
      = (g', Ok ("context_" ++ clock_timestamp now)) /\
      graph_ok g' /\
      (forall c, In c concepts ->
                 frequency_of ("concept_" ++ c) g'
                 = Some (frequency_or_zero ("concept_" ++ c) g + 1)%Z) /\
      (forall c, ~ In c concepts ->
                 frequency_of ("concept_" ++ c) g'
                 = frequency_of ("concept_" ++ c) g).
Proof.
  intros so now query context_data user_id g Hok concepts.
  destruct (store_context_ok so now query context_data user_id g Hok)
    as (g' & Hs & Hok' & _ & Hf).
  exists g'. split; [exact Hs|]. split; [exact Hok'|]. split.
  - intros c Hc. rewrite Hf. fold concepts.
    destruct (In_dec string_dec c concepts); [reflexivity|contradiction].
  - intros c Hc. rewrite Hf. fold concepts.
    destruct (In_dec string_dec c concepts); [contradiction|reflexivity].
Qed.

Lemma store_context_counts_concepts_witness :
  frequency_of "concept_neural"
    (fst (store_context first_seen Sample.clock6 "neural nets"
                        Sample.vision_data "u1" Sample.graph_five))
  = Some 6%Z.
Proof.
  assert (Hok : graph_ok Sample.graph_five).
  { unfold Sample.graph_five. simpl fold_right. unfold Sample.store_vision.
    repeat apply store_context_graph_ok. apply graph_ok_empty. }
  destruct (store_context_counts_concepts first_seen Sample.clock6
              "neural nets" Sample.vision_data "u1" Sample.graph_five Hok)
    as (g' & Hs & _ & Hin & _).
  rewrite Hs. cbn [fst].
  change "concept_neural" with ("concept_" ++ "neural").
  rewrite Hin; [reflexivity|]. vm_compute. auto.
Defined.

(** X11: the edges of one call.  On such a graph [store_context] leaves, for
    every concept it extracts, an edge "edge_<context id>_<concept id>" from
    the new context to the concept's node, of type "mentions" and weight
    1.0, and a concept node under the concept's id; it adds at most 10
    edges and at most 11 nodes. *)
Theorem store_context_mentions :
  forall so now query context_data user_id g,
    graph_ok g ->
    let g' := fst (store_context so now query context_data user_id g) in
    let context_id := "context_" ++ clock_timestamp now in
    (forall c,
        In c (_extract_concepts so query
                (or_default (cd_content context_data) "")) ->
        dict_get ("edge_" ++ context_id ++ "_" ++ "concept_" ++ c) (edges g')
        = Some (mkEdge ("edge_" ++ context_id ++ "_" ++ "concept_" ++ c)
                       context_id ("concept_" ++ c) "mentions"
                       (PyFloat "1.0") (clock_iso now)) /\
        exists f, frequency_of ("concept_" ++ c) g' = Some f) /\
    (length (edges g') <= length (edges g) + 10)%nat /\
    (length (nodes g') <= length (nodes g) + 11)%nat.
Proof.
  intros so now query context_data user_id g Hok g' context_id.
  set (concepts := _extract_concepts so query
                     (or_default (cd_content context_data) "")).
  destruct (extract_concepts_spec so query
              (or_default (cd_content context_data) "")) as (N & L & _).
  fold concepts in N, L.
  destruct (store_context_ok so now query context_data user_id g Hok)
    as (g2 & Hs & _ & _ & Hf).
  cbv zeta in Hf. fold concepts in Hf.
  assert (Hfreq : forall c, In c concepts ->
                    frequency_of ("concept_" ++ c) g2
                    = Some (frequency_or_zero ("concept_" ++ c) g + 1)%Z).
  { intros c Hc. rewrite Hf.
    destruct (In_dec string_dec c concepts); [reflexivity|contradiction]. }
  clear Hf.
  assert (Hids : forall c, In c concepts -> concept_id_of c = "concept_" ++ c)
    by (intros c Hc; exact (concept_id_of_concept so query _ c Hc)).
  set (node := ResearchContext context_id
                 (mkContextProps query
                    (or_default (cd_content context_data) "")
                    (or_default (cd_sources context_data) (PyList []))
                    user_id (clock_iso now)
                    (or_default (cd_relevance_score context_data)
                                (PyFloat "0.5")))
                 (clock_iso now)).
  set (g1 := mkGraph (dict_set context_id node (nodes g)) (edges g)).
  assert (Hg' : g' = fst (connect_concepts now context_id concepts g1)).
  { subst g'. unfold store_context, _create_concept_connections.
    fold context_id. fold concepts. fold node. fold g1.
    destruct (connect_concepts now context_id concepts g1) as [g3 [[]|e]];
      reflexivity. }
  assert (Hg2 : g2 = g') by (subst g'; now rewrite Hs).
  assert (Hok1 : graph_ok g1).
  { intros k i p c H. subst g1. simpl in H.
    destruct (string_dec context_id k) as [<-|Hk].
    - apply prefix_iff. exists (clock_timestamp now). reflexivity.
    - rewrite dict_get_set_other in H by exact Hk. exact (Hok _ _ _ _ H). }
  split; [|split].
  - intros c Hc. split; [|rewrite <- Hg2, (Hfreq c Hc); eauto].
    rewrite Hg'. clear Hg' Hg2 Hs Hfreq g2 L.
    revert Hc Hok1 Hids N. generalize g1. clear g1.
    induction concepts as [|c0 rest IH]; intros g1 Hc Hok1 Hids N;
      [contradiction|].
    cbn [connect_concepts].
    destruct (touch_concept_ok now c0 (nodes g1)) as (ns & Ht & Hokn & _).
    { exact Hok1. }
    { apply Hids. now left. }
    rewrite Ht. rewrite (Hids c0 (or_introl eq_refl)).
    inversion N as [|? ? Hnin N']; subst.
    destruct (string_dec c0 c) as [->|Hne].
    + (* the edge of [c] is written now and not touched afterwards *)
      pose proof (connect_concepts_keeps now context_id rest
                    (mkGraph ns
                       (dict_set
                          (edge_id (mentions_edge now context_id
                                      ("concept_" ++ c)))
                          (mentions_edge now context_id ("concept_" ++ c))
                          (edges g1)))) as K.
      cbn zeta in K. destruct K as (_ & _ & _ & K & _).
      rewrite K.
      * cbn [edges]. apply dict_get_set_same.
      * intros c' Hc' E. rewrite (Hids c' (or_intror Hc')) in E.
        simpl in E. inversion E as [E'].
        apply append_inj_l in E'. inversion E' as [E''].
        subst c'. contradiction.
    + apply IH.
      * destruct Hc as [E|Hc]; [contradiction|exact Hc].
      * apply Hokn.
      * intros c' Hc'. apply Hids. now right.
      * exact N'.
  - rewrite Hg'.
    pose proof (connect_concepts_keeps now context_id concepts g1) as K.
    cbn zeta in K. destruct K as (_ & _ & _ & _ & _ & K).
    subst g1. cbn [edges] in K. lia.
  - rewrite Hg'.
    pose proof (connect_concepts_keeps now context_id concepts g1) as K.
    cbn zeta in K. destruct K as (_ & _ & _ & _ & K & _).
    subst g1. cbn [nodes] in K.
    pose proof (length_dict_set context_id node (nodes g)). lia.
Qed.

Lemma store_context_mentions_witness :
  exists e,
    dict_get "edge_context_1700000000.0_concept_neural"
             (edges (fst (store_context first_seen Sample.clock0 "neural nets"
                                        Sample.vision_data "u1" empty_graph)))
    = Some e /\
    edge_source e = "context_1700000000.0" /\
    edge_target e = "concept_neural" /\
    edge_type e = "mentions".
Proof.
  destruct (store_context_mentions first_seen Sample.clock0 "neural nets"
              Sample.vision_data "u1" empty_graph graph_ok_empty)
    as (H & _).
  destruct (H "neural") as [He _].
  - vm_compute. auto.
  - eexists. split; [exact He|]. repeat split.
Defined.
End StoreMore.


(* ===================================================================== *)
(** ** The graphs a memory service can hold *)
(* ===================================================================== *)

Section Reachable.
Import PyStr Memory MemoryViews.

Lemma graph_wf_ok g : graph_wf g -> graph_ok g.
Proof.
  intros [Hn _] k i p c H. exact (proj2 (Hn k _ H)).
Qed.

Lemma graph_wf_empty : graph_wf empty_graph.
Proof. split; intros k x H; discriminate. Qed.

(** Writing the context node keeps the graph well formed. *)
Lemma graph_wf_set_context g stamp p t :
  graph_wf g ->
  graph_wf (mkGraph (dict_set ("context_" ++ stamp)
                              (ResearchContext ("context_" ++ stamp) p t)
                              (nodes g))
                    (edges g)).
Proof.
  intros [Hn He]. split; cbn [nodes edges].
  - intros k n H. destruct (string_dec ("context_" ++ stamp) k) as [<-|Hk].
    + rewrite dict_get_set_same in H. inversion H; subst n.
      split; [reflexivity|]. apply prefix_iff. exists stamp. reflexivity.
    + rewrite dict_get_set_other in H by exact Hk. exact (Hn k n H).
  - intros k e H. destruct (He k e H) as (E1 & E2 & E3 & E4 & Hs & Ht).
    unfold edge_wf. cbn [nodes].
    split; [exact E1|]. split; [exact E2|]. split; [exact E3|].
    split; [exact E4|]. split.
    + destruct (string_dec ("context_" ++ stamp) (edge_source e)) as [<-|Hk].
      * rewrite dict_get_set_same. eauto.
      * rewrite dict_get_set_other by exact Hk. exact Hs.
    + destruct Ht as (i & cp & c & Ht). exists i, cp, c.
      rewrite dict_get_set_other; [exact Ht|].
      intros E. rewrite <- E in Ht.
      destruct (Hn _ _ Ht) as (_ & Hkey & _). simpl in Hkey. discriminate.
Qed.

(** One round of the concept loop keeps the graph well formed and the
    context node in place. *)
Lemma graph_wf_round now context_id c g :
  graph_wf g ->
  concept_id_of c = "concept_" ++ c ->
  (exists i p t,
      dict_get context_id (nodes g) = Some (ResearchContext i p t)) ->
  exists ns,
    touch_concept now c (nodes g) = Ok ns /\
    let e := mentions_edge now context_id (concept_id_of c) in
    graph_wf (mkGraph ns (dict_set (edge_id e) e (edges g))) /\
    (exists i p t, dict_get context_id ns = Some (ResearchContext i p t)).
Proof.
  intros Hwf Hid Hctx. pose proof Hwf as [Hn He].
  destruct (touch_concept_ok now c (nodes g)) as (ns & Ht & _).
  { exact (graph_wf_ok _ Hwf). }
  { exact Hid. }
  destruct (touch_concept_keeps now c (nodes g) ns Ht) as (K1 & _).
  exists ns. split; [exact Ht|]. cbv zeta. rewrite Hid.
  assert (Hslot : exists i p t,
             dict_get ("concept_" ++ c) ns = Some (Concept i p t) /\
             node_wf ("concept_" ++ c) (Concept i p t) /\
             forall k, k <> "concept_" ++ c ->
                       dict_get k ns = dict_get k (nodes g)).
  { unfold touch_concept in Ht. cbv zeta in Ht. rewrite Hid in Ht.
    destruct (dict_get ("concept_" ++ c) (nodes g)) as [[i p t|i p t]|] eqn:E;
      inversion Ht; subst ns; clear Ht.
    - destruct (Hn _ _ E) as (Hi & Hk & Hf). simpl in Hi, Hk, Hf.
      eexists _, _, _. split; [apply dict_get_set_same|]. split.
      + simpl. repeat split; [exact Hi|exact Hk|lia].
      + intros k Hk'. apply dict_get_set_other.
        intros Eq. apply Hk'. now symmetry.
    - eexists _, _, _. split; [apply dict_get_set_same|]. split.
      + simpl. repeat split. lia.
      + intros k Hk'. apply dict_get_set_other.
        intros Eq. apply Hk'. now symmetry. }
  destruct Hslot as (ci & cp & ct & Hc & Hcwf & Hother).
  split; [|destruct Hctx as (i & p & t & H); exists i, p, t; now apply K1].
  split; cbn [nodes edges].
  - intros k n H. destruct (string_dec k ("concept_" ++ c)) as [->|Hk].
    + rewrite Hc in H. inversion H; subst n. exact Hcwf.
    + rewrite Hother in H by exact Hk. exact (Hn k n H).
  - intros k e H.
    assert (Hold : forall e0, edge_wf g k e0 ->
                     edge_wf (mkGraph ns
                                (dict_set
                                   (edge_id (mentions_edge now context_id
                                               ("concept_" ++ c)))
                                   (mentions_edge now context_id
                                                  ("concept_" ++ c))
                                   (edges g))) k e0).
    { intros e0 (E1 & E2 & E3 & E4 & Hs & Ht').
      unfold edge_wf. cbn [nodes].
      split; [exact E1|]. split; [exact E2|]. split; [exact E3|].
      split; [exact E4|]. split.
      - destruct Hs as (i & p & t & Hs). exists i, p, t. now apply K1.
      - destruct (string_dec (edge_target e0) ("concept_" ++ c)) as [->|Hk].
        + eauto.
        + rewrite Hother by exact Hk. exact Ht'. }
    destruct (string_dec
                (edge_id (mentions_edge now context_id ("concept_" ++ c))) k)
      as [<-|Hk].
    + rewrite dict_get_set_same in H. inversion H; subst e.
      unfold edge_wf, mentions_edge. cbn.
      repeat split.
      * destruct Hctx as (i & p & t & Hx). exists i, p, t. now apply K1.
      * eauto.
    + rewrite dict_get_set_other in H by exact Hk.
      apply Hold. exact (He k e H).
Qed.

Lemma graph_wf_connect now context_id concepts :
  forall g,
    graph_wf g ->
    (forall c, In c concepts -> concept_id_of c = "concept_" ++ c) ->
    (exists i p t,
        dict_get context_id (nodes g) = Some (ResearchContext i p t)) ->
    graph_wf (fst (connect_concepts now context_id concepts g)).
Proof.
  induction concepts as [|c rest IH]; intros g Hwf Hids Hctx; [exact Hwf|].
  cbn [connect_concepts].
  destruct (graph_wf_round now context_id c g Hwf
              (Hids c (or_introl eq_refl)) Hctx) as (ns & Ht & Hwf' & Hctx').
  rewrite Ht. cbv zeta in Hwf'. apply IH.
  - exact Hwf'.
  - intros c' Hc'. apply Hids. now right.
  - exact Hctx'.
Qed.

Lemma graph_wf_store so now query context_data user_id g :
  graph_wf g ->
  graph_wf (fst (store_context so now query context_data user_id g)).
Proof.
  intros Hwf. unfold store_context, _create_concept_connections.
  set (node := ResearchContext _ _ _).
  set (concepts := _extract_concepts so query _).
  assert (H : graph_wf
                (fst (connect_concepts now ("context_" ++ clock_timestamp now)
                        concepts
                        (mkGraph (dict_set ("context_" ++ clock_timestamp now)
                                           node (nodes g)) (edges g))))).
  { apply graph_wf_connect.
    - apply graph_wf_set_context. exact Hwf.
    - intros c Hc. exact (concept_id_of_concept so query _ c Hc).
    - cbn [nodes]. rewrite dict_get_set_same. subst node. eauto. }
  destruct (connect_concepts now ("context_" ++ clock_timestamp now) concepts _)
    as [g2 [[]|e]]; exact H.
Qed.

(** X12: every graph a memory service can reach, starting empty and storing
    contexts, is well formed.  A context node sits under a "context_" key
    that is also its id; a concept node sits under "concept_" + its name,
    which is also its id, and has frequency at least 1; every edge sits
    under its id, is of type "mentions", starts at a context node of the
    graph and ends at a concept node of the graph (no edge dangles); and on
    such a graph [store_context] never raises. *)
Theorem reachable_graph_well_formed :
  forall g,
    reachable g ->
    (forall k i p t,
        dict_get k (nodes g) = Some (ResearchContext i p t) ->
        i = k /\ String.prefix "context_" k = true) /\
    (forall k i p t,
        dict_get k (nodes g) = Some (Concept i p t) ->
        i = k /\ k = "concept_" ++ cc_name p /\ (1 <= cc_frequency p)%Z) /\
    (forall k e,
        dict_get k (edges g) = Some e ->
        edge_id e = k /\
        edge_type e = "mentions" /\
        (exists i p t,
            dict_get (edge_source e) (nodes g)
            = Some (ResearchContext i p t)) /\
        (exists i p t,
            dict_get (edge_target e) (nodes g) = Some (Concept i p t))) /\
    (forall so now query context_data user_id,
        snd (store_context so now query context_data user_id g)
        = Ok ("context_" ++ clock_timestamp now)).
Proof.
  intros g Hr.
  assert (Hwf : graph_wf g).
  { induction Hr; [exact graph_wf_empty|now apply graph_wf_store]. }
  pose proof Hwf as [Hn He].
  split; [|split; [|split]].
  - intros k i p t H. exact (Hn k _ H).
  - intros k i p t H. exact (Hn k _ H).
  - intros k e H. destruct (He k e H) as (E1 & _ & E3 & _ & Hs & Ht). auto.
  - intros so now query context_data user_id.
    destruct (store_context_ok so now query context_data user_id g
                (graph_wf_ok g Hwf)) as (g' & -> & _). reflexivity.
Qed.

Lemma reachable_graph_well_formed_witness :
  snd (store_context first_seen Sample.clock6 "neural nets" Sample.vision_data
                     "u1" Sample.graph_five) = Ok "context_6.0" /\
  exists i p t,
    dict_get "concept_vision" (nodes Sample.graph_five)
    = Some (Concept i p t) /\
    (1 <= cc_frequency p)%Z.
Proof.
  assert (Hr : reachable Sample.graph_five).
  { unfold Sample.graph_five. simpl fold_right. unfold Sample.store_vision.
    repeat apply reachable_store. apply reachable_empty. }
  destruct (reachable_graph_well_formed Sample.graph_five Hr)
    as (_ & Hc & _ & Hs).
  split; [apply Hs|].
  assert (E : dict_get "concept_vision" (nodes Sample.graph_five)
              = Some (Concept "concept_vision"
                        (mkConceptProps "vision" "extracted" 5)
                        "2023-11-14T22:13:20")) by reflexivity.
  eexists _, _, _. split; [exact E|].
  exact (proj2 (proj2 (Hc _ _ _ _ E))).
Defined.
End Reachable.


(* ===================================================================== *)
(** ** Statistics and the knowledge graph *)
(* ===================================================================== *)

Section Views.
Import PyStr Memory MemoryViews.

Lemma In_insert_by {A} (le : A -> A -> bool) x a l :
  In x (insert_by le a l) <-> x = a \/ In x l.
Proof.
  induction l as [|y ys IH]; simpl; [intuition|].
  destruct (le y a); simpl; [intuition|]. rewrite IH. intuition.
Qed.

Lemma In_sorted_desc {A} (le : A -> A -> bool) x l :
  In x (sorted_desc le l) <-> In x l.
Proof.
  induction l as [|a l IH]; simpl; [reflexivity|].
  rewrite In_insert_by, IH. intuition.
Qed.

Lemma sorted_desc_by_frequency l :
  StronglySorted more_frequent (sorted_desc by_frequency l).
Proof.
  induction l as [|a l IH]; simpl; [constructor|].
  induction IH as [|y ys Hs IH Hall]; simpl.
  - constructor; constructor.
  - unfold by_frequency at 1.
    destruct (Z.leb_spec (snd y) (snd a)).
    + constructor; [constructor; assumption|].
      constructor; [exact H|].
      rewrite Forall_forall in Hall |- *. intros z Hz.
      specialize (Hall z Hz). unfold more_frequent in *. lia.
    + constructor; [exact IH|].
      rewrite Forall_forall in Hall |- *. intros z Hz.
      apply In_insert_by in Hz. destruct Hz as [->|Hz].
      * unfold more_frequent. lia.
      * now apply Hall.
Qed.

Lemma StronglySorted_app_inv {A} (R : A -> A -> Prop) l1 l2 :
  StronglySorted R (l1 ++ l2) ->
  forall x y, In x l1 -> In y l2 -> R x y.
Proof.
  induction l1 as [|a l1 IH]; simpl; intros H x y Hx Hy; [contradiction|].
  inversion H as [|? ? Hs Hall]; subst.
  destruct Hx as [<-|Hx].
  - rewrite Forall_forall in Hall. apply Hall. apply in_or_app. now right.
  - exact (IH Hs x y Hx Hy).
Qed.

Lemma length_kinds ns :
  (length (filter is_context ns) + length (filter is_concept ns))%nat
  = length ns.
Proof.
  induction ns as [|n ns IH]; simpl; [reflexivity|].
  destruct n; simpl; lia.
Qed.

Lemma In_concept_entries x (ns : list Node) :
  In x (flat_map concept_entry (filter is_concept ns)) <->
  exists i p t, In (Concept i p t) ns /\ x = (cc_name p, cc_frequency p).
Proof.
  rewrite in_flat_map. split.
  - intros [n [Hn Hx]]. apply filter_In in Hn. destruct Hn as [Hn _].
    destruct n as [i p t|i p t]; simpl in Hx; [contradiction|].
    destruct Hx as [<-|[]]. eauto.
  - intros (i & p & t & Hn & ->). exists (Concept i p t). split.
    + apply filter_In. auto.
    + simpl. now left.
Qed.

(** X13: [get_memory_stats] on any graph.  The contexts and the concepts it
    counts add up to the nodes, and it counts every edge.  The list of most
    common concepts has at most 5 entries, each the name and frequency of a
    concept node, in descending order of frequency, and no concept left out
    is more frequent than a concept listed.  The list of recent contexts
    has at most 5 entries, each a context node of the graph. *)
Theorem get_memory_stats_summary :
  forall g,
    let stats := get_memory_stats g in
    (total_contexts stats + total_concepts stats)%nat = length (nodes g) /\
    total_edges stats = length (edges g) /\
    (length (most_common_concepts stats) <= 5)%nat /\
    StronglySorted more_frequent (most_common_concepts stats) /\
    (forall x, In x (most_common_concepts stats) ->
               exists i p t,
                 In (Concept i p t) (dict_values (nodes g)) /\
                 x = (cc_name p, cc_frequency p)) /\
    (forall i p t,
        In (Concept i p t) (dict_values (nodes g)) ->
        In (cc_name p, cc_frequency p) (most_common_concepts stats) \/
        forall x, In x (most_common_concepts stats) ->
                  (cc_frequency p <= snd x)%Z) /\
    (length (recent_contexts stats) <= 5)%nat /\
    (forall n, In n (recent_contexts stats) ->
               In n (dict_values (nodes g)) /\ is_context n = true).
Proof.
  intros g stats. subst stats. unfold get_memory_stats.
  cbn [total_contexts total_concepts total_edges most_common_concepts
       recent_contexts].
  set (entries := flat_map concept_entry
                           (filter is_concept (dict_values (nodes g)))).
  split; [rewrite length_kinds; apply length_map|]. split; [reflexivity|].
  split; [apply firstn_le_length|].
  split; [apply StronglySorted_firstn, sorted_desc_by_frequency|].
  split; [|split; [|split; [apply firstn_le_length|]]].
  - intros x Hx. apply In_firstn_In, In_sorted_desc in Hx.
    now apply In_concept_entries in Hx.
  - intros i p t Hn.
    assert (Hin : In (cc_name p, cc_frequency p)
                     (sorted_desc by_frequency entries)).
    { apply In_sorted_desc. apply In_concept_entries. eauto. }
    rewrite <- (firstn_skipn 5 (sorted_desc by_frequency entries)) in Hin.
    apply in_app_or in Hin. destruct Hin as [Hin|Hin]; [now left|].
    right. intros x Hx.
    pose proof (sorted_desc_by_frequency entries) as S.
    rewrite <- (firstn_skipn 5 (sorted_desc by_frequency entries)) in S.
    exact (StronglySorted_app_inv more_frequent _ _ S x _ Hx Hin).
  - intros n Hn. apply In_firstn_In, In_sorted_desc in Hn.
    now apply filter_In in Hn.
Qed.

Lemma fold_left_invariant {A B} (f : A -> B -> A) (P : A -> Prop) l :
  (forall acc x, In x l -> P acc -> P (f acc x)) ->
  forall a, P a -> P (fold_left f l a).
Proof.
  induction l as [|x l IH]; simpl; intros Hstep a Ha; [exact Ha|].
  apply IH.
  - intros acc y Hy. apply Hstep. now right.
  - apply Hstep; [now left|exact Ha].
Qed.

Lemma In_dict_set_inv {V} k (v : V) d k' v' :
  In (k', v') (dict_set k v d) -> (k', v') = (k, v) \/ In (k', v') d.
Proof.
  induction d as [|[k0 v0] d IH]; simpl.
  - intros [E|[]]. left. now symmetry.
  - destruct (String.eqb_spec k k0) as [->|Hk]; simpl.
    + intros [E|H]; [left; now symmetry|right; now right].
    + intros [E|H]; [right; now left|].
      destruct (IH H) as [E|H']; [now left|right; now right].
Qed.

Lemma dict_get_In {V} k (v : V) d : dict_get k d = Some v -> In (k, v) d.
Proof.
  induction d as [|[k0 v0] d IH]; simpl; [discriminate|].
  destruct (String.eqb_spec k k0) as [->|Hk].
  - intros H. inversion H. now left.
  - intros H. right. now apply IH.
Qed.

Lemma add_mention_ok g user_id i p t ke e concepts :
  In (ResearchContext i p t) (dict_values (nodes g)) ->
  cp_user_id p = user_id ->
  In (ke, e) (edges g) ->
  view_ok g user_id concepts ->
  view_ok g user_id (add_mention g i p concepts e).
Proof.
  intros Hctx Hu He Hok. unfold add_mention.
  destruct (String.eqb_spec (edge_source e) i) as [Hsrc|_]; [|exact Hok].
  destruct (dict_get (edge_target e) (nodes g)) as [[ci cp ct|ci cp ct]|] eqn:Et;
    try exact Hok.
  cbv zeta. intros name v Hin.
  apply In_dict_set_inv in Hin. destruct Hin as [E|Hin]; [|exact (Hok _ _ Hin)].
  inversion E; subst name v; clear E.
  assert (Hnew : mentioned_by g user_id (cc_name cp)
                              (cp_query p, cp_timestamp p)).
  { exists i, p, t, ke, e, ci, cp, ct. repeat split; auto. }
  destruct (dict_get (cc_name cp) concepts) as [entry|] eqn:Ec;
    cbn [or_default cv_id cv_name cv_frequency cv_contexts].
  - destruct (Hok _ _ (dict_get_In _ _ _ Ec)) as (Hname & _ & Hnode & Hpairs).
    split; [exact Hname|]. split; [|split; [exact Hnode|]].
    + unfold py_append. intros E. apply app_eq_nil in E.
      destruct E as [_ E]. discriminate.
    + intros pair Hp. unfold py_append in Hp. apply in_app_or in Hp.
      destruct Hp as [Hp|[<-|[]]]; [now apply Hpairs|exact Hnew].
  - split; [reflexivity|]. split; [discriminate|]. split.
    + exists (edge_target e), ci, cp, ct. auto.
    + intros pair [<-|[]]. exact Hnew.
Qed.

(** X14: [build_knowledge_graph] shows a user only what that user's contexts
    mention.  Every concept entry it returns has the name, id and frequency
    of a concept node of the graph (the frequency is the node's, counted
    over all users), and a context list that is not empty and holds only
    (query, timestamp) pairs of contexts owned by the user that have an edge
    to a concept node of that name.  Its "connections" are always empty,
    and a user without contexts gets no concept. *)
Theorem build_knowledge_graph_own_mentions :
  forall user_id g,
    let kg := build_knowledge_graph user_id g in
    (forall v,
        In v (kg_concepts kg) ->
        cv_contexts v <> [] /\
        (exists tgt ci cp ct,
            dict_get tgt (nodes g) = Some (Concept ci cp ct) /\
            cc_name cp = cv_name v /\ cv_id v = ci /\
            cv_frequency v = cc_frequency cp) /\
        forall pair,
          In pair (cv_contexts v) ->
          exists i p t ke e ci cp ct,
            In (ResearchContext i p t) (dict_values (nodes g)) /\
            cp_user_id p = user_id /\
            pair = (cp_query p, cp_timestamp p) /\
            In (ke, e) (edges g) /\
            edge_source e = i /\
            dict_get (edge_target e) (nodes g) = Some (Concept ci cp ct) /\
            cc_name cp = cv_name v) /\
    kg_connections kg = [] /\
    ((forall n, In n (dict_values (nodes g)) -> owned_by user_id n = false) ->
     kg_concepts kg = []).
Proof.
  intros user_id g kg. subst kg. unfold build_knowledge_graph.
  cbn [kg_concepts kg_connections]. split; [|split; [reflexivity|]].
  - assert (Hok : view_ok g user_id
                    (fold_left (collect_mentions g)
                       (filter (owned_by user_id) (dict_values (nodes g))) [])).
    { apply fold_left_invariant; [|intros name v []].
      intros acc n Hn Hacc. apply filter_In in Hn. destruct Hn as [Hn Hown].
      destruct n as [i p t|i p t]; [|discriminate]. simpl in Hown.
      apply String.eqb_eq in Hown. unfold collect_mentions.
      apply fold_left_invariant; [|exact Hacc].
      intros acc' [ke e] He Hacc'. simpl.
      now apply (add_mention_ok g user_id i p t ke e). }
    intros v Hv. unfold dict_values in Hv. apply in_map_iff in Hv.
    destruct Hv as [[name v'] [E Hin]]. simpl in E. subst v'.
    destruct (Hok name v Hin) as (Hname & Hne & Hnode & Hpairs).
    rewrite Hname. split; [exact Hne|]. split; [exact Hnode|].
    intros pair Hp. exact (Hpairs pair Hp).
  - intros Hnone.
    assert (E : filter (owned_by user_id) (dict_values (nodes g)) = []).
    { induction (dict_values (nodes g)) as [|n ns IH]; [reflexivity|].
      simpl. rewrite (Hnone n (or_introl eq_refl)).
      apply IH. intros m Hm. apply Hnone. now right. }
    rewrite E. reflexivity.
Qed.
End Views.


(* ===================================================================== *)
(** ** Plans and their status *)
(* ===================================================================== *)

Section Plans.
Import PyStr Workflow.

(** X15: an unknown plan id.  [execute_research_plan] raises
    [ValueError("Plan <id> not found")], [get_workflow_status] and
    [get_workflow_results] return [None], and nothing changes. *)
Theorem unknown_plan_id :
  forall env svc plan_id caller,
    dict_get plan_id (active_workflows svc) = None ->
    execute_research_plan env plan_id caller svc
    = (svc, Raise (mkExn "ValueError" ("Plan " ++ plan_id ++ " not found"))) /\
    get_workflow_status plan_id caller svc = (svc, None) /\
    get_workflow_results env plan_id caller svc = (svc, None).
Proof.
  intros env svc pid caller H.
  unfold execute_research_plan, get_workflow_status, get_workflow_results.
  rewrite H. repeat split.
Qed.

Lemma unknown_plan_id_witness :
  snd (execute_research_plan Sample.env_no_tools "plan_ffffffff" "u1"
                             Sample.svc_planned)
  = Raise (mkExn "ValueError" "Plan plan_ffffffff not found").
Proof.
  destruct (unknown_plan_id Sample.env_no_tools Sample.svc_planned
              "plan_ffffffff" "u1" eq_refl) as [H _].
  rewrite H. reflexivity.
Defined.

Lemma plan_length (query user_id : string) :
  (2 <= length (_analyze_query_and_create_plan query user_id) <= 4)%nat.
Proof.
  rewrite plan_shape.
  destruct (any_in question_words _), (any_in document_words _); simpl; lia.
Qed.

(** X16: the shape of every plan.  Whatever the query, the plan has 2 to 4
    steps with distinct ids, does not depend on the user, and ends with the
    context retrieval step followed by the synthesis step.  It has a search
    step exactly when the lower-cased query contains one of
    what/how/why/when/where/who as a substring, and then the search step
    comes first.  No step names itself or a later step as a dependency, so
    the order of declaration agrees with the dependencies. *)
Theorem plan_structure :
  forall query user_id,
    let plan := _analyze_query_and_create_plan query user_id in
    (2 <= length plan <= 4)%nat /\
    NoDup (map step_id plan) /\
    plan = _analyze_query_and_create_plan query "" /\
    (exists front,
        plan = (front ++ [context_retrieval_step; synthesis_step])%list) /\
    ((exists s, In s plan /\ step_type s = "search") <->
     (exists word,
         In word ["what"; "how"; "why"; "when"; "where"; "who"] /\
         exists pre post, lower query = pre ++ word ++ post)) /\
    (forall s, In s plan -> step_type s = "search" ->
               exists rest, plan = web_search_step :: rest) /\
    (forall pre s post dep,
        plan = (pre ++ s :: post)%list ->
        In dep (depends_on s) ->
        ~ In dep (map step_id (s :: post))).
Proof.
  intros query user_id plan.
  assert (Hshape : plan = _analyze_query_and_create_plan query user_id)
    by reflexivity.
  rewrite plan_shape in Hshape.
  split; [|split; [|split; [reflexivity|split; [|split; [|split]]]]].
  - rewrite Hshape.
    destruct (any_in question_words _), (any_in document_words _); simpl; lia.
  - rewrite Hshape.
    destruct (any_in question_words _), (any_in document_words _); simpl;
      repeat constructor; simpl; intuition discriminate.
  - rewrite Hshape. eexists. rewrite app_assoc. reflexivity.
  - rewrite <- (any_in_iff question_words). split.
    + intros [s [Hin Hty]]. rewrite Hshape in Hin.
      destruct (any_in question_words _); [reflexivity|].
      destruct (any_in document_words _); simpl in Hin;
        intuition subst; discriminate.
    + intros Hq. exists web_search_step. split; [|reflexivity].
      rewrite Hshape, Hq. now left.
  - intros s Hin Hty.
    exact (proj2 (search_in_plan query user_id s Hin Hty)).
  - intros pre s post dep Hplan Hdep Hin. rewrite Hshape in Hplan.
    destruct (any_in question_words _), (any_in document_words _);
      simpl in Hplan;
      repeat (destruct pre as [|? pre]; simpl in Hplan;
              [inversion Hplan; subst; simpl in Hdep, Hin;
               intuition (subst; discriminate)
              |inversion Hplan; subst; clear Hplan;
               match goal with H : _ = (pre ++ _ :: _)%list |- _ =>
                 rename H into Hplan end]);
      destruct pre; discriminate.
Qed.

(** X17: a new plan and its status.  Right after [create_research_plan],
    whatever plan was stored under the generated id before,
    [get_workflow_status] tells the owner: status "planning", step 0 of [n]
    steps with [2 <= n <= 4], progress [1/n] although nothing has run, and
    no errors; it tells every other caller nothing ([None]); and
    [get_workflow_results] shows the owner no step result and no error. *)
Theorem new_plan_status :
  forall env uuid_hex8 query user_id svc,
    let svc' :=
      fst (create_research_plan uuid_hex8 (now env) query user_id svc) in
    let plan_id := "plan_" ++ uuid_hex8 in
    let n := length (_analyze_query_and_create_plan query user_id) in
    snd (create_research_plan uuid_hex8 (now env) query user_id svc) = plan_id /\
    (2 <= n <= 4)%nat /\
    get_workflow_status plan_id user_id svc'
    = (svc',
       Some (mkStatusView plan_id query "planning" (1, n) 0 n
                          (clock_iso (now env)) (clock_iso (now env))
                          false 0)) /\
    (forall other, other <> user_id ->
                   get_workflow_status plan_id other svc' = (svc', None)) /\
    (exists summary,
        get_workflow_results env plan_id user_id svc'
        = (svc', Some (mkResultsView plan_id query [] [] "planning" summary)) /\
        completed_steps summary = 0%nat /\ total_steps summary = n) /\
    memory_service svc' = memory_service svc.
Proof.
  intros env uuid_hex8 query user_id svc svc' plan_id n.
  assert (Hn : (2 <= n <= 4)%nat)
    by exact (plan_length query user_id).
  assert (Hget : dict_get plan_id (active_workflows svc')
                 = Some (mkWorkflow plan_id query user_id "planning"
                           (_analyze_query_and_create_plan query user_id) 0
                           (clock_iso (now env)) (clock_iso (now env)) [] []))
    by apply dict_get_set_same.
  split; [reflexivity|]. split; [exact Hn|].
  unfold get_workflow_status, get_workflow_results. rewrite Hget.
  cbn [Workflow.user_id Workflow.query status steps current_step created_at
       updated_at results errors].
  split; [|split; [|split; [|reflexivity]]].
  - rewrite String.eqb_refl. cbn [negb length Nat.ltb Nat.leb Nat.add].
    fold n. destruct (_analyze_query_and_create_plan query user_id) eqn:E;
      [simpl in n; lia|reflexivity].
  - intros other Hother.
    destruct (String.eqb_spec user_id other); [congruence|reflexivity].
  - rewrite String.eqb_refl. cbn [negb]. eexists. split; [reflexivity|].
    split; reflexivity.
Qed.
End Plans.


(* ===================================================================== *)
(** ** What the status of an executed plan tells *)
(* ===================================================================== *)

Section Status.
Import PyStr Workflow.

Lemma not_error_iff r :
  String.eqb (sr_status r) "error" = false <-> sr_status r <> "error".
Proof.
  destruct (String.eqb_spec (sr_status r) "error"); split; congruence.
Qed.

(** The loop leaves alone every result that is not under the id of one of
    its steps. *)
Lemma run_steps_other_keys env u mem k todo :
  forall i w,
    ~ In k (map step_id todo) ->
    dict_get k (results (fst (run_steps env u mem i todo w)))
    = dict_get k (results w).
Proof.
  induction todo as [|s rest IH]; intros i w Hk; cbn [run_steps];
    [reflexivity|].
  simpl in Hk.
  destruct (_execute_workflow_step env s (with_current_step i w) u mem)
    as [r|e]; [|reflexivity].
  destruct (String.eqb (sr_status r) "error").
  - cbn [fst results with_status with_errors with_results with_current_step].
    apply dict_get_set_other. tauto.
  - rewrite IH by tauto.
    cbn [results with_results with_current_step].
    apply dict_get_set_other. tauto.
Qed.

(** A loop that neither broke nor was left has a result that is no error
    for each of its steps, and keeps such results where it found them. *)
Lemma run_steps_all_done env u mem todo :
  forall i w,
    status w <> "failed" ->
    snd (run_steps env u mem i todo w) = Ok tt ->
    status (fst (run_steps env u mem i todo w)) <> "failed" ->
    (forall s, In s todo ->
               exists r,
                 dict_get (step_id s)
                          (results (fst (run_steps env u mem i todo w)))
                 = Some r /\ sr_status r <> "error") /\
    (forall k r0,
        dict_get k (results w) = Some r0 -> sr_status r0 <> "error" ->
        exists r,
          dict_get k (results (fst (run_steps env u mem i todo w)))
          = Some r /\
          sr_status r <> "error") /\
    (todo <> [] ->
     current_step (fst (run_steps env u mem i todo w))
     = (i + length todo - 1)%nat).
Proof.
  induction todo as [|s rest IH]; intros i w Hw Hok Hend.
  - simpl. split; [intros s []|]. split; [eauto|congruence].
  - cbn [run_steps] in *.
    destruct (_execute_workflow_step env s (with_current_step i w) u mem)
      as [r|e]; [|discriminate].
    destruct (String.eqb (sr_status r) "error") eqn:Er.
    + exfalso. apply Hend. reflexivity.
    + apply not_error_iff in Er.
      set (w2 := with_results _ _) in *.
      destruct (IH (S i) w2 Hw Hok Hend) as (I1 & I2 & I3).
      assert (Hs : exists r',
                 dict_get (step_id s)
                   (results (fst (run_steps env u mem (S i) rest w2)))
                 = Some r' /\ sr_status r' <> "error").
      { apply (I2 (step_id s) r); [|exact Er].
        subst w2. cbn [results with_results]. apply dict_get_set_same. }
      split; [|split].
      * intros s' [<-|Hin]; [exact Hs|now apply I1].
      * intros k r0 Hk Hr0. destruct (string_dec (step_id s) k) as [<-|Hne];
          [exact Hs|].
        apply (I2 k r0); [|exact Hr0].
        subst w2. cbn [results with_results].
        rewrite dict_get_set_other by exact Hne. exact Hk.
      * intros _. destruct rest as [|s' rest'].
        -- simpl. subst w2. cbn. lia.
        -- rewrite I3 by discriminate. simpl length. lia.
Qed.

(** A loop that broke: the step it stopped at. *)
Lemma run_steps_broke env u mem todo :
  forall i w,
    status w <> "failed" ->
    status (fst (run_steps env u mem i todo w)) = "failed" ->
    exists pre s post r,
      todo = (pre ++ s :: post)%list /\
      dict_get (step_id s) (results (fst (run_steps env u mem i todo w)))
      = Some r /\
      sr_status r = "error" /\
      errors (fst (run_steps env u mem i todo w))
      = py_append (errors w) (step_error_line s r) /\
      current_step (fst (run_steps env u mem i todo w)) = (i + length pre)%nat /\
      (forall id, ~ In id (map step_id pre) -> id <> step_id s ->
                  dict_get id (results (fst (run_steps env u mem i todo w)))
                  = dict_get id (results w)).
Proof.
  induction todo as [|s rest IH]; intros i w Hw Hend.
  - simpl in Hend. contradiction.
  - cbn [run_steps] in *.
    destruct (_execute_workflow_step env s (with_current_step i w) u mem)
      as [r|e]; [|cbn in Hend; contradiction].
    destruct (String.eqb (sr_status r) "error") eqn:Er.
    + exists [], s, rest, r. cbn.
      split; [reflexivity|]. split; [apply dict_get_set_same|].
      split; [now apply String.eqb_eq|]. split; [reflexivity|].
      split; [lia|].
      intros id _ Hid. apply dict_get_set_other. congruence.
    + set (w2 := with_results _ _) in *.
      destruct (IH (S i) w2 Hw Hend)
        as (pre & s' & post & r' & -> & Hr & Hst & Herr & Hcur & Hoth).
      exists (s :: pre), s', post, r'.
      split; [reflexivity|]. split; [exact Hr|]. split; [exact Hst|].
      split; [exact Herr|]. split; [rewrite Hcur; simpl; lia|].
      intros id Hid Hne. rewrite Hoth; [|simpl in Hid; tauto|exact Hne].
      subst w2. cbn [results with_results].
      apply dict_get_set_other. simpl in Hid. tauto.
Qed.

(** X18: what the status tells about the steps after
    [execute_research_plan] by the owner.  The call returns the stored
    plan in status "completed", "failed" or "error", or it raises an
    exception that is no [Exception] and leaves the plan "executing".
    Status "failed" means that some step of the plan has an "error"
    result, that the error list got that step's message, that the current
    step is that step, that no step after it ran (every result under
    another id than those of the steps up to it is as before) and that
    the memory graph is untouched.  Status "completed" or "error" means
    that every step of the plan has a result that is no error and that the
    last step was reached.  Status "executing" means that a registered
    tool raised the exception while the current step was dispatched, that
    every step before it has a result that is no error, that no step from
    it on has written a result, and that the error list and the memory
    graph are untouched. *)
Theorem execution_status_sound :
  forall env svc plan_id w,
    dict_get plan_id (active_workflows svc) = Some w ->
    exists svc' w',
      fst (execute_research_plan env plan_id (user_id w) svc) = svc' /\
      dict_get plan_id (active_workflows svc') = Some w' /\
      ((snd (execute_research_plan env plan_id (user_id w) svc) = Ok w' /\
        (status w' = "completed" \/ status w' = "failed" \/
         status w' = "error")) \/
       (exists e,
           snd (execute_research_plan env plan_id (user_id w) svc) = Raise e /\
           is_exception e = false /\ status w' = "executing")) /\
      (status w' = "failed" ->
       exists pre s post r,
         steps w = (pre ++ s :: post)%list /\
         dict_get (step_id s) (results w') = Some r /\
         sr_status r = "error" /\
         errors w' = py_append (errors w) (step_error_line s r) /\
         current_step w' = length pre /\
         (forall id, ~ In id (map step_id pre) -> id <> step_id s ->
                     dict_get id (results w') = dict_get id (results w)) /\
         memory_service svc' = memory_service svc) /\
      (status w' = "completed" \/ status w' = "error" ->
       (forall s, In s (steps w) ->
                  exists r, dict_get (step_id s) (results w') = Some r /\
                            sr_status r <> "error") /\
       (steps w <> [] -> current_step w' = (length (steps w) - 1)%nat)) /\
      (status w' = "executing" ->
       exists pre s post e name tool tool_input,
         steps w = (pre ++ s :: post)%list /\
         snd (execute_research_plan env plan_id (user_id w) svc) = Raise e /\
         get_tool name (registry env) = Some tool /\
         tool tool_input = Raise e /\
         current_step w' = length pre /\
         (forall s0, In s0 pre ->
                     exists r, dict_get (step_id s0) (results w') = Some r /\
                               sr_status r <> "error") /\
         (forall id, ~ In id (map step_id pre) ->
                     dict_get id (results w') = dict_get id (results w)) /\
         errors w' = errors w /\
         memory_service svc' = memory_service svc).
Proof.
  intros env svc pid w Hget.
  rewrite (execute_owner env svc pid w Hget). cbn [fst snd].
  set (u := user_id w). set (mem := memory_service svc).
  eexists. eexists. split; [reflexivity|].
  split; [cbn [active_workflows]; apply dict_get_set_same|].
  cbn [memory_service].
  assert (H0 : status (started env w) <> "failed") by (simpl; discriminate).
  destruct (run_plan_cases env u w mem)
    as [(e & He & Hne & Hr)|[HR [[Hf Hr]|[Hnf [[Hs Hr]|[e0 [Hs Hr]]]]]]];
    rewrite Hr; cbn [fst snd].
  - (* an exception left the loop *)
    destruct (run_steps_escape _ _ _ _ _ _ _ He) as (_ & Es & Ee).
    destruct (run_steps_escaped _ _ _ _ _ _ _ He)
      as (pre & s & post & Hsteps & Pok & Pst & Pd & Pw).
    cbn [Nat.add] in Pd, Pw.
    split; [right; exists e; auto|].
    split; [intros Hf; rewrite Es in Hf; discriminate|].
    split; [intros [Hc|Hc]; rewrite Es in Hc; discriminate|].
    intros _.
    destruct (escape_from_tool _ _ _ _ _ _ Pd Hne)
      as (name & tool & tool_input & Ht & Hraise).
    exists pre, s, post, e, name, tool, tool_input.
    split; [exact Hsteps|]. split; [reflexivity|].
    split; [exact Ht|]. split; [exact Hraise|].
    rewrite Pw. cbn [current_step results with_current_step].
    split; [reflexivity|].
    assert (Hpre : status (fst (run_steps env u mem 0 pre (started env w)))
                   <> "failed") by (rewrite Pst; exact H0).
    destruct (run_steps_all_done env u mem pre 0 (started env w) H0 Pok Hpre)
      as (A1 & _).
    split; [exact A1|].
    split; [intros id Hid;
            exact (run_steps_other_keys env u mem id pre 0 (started env w)
                     Hid)|].
    split; [|reflexivity].
    rewrite Pw in Ee. exact Ee.
  - (* the loop broke *)
    split; [left; split; [reflexivity|right; left; exact Hf]|].
    split; [intros _|split].
    + destruct (run_steps_broke env u mem (steps w) 0 (started env w) H0 Hf)
        as (pre & s & post & r & Hsteps & Hr' & Hst & Herr & Hcur & Hoth).
      exists pre, s, post, r. cbn. repeat split; auto.
    + intros [Hc|Hc]; cbn in Hc; rewrite Hf in Hc; discriminate.
    + intros Hc. cbn in Hc. rewrite Hf in Hc. discriminate.
  - (* the loop ended, the results were stored *)
    destruct (run_steps_all_done env u mem (steps w) 0 (started env w)
                H0 HR Hnf) as (A1 & _ & A3).
    split; [left; split; [reflexivity|left; reflexivity]|].
    split; [intros Hf; cbn in Hf; discriminate|].
    split; [|intros Hc; cbn in Hc; discriminate].
    intros _. split; [exact A1|].
    intros Hne0. cbn. rewrite (A3 Hne0). reflexivity.
  - (* the loop ended, storing raised *)
    destruct (run_steps_all_done env u mem (steps w) 0 (started env w)
                H0 HR Hnf) as (A1 & _ & A3).
    split; [left; split; [reflexivity|right; right; reflexivity]|].
    split; [intros Hf; cbn in Hf; discriminate|].
    split; [|intros Hc; cbn in Hc; discriminate].
    intros _. split; [exact A1|].
    intros Hne0. cbn. rewrite (A3 Hne0). reflexivity.
Qed.

Lemma execution_status_sound_witness :
  exists w',
    dict_get Sample.plan0
      (active_workflows
         (fst (execute_research_plan Sample.env_cancelled_search Sample.plan0
                 "u1" Sample.svc_planned))) = Some w' /\
    status w' = "executing" /\
    snd (execute_research_plan Sample.env_cancelled_search Sample.plan0 "u1"
                               Sample.svc_planned)
    = Raise (mkExn "CancelledError" "").
Proof.
  destruct (execution_status_sound Sample.env_cancelled_search
              Sample.svc_planned Sample.plan0 Sample.planned0 eq_refl)
    as (svc' & w' & Hfst & Hget & Hout & _).
  exists w'. cbn [user_id Sample.planned0] in Hfst, Hout.
  rewrite Hfst. split; [exact Hget|].
  destruct Hout as [[Hok _]|(e & He & _ & Hst)].
  - exfalso. vm_compute in Hok. discriminate Hok.
  - split; [exact Hst|]. rewrite He. vm_compute in He.
    inversion He. reflexivity.
Defined.
End Status.


(* ===================================================================== *)
(** ** Step by step *)
(* ===================================================================== *)

Section Steps.
Import PyStr Workflow Payloads.

(** One turn of the loop on a step whose result is no error. *)
Lemma run_steps_next env u mem i s rest w r :
  _execute_workflow_step env s (with_current_step i w) u mem = Ok r ->
  sr_status r <> "error" ->
  run_steps env u mem i (s :: rest) w
  = run_steps env u mem (S i) rest
      (with_results (dict_set (step_id s) r (results w))
                    (with_current_step i w)).
Proof.
  intros Hr H. cbn [run_steps]. rewrite Hr.
  apply not_error_iff in H. rewrite H. reflexivity.
Qed.

Lemma step_retrieval env s w u mem :
  step_type s = "retrieval" ->
  _execute_workflow_step env s w u mem
  = Ok (completed_with (now env) (retrieval_of w u mem) "memory_service").
Proof.
  intros H. unfold _execute_workflow_step, dispatch_step. rewrite H.
  reflexivity.
Qed.

Lemma step_synthesis env s w u mem d :
  step_type s = "synthesis" ->
  result_of "context_retrieval" w = PyDict d ->
  _execute_workflow_step env s w u mem
  = Ok (completed_with (now env)
          (synthesis_of env w
             (match dict_get "contexts" d with
              | Some x => x
              | None => PyList []
              end))
          "workflow_synthesis").
Proof.
  intros H Hd. unfold _execute_workflow_step, dispatch_step. rewrite H.
  cbn [String.eqb Ascii.eqb Bool.eqb]. unfold _execute_synthesis_step.
  rewrite Hd. reflexivity.
Qed.

Lemma step_search_ok env s w u mem tool out :
  step_type s = "search" ->
  _check_dependencies s w = true ->
  get_tool "web_search" (registry env) = Some tool ->
  tool (mkToolInput (query w) (step_id s) u) = Ok out ->
  _execute_workflow_step env s w u mem
  = Ok (completed_with (now env) (data out) "web_search").
Proof.
  intros H Hd Ht Ho. unfold _execute_workflow_step, dispatch_step. rewrite H.
  cbn [String.eqb Ascii.eqb Bool.eqb]. unfold _execute_search_step.
  rewrite Hd, Ht, Ho. reflexivity.
Qed.

Lemma step_analysis_ok env s w u mem tool out :
  step_type s = "analysis" ->
  _check_dependencies s w = true ->
  get_tool "document_ingestion" (registry env) = Some tool ->
  tool (mkToolInput ("analysis_" ++ take 50 (query w)) (step_id s) u) = Ok out ->
  _execute_workflow_step env s w u mem
  = Ok (completed_with (now env) (data out) "document_ingestion").
Proof.
  intros H Hd Ht Ho. unfold _execute_workflow_step, dispatch_step. rewrite H.
  cbn [String.eqb Ascii.eqb Bool.eqb]. unfold _execute_analysis_step.
  rewrite Hd, Ht, Ho. reflexivity.
Qed.
End Steps.


(* ===================================================================== *)
(** ** Plans with an analysis step and no search step *)
(* ===================================================================== *)

Section AnalysisAlone.
Import PyStr Workflow Payloads.

Lemma run_plan_results env u w mem :
  results (fst (fst (run_plan env u w mem)))
  = results (fst (run_steps env u mem 0 (steps w) (started env w))) /\
  (snd (run_steps env u mem 0 (steps w) (started env w)) = Ok tt ->
   status (fst (run_steps env u mem 0 (steps w) (started env w))) <> "failed" ->
   snd (run_plan env u w mem) = Ok tt /\
   (status (fst (fst (run_plan env u w mem))) = "completed" \/
    status (fst (fst (run_plan env u w mem))) = "error")).
Proof.
  destruct (run_plan_cases env u w mem)
    as [(e & He & Hne & Hr)|[HR [[Hf Hr]|[Hnf [[Hs Hr]|[e0 [Hs Hr]]]]]]];
    rewrite Hr; cbn.
  - split; [reflexivity|]. intros H. rewrite H in He. discriminate.
  - split; [reflexivity|]. intros _ H. contradiction.
  - split; [reflexivity|]. intros _ _. split; [reflexivity|now left].
  - split; [reflexivity|]. intros _ _. split; [reflexivity|now right].
Qed.

(** X19: document analysis does not run without a web search.  Take a plan
    for a query that contains a document word and no question word, on
    which no web search has completed (a new plan, for one).  Whatever
    tools are registered, executing it records the analysis step as
    "skipped" with reason "Dependencies not met" and does not call the
    document tool; retrieval and synthesis complete, and the plan does not
    fail. *)
Theorem analysis_needs_search :
  forall env svc plan_id w q,
    dict_get plan_id (active_workflows svc) = Some w ->
    steps w = _analyze_query_and_create_plan q (user_id w) ->
    any_in question_words (lower q) = false ->
    any_in document_words (lower q) = true ->
    is_completed (dict_get "web_search" (results w)) = false ->
    exists svc' w',
      execute_research_plan env plan_id (user_id w) svc = (svc', Ok w') /\
      dict_get "document_analysis" (results w')
      = Some (mkStepResult "skipped" (Some "Dependencies not met")
                           None None None None) /\
      (exists r, dict_get "context_retrieval" (results w') = Some r /\
                 sr_status r = "completed") /\
      (exists r, dict_get "synthesis" (results w') = Some r /\
                 sr_status r = "completed") /\
      (status w' = "completed" \/ status w' = "error").
Proof.
  intros env svc pid w q Hget Hsteps Hq Hd Hweb.
  rewrite plan_shape, Hq, Hd in Hsteps. cbn [app] in Hsteps.
  rewrite (execute_owner env svc pid w Hget).
  pose proof (run_plan_results env (user_id w) w (memory_service svc))
    as [Hres Hstat].
  set (P := run_plan env (user_id w) w (memory_service svc)) in *.
  (* the three turns of the loop *)
  set (u := user_id w) in *. set (mem := memory_service svc) in *.
  set (w0 := started env w) in *.
  assert (H1 : _execute_workflow_step env document_analysis_step
                 (with_current_step 0 w0) u mem = Ok skipped).
  { pose proof (gated_dispatch env document_analysis_step
                  (with_current_step 0 w0) u mem (or_intror eq_refl)) as G.
    assert (C : _check_dependencies document_analysis_step
                  (with_current_step 0 w0) = false).
    { unfold _check_dependencies. cbn [depends_on document_analysis_step forallb].
      change (results (with_current_step 0 w0)) with (results w).
      now rewrite Hweb. }
    now rewrite C in G. }
  rewrite Hsteps in Hres, Hstat.
  rewrite (run_steps_next env u mem 0 document_analysis_step _ w0 skipped H1)
    in Hres, Hstat by discriminate.
  set (w1 := with_results _ (with_current_step 0 w0)) in *.
  rewrite (run_steps_next env u mem 1 context_retrieval_step _ w1 _
             (step_retrieval env context_retrieval_step _ u mem eq_refl))
    in Hres, Hstat by discriminate.
  set (w2 := with_results _ (with_current_step 1 w1)) in *.
  assert (H3 : exists payload,
             _execute_workflow_step env synthesis_step
               (with_current_step 2 w2) u mem
             = Ok (completed_with (now env) payload "workflow_synthesis")).
  { eexists. eapply step_synthesis; [reflexivity|].
    unfold result_of. subst w2. cbn [results with_results with_current_step].
    rewrite dict_get_set_same. reflexivity. }
  destruct H3 as [payload H3].
  rewrite (run_steps_next env u mem 2 synthesis_step _ w2 _ H3)
    in Hres, Hstat by discriminate.
  cbn [run_steps fst snd] in Hres, Hstat.
  cbn [results with_results with_current_step step_id synthesis_step
       context_retrieval_step document_analysis_step] in Hres.
  destruct (Hstat eq_refl) as [Hok Hst].
  { cbn. subst w0. cbn. discriminate. }
  rewrite Hok.
  eexists. exists (fst (fst P)). split; [reflexivity|].
  rewrite Hres.
  split; [|split; [|split]].
  - rewrite dict_get_set_other by discriminate.
    subst w2. cbn [results with_results with_current_step].
    rewrite dict_get_set_other by discriminate.
    subst w1. cbn [results with_results with_current_step].
    apply dict_get_set_same.
  - eexists. rewrite dict_get_set_other by discriminate.
    subst w2. cbn [results with_results with_current_step].
    rewrite dict_get_set_same. split; reflexivity.
  - eexists. rewrite dict_get_set_same. split; reflexivity.
  - exact Hst.
Qed.

Lemma analysis_needs_search_witness :
  exists w',
    snd (execute_research_plan Sample.env_broken_search Sample.plan0 "u1"
                               Sample.svc_paper) = Ok w' /\
    dict_get "document_analysis" (results w') = Some skipped.
Proof.
  destruct (analysis_needs_search Sample.env_broken_search Sample.svc_paper
              Sample.plan0
              (mkWorkflow Sample.plan0 "Summarize this research paper" "u1"
                          "planning"
                          [document_analysis_step; context_retrieval_step;
                           synthesis_step] 0
                          (clock_iso Sample.clock0) (clock_iso Sample.clock0)
                          [] [])
              "Summarize this research paper"
              eq_refl eq_refl eq_refl eq_refl eq_refl)
    as (svc' & w' & Hex & Hskip & _).
  exists w'. simpl in Hex. rewrite Hex. split; [reflexivity|exact Hskip].
Defined.
End AnalysisAlone.


(* ===================================================================== *)
(** ** A plan run with working tools *)
(* ===================================================================== *)

Section WorkingTools.
Import PyStr Workflow Payloads.

Variable env : Env.
Variables web_search_tool doc_tool : Tool.
Hypothesis web_search_registered :
  get_tool "web_search" (registry env) = Some web_search_tool.
Hypothesis web_search_works : never_raises web_search_tool.
Hypothesis doc_registered :
  get_tool "document_ingestion" (registry env) = Some doc_tool.
Hypothesis doc_works : never_raises doc_tool.

(** The last two turns of the loop: retrieval and synthesis complete on any
    workflow. *)
Lemma run_retrieval_synthesis u mem i w1 :
  exists r_retrieval payload,
    let w3 :=
      fst (run_steps env u mem i [context_retrieval_step; synthesis_step]
                     w1) in
    snd (run_steps env u mem i [context_retrieval_step; synthesis_step] w1)
    = Ok tt /\
    sr_status r_retrieval = "completed" /\
    results w3
    = dict_set "synthesis"
        (completed_with (now env) (PyDict payload) "workflow_synthesis")
        (dict_set "context_retrieval" r_retrieval (results w1)) /\
    status w3 = status w1 /\ errors w3 = errors w1 /\
    query w3 = query w1 /\ user_id w3 = user_id w1 /\
    exists sources, dict_get "sources" payload = Some sources.
Proof.
  cbv zeta.
  rewrite (run_steps_next env u mem i context_retrieval_step _ w1 _
             (step_retrieval env context_retrieval_step _ u mem eq_refl))
    by discriminate.
  set (r2 := completed_with (now env)
               (retrieval_of (with_current_step i w1) u mem) "memory_service").
  set (w2 := with_results _ (with_current_step i w1)).
  assert (H3 : exists payload,
             _execute_workflow_step env synthesis_step
               (with_current_step (S i) w2) u mem
             = Ok (completed_with (now env) (PyDict payload)
                                  "workflow_synthesis")
             /\ exists sources, dict_get "sources" payload = Some sources).
  { eexists. split.
    - eapply step_synthesis; [reflexivity|].
      unfold result_of. subst w2.
      cbn [results with_results with_current_step].
      rewrite dict_get_set_same. reflexivity.
    - eexists. reflexivity. }
  destruct H3 as (payload & H3 & Hsources).
  exists r2, payload.
  rewrite (run_steps_next env u mem (S i) synthesis_step _ w2 _ H3)
    by discriminate.
  cbn [run_steps fst snd].
  split; [reflexivity|].
  split; [reflexivity|]. split; [reflexivity|]. split; [reflexivity|].
  split; [reflexivity|]. split; [reflexivity|]. split; [reflexivity|].
  exact Hsources.
Qed.

(** The turns before them, on a workflow without results: the search step
    completes, and the analysis step completes after a search step and is
    skipped without one. *)
Lemma run_front u mem (question document : bool) w0 :
  results w0 = [] ->
  let front :=
    ((if question then [web_search_step] else [])
     ++ (if document then [document_analysis_step] else []))%list in
  let w1 := fst (run_steps env u mem 0 front w0) in
  snd (run_steps env u mem 0 front w0) = Ok tt /\
  status w1 = status w0 /\ errors w1 = errors w0 /\
  query w1 = query w0 /\ user_id w1 = user_id w0 /\
  (forall s, In s front ->
             exists r, dict_get (step_id s) (results w1) = Some r /\
                       (sr_status r = "completed" \/
                        (question = false /\ r = skipped))) /\
  (forall k, k <> "web_search" -> k <> "document_analysis" ->
             dict_get k (results w1) = None).
Proof.
  intros Hres front w1. subst front w1.
  assert (Hs : forall i w,
             exists out,
               _execute_workflow_step env web_search_step
                 (with_current_step i w) u mem
               = Ok (completed_with (now env) (data out) "web_search")).
  { intros i w.
    destruct (web_search_works
                (mkToolInput (query (with_current_step i w)) "web_search" u))
      as [out Ho].
    exists out. eapply step_search_ok; eauto. }
  destruct question, document; cbn [app].
  - (* search, then analysis *)
    destruct (Hs 0%nat w0) as [out Ho].
    rewrite (run_steps_next env u mem 0 web_search_step _ w0 _ Ho)
      by discriminate.
    set (w1 := with_results _ (with_current_step 0 w0)).
    destruct (doc_works
                (mkToolInput ("analysis_" ++ take 50 (query (with_current_step 1 w1)))
                             "document_analysis" u)) as [out2 Ho2].
    assert (Ha : _execute_workflow_step env document_analysis_step
                   (with_current_step 1 w1) u mem
                 = Ok (completed_with (now env) (data out2)
                                      "document_ingestion")).
    { eapply step_analysis_ok; eauto.
      unfold _check_dependencies. subst w1.
      cbn [depends_on document_analysis_step forallb results with_results
           with_current_step step_id web_search_step].
      rewrite dict_get_set_same. reflexivity. }
    rewrite (run_steps_next env u mem 1 document_analysis_step _ w1 _ Ha)
      by discriminate.
    cbn [run_steps fst snd]. subst w1.
    cbn [status errors query user_id results with_results with_current_step
         step_id web_search_step document_analysis_step].
    rewrite Hres. repeat split.
    + intros s [<-|[<-|[]]]; eexists; (split; [reflexivity|now left]).
    + intros k Hk1 Hk2. simpl.
      destruct (String.eqb_spec k "web_search"); [contradiction|].
      destruct (String.eqb_spec k "document_analysis"); [contradiction|].
      reflexivity.
  - (* search alone *)
    destruct (Hs 0%nat w0) as [out Ho].
    rewrite (run_steps_next env u mem 0 web_search_step _ w0 _ Ho)
      by discriminate.
    cbn [run_steps fst snd].
    cbn [status errors query user_id results with_results with_current_step
         step_id web_search_step].
    rewrite Hres. repeat split.
    + intros s [<-|[]]; eexists; (split; [reflexivity|now left]).
    + intros k Hk1 Hk2. simpl.
      destruct (String.eqb_spec k "web_search"); [contradiction|reflexivity].
  - (* analysis alone: skipped *)
    assert (Ha : _execute_workflow_step env document_analysis_step
                   (with_current_step 0 w0) u mem = Ok skipped).
    { pose proof (gated_dispatch env document_analysis_step
                    (with_current_step 0 w0) u mem (or_intror eq_refl)) as G.
      assert (C : _check_dependencies document_analysis_step
                    (with_current_step 0 w0) = false).
      { unfold _check_dependencies.
        cbn [depends_on document_analysis_step forallb results
             with_current_step].
        rewrite Hres. reflexivity. }
      now rewrite C in G. }
    rewrite (run_steps_next env u mem 0 document_analysis_step _ w0 _ Ha)
      by discriminate.
    cbn [run_steps fst snd].
    cbn [status errors query user_id results with_results with_current_step
         step_id document_analysis_step].
    rewrite Hres. repeat split.
    + intros s [<-|[]]; eexists; (split; [reflexivity|now right]).
    + intros k Hk1 Hk2. simpl.
      destruct (String.eqb_spec k "document_analysis");
        [contradiction|reflexivity].
  - (* neither *)
    cbn [run_steps fst snd]. repeat split; [intros s []|].
    intros k _ _. now rewrite Hres.
Qed.
End WorkingTools.

Section HappyPath.
Import PyStr Workflow Payloads.

(** X20: planning and executing with working tools.  Let "web_search" and
    "document_ingestion" be registered with tools that never raise, let
    [json.dumps] accept every value, and let the memory graph keep contexts
    under "context_" keys (as every reachable graph does).  Then for every
    query and user, executing the plan that [create_research_plan] has just
    stored ends in status "completed" without errors; every step of the plan
    has a "completed" result, except that the analysis step of a plan
    without a search step is "skipped"; and the memory graph holds, under
    "context_" + timestamp, a context for the query owned by the user. *)
Theorem plan_completes_with_working_tools :
  forall env web_search_tool doc_tool uuid_hex8 q u svc,
    get_tool "web_search" (registry env) = Some web_search_tool ->
    never_raises web_search_tool ->
    get_tool "document_ingestion" (registry env) = Some doc_tool ->
    never_raises doc_tool ->
    (forall v, exists text, json_dumps env v = Ok text) ->
    Memory.graph_ok (memory_service svc) ->
    exists svc2 w',
      execute_research_plan env ("plan_" ++ uuid_hex8) u
        (fst (create_research_plan uuid_hex8 (now env) q u svc))
      = (svc2, Ok w') /\
      status w' = "completed" /\
      errors w' = [] /\
      steps w' = _analyze_query_and_create_plan q u /\
      (forall s,
          In s (steps w') ->
          exists r,
            dict_get (step_id s) (results w') = Some r /\
            (sr_status r = "completed" \/
             (s = document_analysis_step /\
              any_in question_words (lower q) = false /\ r = skipped))) /\
      (exists i p t,
          dict_get ("context_" ++ clock_timestamp (now env))
                   (Memory.nodes (memory_service svc2))
          = Some (Memory.ResearchContext i p t) /\
          Memory.cp_query p = q /\ Memory.cp_user_id p = u) /\
      Memory.graph_ok (memory_service svc2).
Proof.
  intros env ws doc uuid_hex8 q u svc Hws Hwsok Hdoc Hdocok Hjson Hmem.
  unfold create_research_plan. cbn [fst].
  set (pid := "plan_" ++ uuid_hex8).
  set (W0 := mkWorkflow pid q u "planning" (_analyze_query_and_create_plan q u)
                        0 (clock_iso (now env)) (clock_iso (now env)) [] []).
  set (svc1 := mkService (dict_set pid W0 (active_workflows svc))
                         (memory_service svc)).
  pose proof (execute_owner env svc1 pid W0 (dict_get_set_same _ _ _ _)) as E.
  change (Workflow.user_id W0) with u in E.
  change (memory_service svc1) with (memory_service svc) in E.
  rewrite E. clear E.
  set (mem := memory_service svc) in *.
  (* the loop *)
  set (question := any_in question_words (lower q)).
  set (document := any_in document_words (lower q)).
  set (front := ((if question then [web_search_step] else [])
                 ++ (if document then [document_analysis_step] else []))%list).
  assert (Hplan : steps W0
                  = (front ++ [context_retrieval_step; synthesis_step])%list).
  { cbn [steps W0]. rewrite plan_shape. subst front question document.
    now rewrite app_assoc. }
  pose proof (run_front env ws doc Hws Hwsok Hdoc Hdocok u mem
                question document (started env W0) eq_refl) as F.
  cbv zeta in F. fold front in F.
  set (wF := fst (run_steps env u mem 0 front (started env W0))) in *.
  destruct F as (Fok & Fst & Ferr & Fq & Fu & Fsteps & Fother).
  destruct (run_retrieval_synthesis env u mem (0 + length front) wF)
    as (r2 & payload & T).
  cbv zeta in T.
  assert (Hend : run_steps env u mem 0 (steps W0) (started env W0)
                 = run_steps env u mem (0 + length front)
                     [context_retrieval_step; synthesis_step] wF).
  { rewrite Hplan, run_steps_app by (cbn; discriminate).
    rewrite Fok. fold wF. rewrite Fst. reflexivity. }
  set (R3 := run_steps env u mem (0 + length front)
                       [context_retrieval_step; synthesis_step] wF) in *.
  set (w3 := fst R3) in *.
  destruct T as (Tok & Tr2 & Tres & Tst & Terr & Tq & Tu
                 & (sources & Tsources)).
  assert (Hst3 : status w3 = "executing") by (rewrite Tst, Fst; reflexivity).
  (* storing the results *)
  destruct (Hjson (PyDict payload)) as [text Htext].
  destruct (store_context_ok (set_order env) (now env) q
              (Memory.mkContextData (Some text) (Some sources)
                                    (Some (PyFloat "1.0")))
              u mem Hmem) as (g' & Hstore & Hok' & _).
  assert (Hsyn : result_of "synthesis" (with_status "completed" w3)
                 = PyDict payload).
  { unfold result_of. cbn [results with_status]. rewrite Tres.
    rewrite dict_get_set_same. reflexivity. }
  assert (Hpersist : _store_workflow_results env (with_status "completed" w3)
                       u mem = (g', Ok tt)).
  { unfold _store_workflow_results. rewrite Hsyn.
    assert (Htrue : py_truthy (PyDict payload) = true)
      by (destruct payload; [discriminate|reflexivity]).
    rewrite Htrue, Htext. cbn [py_get]. rewrite Tsources.
    cbn [query with_status]. rewrite Tq, Fq.
    change (query (started env W0)) with q. rewrite Hstore. reflexivity. }
  destruct (run_plan_cases env u W0 mem)
    as [(e & He & _)|[HR [[Hf _]|[_ [[_ Hr]|[e0 [Hs _]]]]]]].
  - rewrite Hend in He. fold R3 in He. rewrite Tok in He. discriminate.
  - rewrite Hend in Hf. fold R3 w3 in Hf. rewrite Hst3 in Hf. discriminate.
  - rewrite Hend in Hr. fold R3 w3 in Hr. rewrite Hpersist in Hr.
    cbn [fst] in Hr.
    rewrite Hr. cbn [fst snd]. eexists. eexists. split; [reflexivity|].
    cbn [status errors steps results with_updated_at with_status
         memory_service].
    split; [reflexivity|]. split; [rewrite Terr, Ferr; reflexivity|].
    assert (Hsteps3 : steps w3 = _analyze_query_and_create_plan q u).
    { subst w3 R3 wF.
      destruct (run_steps_frame env u mem
                  [context_retrieval_step; synthesis_step] (0 + length front)
                  (fst (run_steps env u mem 0 front (started env W0))))
        as (_ & _ & _ & E1 & _).
      destruct (run_steps_frame env u mem front 0 (started env W0))
        as (_ & _ & _ & E2 & _).
      cbv zeta in E1, E2. rewrite E1, E2. reflexivity. }
    split; [exact Hsteps3|].
    split; [|split; [|exact Hok']].
    + intros s Hs. rewrite Hsteps3 in Hs.
      change (_analyze_query_and_create_plan q u) with (steps W0) in Hs.
      rewrite Hplan in Hs. rewrite Tres.
      apply in_app_or in Hs. destruct Hs as [Hs|[<-|[<-|[]]]].
      * destruct (Fsteps s Hs) as (r & Hr' & Hkind).
        assert (Hid : step_id s = "web_search" \/
                      step_id s = "document_analysis").
        { subst front. destruct question, document; simpl in Hs;
            intuition (subst; auto). }
        exists r. split.
        -- rewrite !dict_get_set_other
             by (destruct Hid as [-> | ->]; discriminate).
           exact Hr'.
        -- destruct Hkind as [Hc|[Hq ->]]; [now left|right].
           split; [|split; [exact Hq|reflexivity]].
           subst front. rewrite Hq in Hs.
           destruct document; simpl in Hs; intuition.
      * exists r2. split; [|now left].
        rewrite dict_get_set_other by discriminate.
        apply dict_get_set_same.
      * eexists. split; [apply dict_get_set_same|now left].
    + pose proof (store_context_node (set_order env) (now env) q
                    (Memory.mkContextData (Some text) (Some sources)
                                          (Some (PyFloat "1.0")))
                    u mem) as K.
      rewrite Hstore in K. cbn [fst] in K.
      eexists _, _, _. split; [exact K|].
      split; reflexivity.
  - rewrite Hend in Hs. fold R3 w3 in Hs. rewrite Hpersist in Hs.
    discriminate.
Qed.

Lemma plan_completes_with_working_tools_witness :
  exists w',
    snd (execute_research_plan Sample.env_working "plan_0a1b2c3d" "u1"
           (fst (create_research_plan "0a1b2c3d" Sample.clock0
                   "What does this research paper say?" "u1" new_service)))
    = Ok w' /\
    status w' = "completed" /\ errors w' = [].
Proof.
  destruct (plan_completes_with_working_tools
              Sample.env_working Sample.working_tool Sample.working_tool
              "0a1b2c3d" "What does this research paper say?" "u1" new_service
              eq_refl (fun _ => ex_intro _ _ eq_refl)
              eq_refl (fun _ => ex_intro _ _ eq_refl)
              (fun _ => ex_intro _ _ eq_refl) graph_ok_empty)
    as (svc2 & w' & Hex & Hst & Herr & _).
  exists w'. split; [exact (f_equal snd Hex)|auto].
Defined.
End HappyPath.


(* ===================================================================== *)
(** ** What executing a plan does to the memory *)
(* ===================================================================== *)

Section ServiceMemory.
Import PyStr Workflow.

Lemma store_results_effect env w u mem :
  fst (_store_workflow_results env w u mem) = mem \/
  exists content sources,
    fst (_store_workflow_results env w u mem)
    = fst (Memory.store_context (set_order env) (now env) (query w)
             (Memory.mkContextData (Some content) (Some sources)
                                   (Some (PyFloat "1.0")))
             u mem).
Proof.
  unfold _store_workflow_results.
  destruct (py_truthy _); [|now left].
  destruct (json_dumps env _) as [content|e]; [|now left].
  destruct (py_get _ _ _) as [sources|e]; [|now left].
  right. exists content, sources.
  destruct (Memory.store_context _ _ _ _ _ _) as [m [c|e]]; reflexivity.
Qed.

(** The memory after [run_plan]: untouched when the loop broke or an
    exception left it, else what [_store_workflow_results] made of it. *)
Lemma run_plan_memory env u w mem :
  let w_end := fst (run_steps env u mem 0 (steps w) (started env w)) in
  (snd (fst (run_plan env u w mem)) = mem \/
   snd (fst (run_plan env u w mem))
   = fst (_store_workflow_results env (with_status "completed" w_end) u mem))
  /\
  (status (fst (fst (run_plan env u w mem))) = "failed" ->
   snd (fst (run_plan env u w mem)) = mem) /\
  (forall e,
      snd (run_plan env u w mem) = Raise e ->
      snd (fst (run_plan env u w mem)) = mem /\
      is_exception e = false /\
      status (fst (fst (run_plan env u w mem))) = "executing").
Proof.
  intros w_end.
  destruct (run_plan_cases env u w mem)
    as [(e & He & Hne & Hr)|[HR [[Hf Hr]|[Hnf [[Hs Hr]|[e0 [Hs Hr]]]]]]];
    rewrite Hr; cbn [fst snd].
  - split; [now left|]. split; [reflexivity|].
    intros e' [= <-]. split; [reflexivity|]. split; [exact Hne|].
    destruct (run_steps_escape _ _ _ _ _ _ _ He) as (_ & Es & _).
    exact Es.
  - split; [now left|]. split; [reflexivity|]. discriminate.
  - split; [now right|]. split; [cbn; discriminate|discriminate].
  - split; [now right|]. split; [cbn; discriminate|discriminate].
Qed.

(** X21: what [execute_research_plan] does to the memory.  Whatever the
    tools and [json.dumps] do, one call either leaves the memory graph as
    it was or makes exactly one [store_context] call on it, for the plan's
    own query, the caller as owner and relevance hint 1.0.  So a memory
    graph built from the empty one by [store_context] calls stays such a
    graph.  A call that raises leaves the memory as it was: when it raises
    an [Exception] (the [ValueError] of an unknown plan or of a caller who
    is not the owner) nothing in the service has changed; when it raises
    what is no [Exception] (a tool was cancelled, say) the plan is left in
    status "executing".  A plan that ends "failed" leaves the memory as it
    was. *)
Theorem execute_memory_effect :
  forall env plan_id u svc,
    let svc' := fst (execute_research_plan env plan_id u svc) in
    let outcome := snd (execute_research_plan env plan_id u svc) in
    (memory_service svc' = memory_service svc \/
     exists w content sources,
       dict_get plan_id (active_workflows svc) = Some w /\
       user_id w = u /\
       memory_service svc'
       = fst (Memory.store_context (set_order env) (now env) (query w)
                (Memory.mkContextData (Some content) (Some sources)
                                      (Some (PyFloat "1.0")))
                u (memory_service svc))) /\
    (MemoryViews.reachable (memory_service svc) ->
     MemoryViews.reachable (memory_service svc')) /\
    (forall e,
        outcome = Raise e ->
        memory_service svc' = memory_service svc /\
        (is_exception e = true -> svc' = svc) /\
        (is_exception e = false ->
         exists w',
           dict_get plan_id (active_workflows svc') = Some w' /\
           status w' = "executing")) /\
    (forall w', outcome = Ok w' -> status w' = "failed" ->
                memory_service svc' = memory_service svc).
Proof.
  intros env plan_id u svc svc' outcome.
  assert (Heffect :
            memory_service svc' = memory_service svc \/
            exists w content sources,
              dict_get plan_id (active_workflows svc) = Some w /\
              user_id w = u /\
              memory_service svc'
              = fst (Memory.store_context (set_order env) (now env) (query w)
                       (Memory.mkContextData (Some content) (Some sources)
                                             (Some (PyFloat "1.0")))
                       u (memory_service svc))).
  { subst svc'. unfold execute_research_plan.
    destruct (dict_get plan_id (active_workflows svc)) as [w|] eqn:Hget;
      [|now left].
    destruct (String.eqb_spec (Workflow.user_id w) u) as [Hu|Hu];
      cbn [negb]; [|now left].
    pose proof (run_plan_memory env u w (memory_service svc)) as M.
    cbv zeta in M.
    destruct (run_plan env u w (memory_service svc)) as [[w2 mem'] o].
    cbn [fst snd memory_service] in *.
    destruct M as ([->| ->] & _); [now left|].
    destruct (store_results_effect env
                (with_status "completed"
                   (fst (run_steps env u (memory_service svc) 0 (steps w)
                                   (started env w))))
                u (memory_service svc)) as [->|(content & sources & ->)];
      [now left|].
    right. exists w, content, sources.
    split; [reflexivity|]. split; [exact Hu|].
    cbn [query with_status].
    destruct (run_steps_frame env u (memory_service svc) (steps w) 0
                (started env w)) as (_ & Hq & _).
    cbv zeta in Hq. rewrite Hq. reflexivity. }
  split; [exact Heffect|]. split; [|split].
  - intros Hr. destruct Heffect as [->|(w & content & sources & _ & _ & ->)];
      [exact Hr|].
    now apply MemoryViews.reachable_store.
  - intros e. subst svc' outcome. unfold execute_research_plan.
    destruct (dict_get plan_id (active_workflows svc)) as [w|].
    2:{ cbn [fst snd]. intros [= <-].
        split; [reflexivity|]. split; [reflexivity|discriminate]. }
    destruct (negb _).
    { cbn [fst snd]. intros [= <-].
      split; [reflexivity|]. split; [reflexivity|discriminate]. }
    pose proof (run_plan_memory env u w (memory_service svc)) as M.
    cbv zeta in M.
    destruct (run_plan env u w (memory_service svc)) as [[w2 mem'] [[]|e0]];
      cbn [fst snd memory_service active_workflows] in *; [discriminate|].
    intros [= <-]. destruct M as (_ & _ & M).
    destruct (M e0 eq_refl) as (-> & Hne & Hst).
    split; [reflexivity|]. split; [rewrite Hne; discriminate|].
    intros _. exists w2. split; [apply dict_get_set_same|exact Hst].
  - intros w'. subst svc' outcome. unfold execute_research_plan.
    destruct (dict_get plan_id (active_workflows svc)) as [w|];
      [|discriminate].
    destruct (negb _); [discriminate|].
    pose proof (run_plan_memory env u w (memory_service svc)) as M.
    cbv zeta in M.
    destruct (run_plan env u w (memory_service svc)) as [[w2 mem'] [[]|e0]];
      cbn [fst snd memory_service] in *; [|discriminate].
    intros [= <-] Hfailed.
    destruct M as (_ & M & _). exact (M Hfailed).
Qed.
End ServiceMemory.


(* ===================================================================== *)
(** ** The execution summary of an executed plan *)
(* ===================================================================== *)

Section Summary.
Import PyStr Workflow.

Lemma step_tool_used env s w u mem r t :
  _execute_workflow_step env s w u mem = Ok r ->
  sr_tool_used r = Some t ->
  In t ["web_search"; "document_ingestion"; "memory_service";
        "workflow_synthesis"].
Proof.
  unfold _execute_workflow_step.
  destruct (dispatch_step env s w u mem) as [r0|e] eqn:Hd.
  2:{ destruct (is_exception e); [|discriminate].
      intros [= <-]. discriminate. }
  intros [= <-]. revert Hd. unfold dispatch_step.
  destruct (String.eqb (step_type s) "search").
  { unfold _execute_search_step.
    destruct (negb _); [intros [= <-]; discriminate|].
    destruct (get_tool _ _) as [tool|]; [|intros [= <-]; discriminate].
    destruct (tool _) as [out|e]; [|discriminate].
    intros [= <-]. cbn. intros [= <-]. auto. }
  destruct (String.eqb (step_type s) "analysis").
  { unfold _execute_analysis_step.
    destruct (negb _); [intros [= <-]; discriminate|].
    destruct (get_tool _ _) as [tool|]; [|intros [= <-]; discriminate].
    destruct (tool _) as [out|e]; [|discriminate].
    intros [= <-]. cbn. intros [= <-]. auto. }
  destruct (String.eqb (step_type s) "retrieval").
  { unfold _execute_retrieval_step. intros [= <-]. cbn. intros [= <-]. auto. }
  destruct (String.eqb (step_type s) "synthesis");
    [|intros [= <-]; discriminate].
  unfold _execute_synthesis_step.
  destruct (py_get _ _ _) as [v|e]; [|discriminate].
  intros [= <-]. cbn. intros [= <-]. auto 6.
Qed.

Lemma Forall_dict_set {V} (P : V -> Prop) k v (d : dict V) :
  Forall P (dict_values d) -> P v -> Forall P (dict_values (dict_set k v d)).
Proof.
  intros Hd Hv. induction d as [|[k0 v0] d IH]; simpl.
  - constructor; [exact Hv|constructor].
  - inversion Hd; subst. destruct (String.eqb k k0); simpl.
    + constructor; assumption.
    + constructor; [assumption|]. now apply IH.
Qed.

(** The loop writes results under the ids of its steps only, one key per
    id, and every tool name it records is one of the four of the source. *)
Lemma run_steps_results env u mem ids todo :
  forall i w,
    NoDup (dict_keys (results w)) ->
    incl (dict_keys (results w)) ids ->
    incl (map step_id todo) ids ->
    Forall (fun r => forall t, sr_tool_used r = Some t ->
                               In t ["web_search"; "document_ingestion";
                                     "memory_service"; "workflow_synthesis"])
           (dict_values (results w)) ->
    let w' := fst (run_steps env u mem i todo w) in
    NoDup (dict_keys (results w')) /\
    incl (dict_keys (results w')) ids /\
    Forall (fun r => forall t, sr_tool_used r = Some t ->
                               In t ["web_search"; "document_ingestion";
                                     "memory_service"; "workflow_synthesis"])
           (dict_values (results w')).
Proof.
  induction todo as [|s rest IH]; intros i w N I Hids F; cbn [run_steps].
  - cbv zeta. cbn [fst]. auto.
  - cbv zeta.
    destruct (_execute_workflow_step env s (with_current_step i w) u mem)
      as [r|e] eqn:Hr; [|cbn [fst results with_current_step]; auto].
    assert (N2 : NoDup (dict_keys (dict_set (step_id s) r (results w))))
      by now apply dict_keys_set_NoDup.
    assert (I2 : incl (dict_keys (dict_set (step_id s) r (results w))) ids).
    { rewrite dict_keys_set.
      destruct (in_dec string_dec (step_id s) (dict_keys (results w)));
        [exact I|].
      apply incl_app; [exact I|].
      intros x [<-|[]]. apply Hids. now left. }
    assert (F2 : Forall (fun r => forall t, sr_tool_used r = Some t ->
                               In t ["web_search"; "document_ingestion";
                                     "memory_service"; "workflow_synthesis"])
                   (dict_values (dict_set (step_id s) r (results w)))).
    { apply Forall_dict_set; [exact F|].
      intros t Ht. exact (step_tool_used _ _ _ _ _ _ _ Hr Ht). }
    destruct (String.eqb (sr_status r) "error").
    + cbn [fst results with_status with_errors with_results
           with_current_step].
      auto.
    + apply IH; cbn [results with_results with_current_step]; auto.
      intros x Hx. apply Hids. now right.
Qed.

(** X22: the summary of a plan that was created and then executed by its
    owner, whether the call returned or raised.  [get_workflow_results]
    shows the owner the plan with its query; the summary counts the steps
    of the plan, never more completed steps than steps (the success rate is
    at most 1), and lists each tool once, out of "web_search",
    "document_ingestion", "memory_service" and "workflow_synthesis"; every
    result sits under the id of a step of the plan.  The status is
    "executing" exactly when the call raised; a "completed" plan has no
    error, and a plan without errors is "completed" or, after a call that
    raised, "executing". *)
Theorem executed_plan_summary :
  forall env uuid_hex8 q u svc,
    let plan_id := "plan_" ++ uuid_hex8 in
    let plan := _analyze_query_and_create_plan q u in
    let svc1 := fst (create_research_plan uuid_hex8 (now env) q u svc) in
    let svc2 := fst (execute_research_plan env plan_id u svc1) in
    exists view,
      get_workflow_results env plan_id u svc2 = (svc2, Some view) /\
      rv_plan_id view = plan_id /\
      rv_query view = q /\
      total_steps (rv_execution_summary view) = length plan /\
      (completed_steps (rv_execution_summary view) <= length plan)%nat /\
      NoDup (tools_used (rv_execution_summary view)) /\
      (forall t, In t (tools_used (rv_execution_summary view)) ->
                 In t ["web_search"; "document_ingestion"; "memory_service";
                       "workflow_synthesis"]) /\
      (forall k r, dict_get k (rv_results view) = Some r ->
                   In k (map step_id plan)) /\
      (rv_status view = "executing" <->
       exists e, snd (execute_research_plan env plan_id u svc1) = Raise e) /\
      (rv_status view = "completed" -> rv_errors view = []) /\
      (rv_errors view = [] ->
       rv_status view = "completed" \/ rv_status view = "executing").
Proof.
  intros env uuid_hex8 q u svc pid plan svc1 svc2.
  set (W0 := mkWorkflow pid q u "planning" plan 0 (clock_iso (now env))
                        (clock_iso (now env)) [] []).
  assert (Hget1 : dict_get pid (active_workflows svc1) = Some W0).
  { subst svc1. unfold create_research_plan. cbn [fst active_workflows].
    apply dict_get_set_same. }
  pose proof (execute_owner env svc1 pid W0 Hget1) as E.
  change (Workflow.user_id W0) with u in E.
  change (memory_service svc1) with (memory_service svc) in E.
  set (mem := memory_service svc) in *.
  set (P := run_plan env u W0 mem) in *.
  assert (Hsvc2 : svc2
                  = mkService (dict_set pid (fst (fst P))
                                        (active_workflows svc1))
                              (snd (fst P))).
  { subst svc2. now rewrite E. }
  rewrite E. cbn [snd]. clear E.
  set (w_end := fst (run_steps env u mem 0 (steps W0) (started env W0))).
  destruct (run_steps_frame env u mem (steps W0) 0 (started env W0))
    as (_ & Fq & Fu & Fsteps & Fse).
  cbv zeta in Fq, Fu, Fsteps, Fse. fold w_end in Fq, Fu, Fsteps, Fse.
  destruct (run_steps_results env u mem (map step_id plan) (steps W0) 0
              (started env W0))
    as (RN & RI & RF).
  { constructor. }
  { intros x []. }
  { apply incl_refl. }
  { constructor. }
  cbv zeta in RN, RI, RF. fold w_end in RN, RI, RF.
  set (w' := fst (fst P)) in *.
  assert (Hw' : Workflow.user_id w' = u /\ query w' = q /\
                steps w' = plan /\ results w' = results w_end /\
                (status w' = "executing" <->
                 exists e, match snd P with
                           | Ok _ => Ok w'
                           | Raise e0 => Raise e0
                           end = Raise e) /\
                (status w' = "completed" -> errors w' = []) /\
                (errors w' = [] ->
                 status w' = "completed" \/ status w' = "executing")).
  { subst w' P.
    destruct (run_plan_cases env u W0 mem)
      as [(e & He & Hne & Hr)|[HR [[Hf Hr]|[Hnf [[Hs Hr]|[e0 [Hs Hr]]]]]]];
      fold w_end in Hr; rewrite Hr;
      cbn [fst snd Workflow.user_id query steps results errors status
           with_updated_at with_status with_errors];
      rewrite ?Fq, ?Fu, ?Fsteps;
      (split; [reflexivity|]); (split; [reflexivity|]);
      (split; [reflexivity|]); (split; [reflexivity|]).
    - destruct (run_steps_escape _ _ _ _ _ _ _ He) as (_ & Es & Ee).
      fold w_end in Es, Ee. rewrite Es, Ee. cbn.
      split; [split; [eauto|reflexivity]|].
      split; [reflexivity|]. intros _. now right.
    - fold w_end in Hf. rewrite Hf.
      split; [split; [discriminate|intros [e He]; discriminate]|].
      split; [discriminate|].
      destruct Fse as [[Hst _]|[_ [msg Hmsg]]].
      + rewrite Hf in Hst. discriminate.
      + rewrite Hmsg. intros Hnil.
        destruct (errors (started env W0)); discriminate.
    - split; [split; [discriminate|intros [e He]; discriminate]|].
      fold w_end in Hnf.
      destruct Fse as [[_ He]|[Hst _]]; [|contradiction].
      rewrite He. split; [reflexivity|]. intros _. now left.
    - split; [split; [discriminate|intros [e He]; discriminate]|].
      split; [discriminate|].
      unfold py_append. intros Hnil.
      destruct (errors w_end); discriminate. }
  destruct Hw' as (Hu & Hq & Hsteps & Hres & Hexec & Hdone & Hnone).
  eexists. split.
  { rewrite Hsvc2. unfold get_workflow_results.
    cbn [active_workflows]. rewrite dict_get_set_same.
    rewrite Hu, String.eqb_refl. cbn [negb]. reflexivity. }
  cbn [rv_plan_id rv_query rv_execution_summary rv_results rv_errors
       rv_status _create_execution_summary total_steps completed_steps
       tools_used].
  split; [reflexivity|]. split; [exact Hq|].
  split; [now rewrite Hsteps|].
  rewrite Hres.
  split; [|split; [|split; [|split; [|split; [exact Hexec|
                                            split; [exact Hdone|exact Hnone]]]]]].
  - apply Nat.le_trans with (length (dict_values (results w_end))).
    + apply filter_length_le.
    + unfold dict_values. rewrite length_map.
      rewrite <- (length_map fst (results w_end)).
      rewrite <- (length_map step_id plan).
      apply NoDup_incl_length; [exact RN|exact RI].
  - apply list_of_set_NoDup.
  - intros t Ht. apply list_of_set_In in Ht. apply in_flat_map in Ht.
    destruct Ht as (r & Hr & Ht).
    rewrite Forall_forall in RF. specialize (RF r Hr).
    destruct (sr_tool_used r) as [t0|]; [|contradiction].
    destruct (String.eqb t0 ""); [contradiction|].
    destruct Ht as [<-|[]]. now apply RF.
  - intros k r Hk. apply RI. apply dict_get_Some_keys. eauto.
Qed.
End Summary.


(* ===================================================================== *)
(** ** The registry behind the workflow engine *)
(* ===================================================================== *)

Section RegistryAndEngine.
Import PyStr Workflow.

Lemma unregister_tool_gone r name :
  PluginRegistry.registry_ok r ->
  PluginRegistry.get_tool name (fst (PluginRegistry.unregister_tool name r))
  = None.
Proof.
  intros (Nt & _). unfold PluginRegistry.unregister_tool,
    PluginRegistry.get_tool.
  destruct (dict_get name (PluginRegistry._tools r)) as [t|] eqn:E;
    [|exact E].
  destruct (dict_get name (PluginRegistry._tool_metadata r));
    cbn [fst PluginRegistry._tools]; now apply dict_get_del_same.
Qed.

(** X23: the registry decides the search step.  Take a registry built by
    its own operations and a query with a question word, so that its plan
    starts with the search step.  If the engine looks tools up in the
    registry after [unregister_tool("web_search")], executing the new plan
    ends "failed" with the one error "Step web_search: Web search tool not
    available", only the search step has a result, and the memory is
    untouched.  If it looks them up in the registry after [register_tool]
    of a tool named "web_search" whose [execute] returns for the query,
    the stored plan has a "completed" search result with the data that
    [execute] returned, whatever the later steps do and whether the call
    returns or a later tool's exception passes through. *)
Theorem registry_decides_search :
  forall r env uuid_hex8 q u svc,
    PluginRegistry.registry_ok r ->
    any_in question_words (lower q) = true ->
    let plan_id := "plan_" ++ uuid_hex8 in
    let svc1 := fst (create_research_plan uuid_hex8 (now env) q u svc) in
    (let env1 :=
       with_registry
         (PluginRegistry.engine_view
            (fst (PluginRegistry.unregister_tool "web_search" r))) env in
     exists svc2 w',
       execute_research_plan env1 plan_id u svc1 = (svc2, Ok w') /\
       status w' = "failed" /\
       errors w' = ["Step web_search: Web search tool not available"] /\
       results w' = [("web_search",
                      failed_with "Web search tool not available")] /\
       memory_service svc2 = memory_service svc) /\
    (forall tool metadata out,
        PluginRegistry.tool_name tool = "web_search" ->
        PluginRegistry.tool_execute tool (mkToolInput q "web_search" u)
        = Ok out ->
        let env2 :=
          with_registry
            (PluginRegistry.engine_view
               (PluginRegistry.register_tool tool metadata r)) env in
        exists w',
          dict_get plan_id
            (active_workflows
               (fst (execute_research_plan env2 plan_id u svc1))) = Some w' /\
          dict_get "web_search" (results w')
          = Some (completed_with (now env) (data out) "web_search")).
Proof.
  intros r env0 uuid_hex8 q u svc Hok Hq pid svc1.
  set (clk := now env0).
  set (plan := _analyze_query_and_create_plan q u).
  set (W0 := mkWorkflow pid q u "planning" plan 0 (clock_iso clk)
                        (clock_iso clk) [] []).
  assert (Hplan : exists rest,
             plan = web_search_step :: rest /\
             ~ In "web_search" (map step_id rest)).
  { subst plan. rewrite plan_shape, Hq.
    destruct (any_in document_words (lower q)); eexists;
      (split; [reflexivity|]); simpl; intuition discriminate. }
  destruct Hplan as (rest & Hplan & Hrest).
  assert (Hget1 : dict_get pid (active_workflows svc1) = Some W0).
  { subst svc1. unfold create_research_plan. cbn [fst active_workflows].
    apply dict_get_set_same. }
  assert (Hexec : forall env,
             execute_research_plan env pid u svc1
             = (mkService
                  (dict_set pid
                     (fst (fst (run_plan env u W0 (memory_service svc))))
                     (active_workflows svc1))
                  (snd (fst (run_plan env u W0 (memory_service svc)))),
                match snd (run_plan env u W0 (memory_service svc)) with
                | Ok _ => Ok (fst (fst (run_plan env u W0 (memory_service svc))))
                | Raise e => Raise e
                end)).
  { intros env. exact (execute_owner env svc1 pid W0 Hget1). }
  split.
  - intros env. rewrite Hexec.
    assert (Hnone : get_tool "web_search" (registry env) = None).
    { subst env. cbn [registry with_registry].
      rewrite engine_view_get_tool.
      rewrite (unregister_tool_gone r "web_search" Hok). reflexivity. }
    assert (Hend : run_steps env u (memory_service svc) 0
                     (steps (started env W0)) (started env W0)
                   = (with_status "failed"
                        (with_errors
                           ["Step web_search: Web search tool not available"]
                           (with_results
                              [("web_search",
                                failed_with "Web search tool not available")]
                              (with_current_step 0 (started env W0)))),
                      Ok tt)).
    { change (steps (started env W0)) with plan. rewrite Hplan.
      cbn [run_steps]. unfold _execute_workflow_step, dispatch_step.
      cbn [step_type web_search_step String.eqb Ascii.eqb Bool.eqb].
      unfold _execute_search_step.
      cbn [_check_dependencies depends_on web_search_step forallb negb].
      rewrite Hnone. reflexivity. }
    unfold run_plan. rewrite Hend.
    cbn [status with_status String.eqb Ascii.eqb Bool.eqb negb fst snd
         errors results with_updated_at with_errors with_results].
    eexists. eexists. split; [reflexivity|].
    cbn [status errors results with_status with_updated_at with_errors
         with_results memory_service].
    repeat split.
  - intros tool metadata out Hname Hout env.
    rewrite Hexec. cbn [fst active_workflows].
    eexists. split; [apply dict_get_set_same|].
    assert (Hsome : get_tool "web_search" (registry env)
                    = Some (PluginRegistry.tool_execute tool)).
    { subst env. cbn [registry with_registry].
      rewrite engine_view_get_tool.
      unfold PluginRegistry.get_tool, PluginRegistry.register_tool.
      cbn [PluginRegistry._tools]. rewrite Hname, dict_get_set_same.
      reflexivity. }
    destruct (run_plan_results env u W0 (memory_service svc)) as [-> _].
    change (steps W0) with plan. rewrite Hplan.
    assert (Hstep : _execute_workflow_step env web_search_step
                      (with_current_step 0 (started env W0)) u
                      (memory_service svc)
                    = Ok (completed_with clk (data out) "web_search")).
    { apply (step_search_ok env web_search_step _ u _
               (PluginRegistry.tool_execute tool) out);
        [reflexivity|reflexivity|exact Hsome|exact Hout]. }
    rewrite (run_steps_next env u (memory_service svc) 0 web_search_step
               rest (started env W0) _ Hstep) by discriminate.
    rewrite run_steps_other_keys by exact Hrest.
    cbn [results with_results]. apply dict_get_set_same.
Qed.

Lemma registry_decides_search_witness :
  (exists svc2 w',
      execute_research_plan
        (with_registry
           (PluginRegistry.engine_view
              (fst (PluginRegistry.unregister_tool "web_search"
                      (PluginRegistry.register_tool
                         (PluginRegistry.mkToolPlugin
                            "web_search" "Search the web for information"
                            "1.0.0" 30 Sample.broken_search)
                         None PluginRegistry.empty_registry))))
           Sample.env_no_tools)
        "plan_0a1b2c3d" "u1"
        (fst (create_research_plan "0a1b2c3d" Sample.clock0 "What is x?" "u1"
                                   new_service))
      = (svc2, Ok w') /\
      status w' = "failed") /\
  (exists w',
      dict_get "plan_0a1b2c3d"
        (active_workflows
           (fst (execute_research_plan
                   (with_registry
                      (PluginRegistry.engine_view
                         (PluginRegistry.register_tool
                            (PluginRegistry.mkToolPlugin
                               "web_search" "Search the web for information"
                               "1.1.0" 30 Sample.working_tool)
                            None
                            (PluginRegistry.register_tool
                               (PluginRegistry.mkToolPlugin
                                  "web_search"
                                  "Search the web for information"
                                  "1.0.0" 30 Sample.broken_search)
                               None PluginRegistry.empty_registry)))
                      Sample.env_no_tools)
                   "plan_0a1b2c3d" "u1"
                   (fst (create_research_plan "0a1b2c3d" Sample.clock0
                           "What is x?" "u1" new_service)))))
      = Some w' /\
      dict_get "web_search" (results w')
      = Some (completed_with Sample.clock0 (PyDict []) "web_search")).
Proof.
  destruct (registry_decides_search
              (PluginRegistry.register_tool
                 (PluginRegistry.mkToolPlugin
                    "web_search" "Search the web for information"
                    "1.0.0" 30 Sample.broken_search)
                 None PluginRegistry.empty_registry)
              Sample.env_no_tools "0a1b2c3d" "What is x?" "u1" new_service
              (registry_ok_register _ _ _ registry_ok_empty) eq_refl)
    as [(svc2 & w' & Hex & Hst & _) H2].
  split.
  - exists svc2, w'. split; [exact Hex|exact Hst].
  - destruct (H2 (PluginRegistry.mkToolPlugin
                    "web_search" "Search the web for information"
                    "1.1.0" 30 Sample.working_tool)
                 None (mkToolOutput true (PyDict []) None) eq_refl eq_refl)
      as (w2 & Hget & Hres).
    exists w2. split; [exact Hget|exact Hres].
Defined.
End RegistryAndEngine.


(* ===================================================================== *)
(** ** The statistics of the registry *)
(* ===================================================================== *)

Section RegistryStatistics.
Import PluginRegistry.

Lemma count_nonempty_le (d : dict Metadata) :
  (count_nonempty d <= length d)%nat.
Proof. apply filter_length_le. Qed.

Lemma count_nonempty_set_empty k (d : dict Metadata) :
  (count_nonempty (dict_set k [] d) <= count_nonempty d)%nat.
Proof.
  unfold count_nonempty.
  induction d as [|[k0 m0] d IH]; cbn [dict_set filter snd length]; [lia|].
  destruct (String.eqb k k0); cbn [filter snd].
  - destruct m0; cbn [length]; lia.
  - destruct m0; cbn [length]; lia.
Qed.

Lemma length_dict_set_new {V} k (v : V) (d : dict V) :
  ~ In k (dict_keys d) -> length (dict_set k v d) = S (length d).
Proof.
  intros H. rewrite <- (length_map fst (dict_set k v d)).
  change (map fst (dict_set k v d)) with (dict_keys (dict_set k v d)).
  rewrite dict_keys_set.
  destruct (in_dec string_dec k (dict_keys d)); [contradiction|].
  rewrite length_app. unfold dict_keys. rewrite length_map. simpl. lia.
Qed.

Lemma length_dict_set_old {V} k (v : V) (d : dict V) :
  In k (dict_keys d) -> length (dict_set k v d) = length d.
Proof.
  intros H. rewrite <- (length_map fst (dict_set k v d)).
  change (map fst (dict_set k v d)) with (dict_keys (dict_set k v d)).
  rewrite dict_keys_set.
  destruct (in_dec string_dec k (dict_keys d)); [|contradiction].
  unfold dict_keys. apply length_map.
Qed.

(** X24: [get_registry_stats] on a registry built by its own operations.
    The names it lists are those of [list_tools] and
    [list_learning_models], without repetition and as many as the totals;
    the plugins counted as having metadata are never more than the
    plugins.  Registering a tool without metadata adds one to the total
    when the name is new, keeps the total when the name was registered
    (the tool is replaced), and never raises the count of tools with
    metadata. *)
Theorem registry_stats_consistent :
  forall r,
    registry_ok r ->
    let s := get_registry_stats r in
    stat_tool_names s = list_tools r /\
    stat_model_names s = list_learning_models r /\
    NoDup (stat_tool_names s) /\
    NoDup (stat_model_names s) /\
    stat_total_tools s = length (stat_tool_names s) /\
    stat_total_models s = length (stat_model_names s) /\
    (stat_tools_with_metadata s <= stat_total_tools s)%nat /\
    (stat_models_with_metadata s <= stat_total_models s)%nat /\
    (forall tool,
        let s' := get_registry_stats (register_tool tool None r) in
        stat_total_tools s'
        = (if in_dec string_dec (tool_name tool) (list_tools r)
           then stat_total_tools s else S (stat_total_tools s)) /\
        (stat_tools_with_metadata s' <= stat_tools_with_metadata s)%nat /\
        stat_total_models s' = stat_total_models s).
Proof.
  intros r (Nt & Nm & Kt & Km & _) s. subst s.
  unfold get_registry_stats, list_tools, list_learning_models.
  cbn [stat_tool_names stat_model_names stat_total_tools stat_total_models
       stat_tools_with_metadata stat_models_with_metadata].
  split; [reflexivity|]. split; [reflexivity|].
  split; [exact Nt|]. split; [exact Nm|].
  split; [unfold dict_keys; now rewrite length_map|].
  split; [unfold dict_keys; now rewrite length_map|].
  split; [|split].
  - apply Nat.le_trans with (length (_tool_metadata r));
      [apply count_nonempty_le|].
    rewrite <- (length_map fst (_tool_metadata r)).
    rewrite <- (length_map fst (_tools r)).
    change (length (dict_keys (_tool_metadata r))
            <= length (dict_keys (_tools r)))%nat.
    rewrite Kt. apply Nat.le_refl.
  - apply Nat.le_trans with (length (_model_metadata r));
      [apply count_nonempty_le|].
    rewrite <- (length_map fst (_model_metadata r)).
    rewrite <- (length_map fst (_learning_models r)).
    change (length (dict_keys (_model_metadata r))
            <= length (dict_keys (_learning_models r)))%nat.
    rewrite Km. apply Nat.le_refl.
  - intros tool. unfold register_tool.
    cbn [_tools _learning_models _tool_metadata _model_metadata
         metadata_or_empty].
    split; [|split; [apply count_nonempty_set_empty|reflexivity]].
    destruct (in_dec string_dec (tool_name tool) (dict_keys (_tools r))).
    + now apply length_dict_set_old.
    + now apply length_dict_set_new.
Qed.

Lemma registry_stats_consistent_witness :
  stat_total_tools
    (get_registry_stats
       (register_tool
          (mkToolPlugin "web_search" "Search the web for information"
                        "1.0.0" 30 Sample.broken_search)
          None empty_registry))
  = 1%nat.
Proof.
  destruct (registry_stats_consistent empty_registry registry_ok_empty)
    as (_ & _ & _ & _ & _ & _ & _ & _ & H).
  destruct (H (mkToolPlugin "web_search" "Search the web for information"
                            "1.0.0" 30 Sample.broken_search)) as [H1 _].
  rewrite H1. reflexivity.
Defined.
End RegistryStatistics.
